(** * AIM@20 schedule generator: a shallow embedding and its properties

    The development embeds [app/ai/schedule_generator.py] (class
    [SmartScheduleGenerator]) and the parts of [app/models.py] it reads.

    Conventions of the embedding.
    - A Python call that can raise returns a [result]; [try ... except
      Exception] is [try_except].
    - Python [int] is [Z].  Python [float] is IEEE-754 binary64, taken from
      the Standard Library's [SpecFloat] (precision 53, emax 1024, round to
      nearest even); a decimal literal such as [1.2] is the correctly
      rounded quotient [lit 12 10].
    - A [datetime.date] is its ordinal ([date.toordinal()]), a
      [datetime.time] the pair (hour, minute), and a [datetime.datetime]
      the number of minutes since ordinal 0, 00:00: [datetime.combine date
      (time h m)] is [date * 1440 + h * 60 + m] and adding
      [timedelta(minutes=k)] adds [k].
    - [Task.due_date] is a [datetime.datetime] (a [DateTime] column, which
      the task routes fill with midnight of the due day) and is kept as
      the ordinal of that day.  A generation date is a [datetime.date],
      and a datetime and a date do not subtract: [due_date - current_date]
      raises [TypeError] ([datetime_minus_date]), which the prioritizer
      meets on every task that has a due date.  The sort key of the
      allocator and the productivity score of the task query keep the due
      date on the line of the ordinals, without that [TypeError]; what is
      proved about them is conditional on the code returning, and where
      the order of the allocator's sort is stated the due dates are
      required to compare ([comparable_due_dates]).
    - A [str] is a [string] of UTF-8 bytes; comparison is bytewise, which
      on UTF-8 is code-point order.
    - The persistence layer ([db.session], the [Task.query] calls) is an
      external collaborator: query results are fields of the generator
      state and a [Schedule] is the value that would be stored. *)

From Stdlib Require Import ZArith List String Ascii Bool Lia.
From Stdlib Require Import Permutation Sorted SpecFloat Zpower.
From Stdlib Require Import OrderedTypeEx.
Import ListNotations.
Local Open Scope string_scope.
Local Open Scope list_scope.
Local Open Scope Z_scope.

(** ** Exceptions *)

(** The exceptions the embedded code can raise; [ExternalFailure] stands
    for whatever a call to the external model raises. *)
Inductive exn : Type :=
| TypeError
| ValueError
| KeyError
| IndexError
| ZeroDivisionError
| OverflowError
| NameError
| AttributeError
| ExternalFailure.

Inductive result (A : Type) : Type :=
| Ok (a : A)
| Raise (e : exn).

Arguments Ok {A} a.
Arguments Raise {A} e.

Definition bind {A B : Type} (c : result A) (k : A -> result B) : result B :=
  match c with
  | Ok a => k a
  | Raise e => Raise e
  end.

Notation "x <- c ;; k" := (bind c (fun x => k))
  (at level 61, c at next level, right associativity).

(** [try: body except Exception: handler]. *)
Definition try_except {A : Type} (body : result A) (handler : exn -> result A)
  : result A :=
  match body with
  | Ok a => Ok a
  | Raise e => handler e
  end.

(** ** Python numbers *)

Module Py.

Definition b64_of_Z (z : Z) : spec_float := binary_normalize 53 1024 z 0 false.
Definition b64_mul : spec_float -> spec_float -> spec_float := SFmul 53 1024.
Definition b64_add : spec_float -> spec_float -> spec_float := SFadd 53 1024.
Definition b64_sub : spec_float -> spec_float -> spec_float := SFsub 53 1024.
Definition b64_div : spec_float -> spec_float -> spec_float := SFdiv 53 1024.

(** The double nearest to the decimal [n / d] (both exactly representable). *)
Definition lit (n d : Z) : spec_float := b64_div (b64_of_Z n) (b64_of_Z d).

(** A value that is an [int] or a [float]. *)
Inductive num : Type :=
| PInt (z : Z)
| PFloat (f : spec_float).

(** [float(z)]: [OverflowError] when [z] is beyond the doubles. *)
Definition float_of_int (z : Z) : result spec_float :=
  match b64_of_Z z with
  | S754_infinity _ => Raise OverflowError
  | f => Ok f
  end.

Definition signed (s : bool) (m : Z) : Z := if s then - m else m.

(** Exact comparison of an [int] with a [float], as Python does it
    (no conversion of the integer); [None] for a NaN. *)
Definition int_float_compare (z : Z) (f : spec_float) : option comparison :=
  match f with
  | S754_nan => None
  | S754_infinity s => Some (if s then Gt else Lt)
  | S754_zero _ => Some (z ?= 0)
  | S754_finite s m e =>
      if 0 <=? e then Some (z ?= signed s (Zpos m) * 2 ^ e)
      else Some (z * 2 ^ (- e) ?= signed s (Zpos m))
  end.

Definition compare (a b : num) : option comparison :=
  match a, b with
  | PInt x, PInt y => Some (x ?= y)
  | PFloat x, PFloat y => SFcompare x y
  | PInt x, PFloat y => int_float_compare x y
  | PFloat x, PInt y => option_map CompOpp (int_float_compare y x)
  end.

(** [a < b]. *)
Definition lt (a b : num) : bool :=
  match compare a b with
  | Some Lt => true
  | _ => false
  end.

(** [min(a, b)] keeps [a] unless [b < a]; [max(a, b)] keeps [a] unless
    [b > a]. *)
Definition min (a b : num) : num := if lt b a then b else a.
Definition max (a b : num) : num := if lt a b then b else a.

(** [x * c] for a float literal [c]. *)
Definition mul_float (x : num) (c : spec_float) : result num :=
  match x with
  | PInt z => f <- float_of_int z ;; Ok (PFloat (b64_mul f c))
  | PFloat f => Ok (PFloat (b64_mul f c))
  end.

(** [int(x)]: truncation toward zero. *)
Definition int_of_float (f : spec_float) : result Z :=
  match f with
  | S754_nan => Raise ValueError
  | S754_infinity _ => Raise OverflowError
  | S754_zero _ => Ok 0
  | S754_finite s m e =>
      Ok (signed s (if 0 <=? e then Zpos m * 2 ^ e else Zpos m / 2 ^ (- e)))
  end.

Definition int (x : num) : result Z :=
  match x with
  | PInt z => Ok z
  | PFloat f => int_of_float f
  end.

(** [round(f)] with one argument: the nearest integer, ties to even. *)
Definition round (f : spec_float) : result Z :=
  match f with
  | S754_nan => Raise ValueError
  | S754_infinity _ => Raise OverflowError
  | S754_zero _ => Ok 0
  | S754_finite s m e =>
      if 0 <=? e then Ok (signed s (Zpos m * 2 ^ e))
      else
        let d := 2 ^ (- e) in
        let q := Zpos m / d in
        let r := Zpos m mod d in
        let up :=
          match 2 * r ?= d with
          | Lt => false
          | Gt => true
          | Eq => Z.odd q
          end in
        Ok (signed s (if up then q + 1 else q))
  end.

(** [a / b] on two [int]s (true division).  Exact for operands that are
    representable doubles, which every call below satisfies. *)
Definition truediv (a b : Z) : result spec_float :=
  if b =? 0 then Raise ZeroDivisionError
  else Ok (b64_div (b64_of_Z a) (b64_of_Z b)).

(** [a % b] on [int]s: the sign of the divisor, as [Z.modulo]. *)
Definition mod_ (a b : Z) : result Z :=
  if b =? 0 then Raise ZeroDivisionError else Ok (a mod b).

(** [x or d] for an optional integer: [None] and [0] are falsy. *)
Definition or_int (x : option Z) (d : Z) : Z :=
  match x with
  | Some v => if v =? 0 then d else v
  | None => d
  end.

Definition lower_ascii (c : ascii) : ascii :=
  let n := N_of_ascii c in
  if (65 <=? n)%N && (n <=? 90)%N then ascii_of_N (n + 32) else c.

(** [s.lower()] on the ASCII letters.  Python also maps letters outside
    ASCII, but none of them to a string of the tables below. *)
Fixpoint lower (s : string) : string :=
  match s with
  | EmptyString => EmptyString
  | String c s' => String (lower_ascii c) (lower s')
  end.

(** [x or d] for an optional string: [None] and [''] are falsy. *)
Definition or_str (x : option string) (d : string) : string :=
  match x with
  | Some EmptyString => d
  | Some s => s
  | None => d
  end.

(** [s1 < s2] on strings. *)
Definition str_lt (s1 s2 : string) : bool :=
  match String.compare s1 s2 with
  | Lt => true
  | _ => false
  end.

(** [sorted(l, key=...)] given [lt a b], the test [key a < key b].  The
    sort is stable: the head of the input goes in front of the first
    element of the sorted tail whose key is not strictly smaller. *)
Fixpoint insert_asc {A : Type} (lt : A -> A -> bool) (x : A) (l : list A)
  : list A :=
  match l with
  | [] => [x]
  | y :: l' => if lt y x then y :: insert_asc lt x l' else x :: l
  end.

Definition sorted {A : Type} (lt : A -> A -> bool) (l : list A) : list A :=
  fold_right (insert_asc lt) [] l.

(** [sorted(l, key=..., reverse=True)]: descending, and still stable
    (equal keys keep their input order). *)
Fixpoint insert_desc {A : Type} (lt : A -> A -> bool) (x : A) (l : list A)
  : list A :=
  match l with
  | [] => [x]
  | y :: l' => if lt x y then y :: insert_desc lt x l' else x :: l
  end.

Definition sorted_reverse {A : Type} (lt : A -> A -> bool) (l : list A)
  : list A :=
  fold_right (insert_desc lt) [] l.

End Py.

(** ** Data model ([app/models.py]) *)

(** The values [_calculate_goal_alignment] can produce; it is the only
    writer of the attribute [task.goal_alignment]. *)
Inductive alignment : Type :=
| AlignNone       (* 0.0 *)
| AlignNeutral    (* 0.5 *)
| AlignCategory   (* 0.7 *)
| AlignLinked.    (* 1.0 *)

Module Task.
(** [goal_alignment] and [productivity_score] are no columns: they are
    attributes that [_get_productivity_tasks] sets on the object, [None]
    while unset (reading one then raises [AttributeError]). *)
Record t : Type := mk {
  id : Z;
  priority : string;
  category : option string;
  due_date : option Z;
  estimated_duration : option Z;
  goal_id : option Z;
  goal_alignment : option alignment;
  productivity_score : option spec_float
}.
End Task.
Definition Task : Type := Task.t.

Module Goal.
Record t : Type := mk {
  id : Z;
  category : option string
}.
End Goal.
Definition Goal : Type := Goal.t.

Module UserSettings.
(** [preferred_study_times] is the decoded JSON list, [None] for a NULL or
    empty column. *)
Record t : Type := mk {
  pomodoro_work_duration : Z;
  pomodoro_break_duration : Z;
  long_break_duration : Z;
  sessions_until_long_break : Z;
  preferred_study_times : option (list string)
}.
End UserSettings.
Definition UserSettings : Type := UserSettings.t.

Module ScheduleTask.
Record t : Type := mk {
  task_id : Z;
  scheduled_time : Z;
  duration : Z
}.
End ScheduleTask.
Definition ScheduleTask : Type := ScheduleTask.t.

Module Schedule.
Record t : Type := mk {
  date : Z;
  generated_by_ai : bool;
  total_study_time : Z;
  tasks : list ScheduleTask
}.
End Schedule.
Definition Schedule : Type := Schedule.t.

(** One recorded hour of [self.energy_patterns]; such an entry has no key
    ['energy']. *)
Record HourPattern : Type := {
  avg_energy : spec_float;
  avg_focus : spec_float;
  avg_productivity : spec_float
}.

(** The state of a [SmartScheduleGenerator] and what the database answers
    to its queries. *)
Record Generator : Type := {
  user_settings : option UserSettings;
  energy_patterns : list (Z * HourPattern);
  api_available : bool;
  (* the query of [_get_productivity_tasks] *)
  pending_productivity_tasks : list Task;
  (* the query of [_get_enterprise_tasks] *)
  pending_enterprise_tasks : list Task;
  (* the query of [_generate_basic_schedule], already limited to 5 *)
  pending_basic_tasks : list Task;
  active_goals : list Goal
}.

(** An allocation tuple [(task.id, scheduled_datetime, duration)]. *)
Definition allocation : Type := (Z * Z * Z)%type.

Definition alloc_start (a : allocation) : Z := snd (fst a).
Definition alloc_duration (a : allocation) : Z := snd a.
Definition alloc_end (a : allocation) : Z := alloc_start a + alloc_duration a.

(** [datetime.datetime.combine(date, datetime.time(h, m))]. *)
Definition datetime_combine (date : Z) (hm : Z * Z) : Z :=
  date * 1440 + fst hm * 60 + snd hm.

(** [due_date - current_date] where [due_date] is a [datetime.datetime]
    (the [DateTime] column of [Task]) and [current_date] a
    [datetime.date]: the two types do not subtract. *)
Definition datetime_minus_date (due_date current_date : Z) : result Z :=
  Raise TypeError.

(** ** The duration estimator *)

(** The dictionary [category_multipliers]. *)
Definition category_multipliers (key : string) : option spec_float :=
  if String.eqb key "exam" then Some (Py.lit 13 10)
  else if String.eqb key "assignment" then Some (Py.lit 11 10)
  else if String.eqb key "reading" then Some (Py.lit 9 10)
  else if String.eqb key "practice" then Some (Py.lit 1 1)
  else if String.eqb key "review" then Some (Py.lit 8 10)
  else None.

(** [task.category and task.category.lower() in category_multipliers],
    with the multiplier found. *)
Definition category_multiplier (task : Task) : option spec_float :=
  match Task.category task with
  | None => None
  | Some EmptyString => None
  | Some c => category_multipliers (Py.lower c)
  end.

(** The last two statements of [_calculate_optimal_duration]. *)
Definition clamp_and_round (ib available_time : Z) : result Z :=
  let duration := Z.max 15 (Z.min ib (Z.min available_time 120)) in
  q <- Py.truediv duration 5 ;;
  r <- Py.round q ;;
  Ok (r * 5).

Definition _calculate_optimal_duration
  (task : Task) (available_time default_duration : Z) : result Z :=
  let base_duration :=
    Py.PInt (Py.or_int (Task.estimated_duration task) default_duration) in
  base_duration <-
    (if String.eqb (Task.priority task) "high" then
       x <- Py.mul_float base_duration (Py.lit 12 10) ;;
       Ok (Py.min x (Py.PInt available_time))
     else if String.eqb (Task.priority task) "low" then
       x <- Py.mul_float base_duration (Py.lit 8 10) ;;
       Ok (Py.max x (Py.PInt 15))
     else Ok base_duration) ;;
  base_duration <-
    match category_multiplier task with
    | Some c => Py.mul_float base_duration c
    | None => Ok base_duration
    end ;;
  ib <- Py.int base_duration ;;
  clamp_and_round ib available_time.

(** ** The day skeleton *)

(** One entry of the skeleton: the keys ['start'], ['end'] and ['type'] of
    the dict (['description'] is never read). *)
Record TimeBlock : Type := {
  block_start : Z;
  block_end : Z;
  block_type : string
}.

Definition _create_advanced_daily_structure (date : Z) : list TimeBlock :=
  let at_ h m := datetime_combine date (h, m) in
  [ {| block_start := at_ 8 0;   block_end := at_ 9 0;   block_type := "morning_routine" |};
    {| block_start := at_ 9 0;   block_end := at_ 10 30; block_type := "study" |};
    {| block_start := at_ 10 30; block_end := at_ 11 0;  block_type := "break" |};
    {| block_start := at_ 11 0;  block_end := at_ 12 30; block_type := "study" |};
    {| block_start := at_ 12 30; block_end := at_ 13 30; block_type := "meal" |};
    {| block_start := at_ 13 30; block_end := at_ 15 0;  block_type := "study" |};
    {| block_start := at_ 15 0;  block_end := at_ 15 30; block_type := "break" |};
    {| block_start := at_ 15 30; block_end := at_ 17 0;  block_type := "study" |};
    {| block_start := at_ 17 0;  block_end := at_ 18 0;  block_type := "meal" |};
    {| block_start := at_ 18 0;  block_end := at_ 19 30; block_type := "study" |};
    {| block_start := at_ 19 30; block_end := at_ 20 0;  block_type := "wind_down" |} ].

(** [(block_end - block_start).seconds // 60]: the [seconds] of a
    [timedelta] are normalised into one day. *)
Definition available_minutes (b : TimeBlock) : Z :=
  ((block_end b - block_start b) * 60) mod 86400 / 60.

(** ** The rule-based allocator *)

(** The four settings [_allocate_tasks_fallback] reads into locals. *)
Record Pomodoro : Type := {
  work_duration : Z;
  break_duration : Z;
  long_break_duration : Z;
  sessions_until_long_break : Z
}.

Definition pomodoro_settings (g : Generator) : Pomodoro :=
  match user_settings g with
  | Some s =>
      {| work_duration := UserSettings.pomodoro_work_duration s;
         break_duration := UserSettings.pomodoro_break_duration s;
         long_break_duration := UserSettings.long_break_duration s;
         sessions_until_long_break := UserSettings.sessions_until_long_break s |}
  | None =>
      {| work_duration := 25;
         break_duration := 5;
         long_break_duration := 15;
         sessions_until_long_break := 4 |}
  end.

(** [0 if t.priority == 'high' else 1 if t.priority == 'medium' else 2]. *)
Definition priority_rank (t : Task) : Z :=
  if String.eqb (Task.priority t) "high" then 0
  else if String.eqb (Task.priority t) "medium" then 1
  else 2.

(** [datetime.date.max.toordinal()]. *)
Definition date_max : Z := 3652059.

(** The sort key [(rank, t.due_date or date.max, t.category or 'z')]. *)
Definition sort_key (t : Task) : Z * Z * string :=
  (priority_rank t,
   match Task.due_date t with Some d => d | None => date_max end,
   Py.or_str (Task.category t) "z").

(** [k1 < k2] on these tuples: lexicographic. *)
Definition sort_key_lt (k1 k2 : Z * Z * string) : bool :=
  let '(r1, d1, c1) := k1 in
  let '(r2, d2, c2) := k2 in
  if r1 <? r2 then true
  else if r2 <? r1 then false
  else if d1 <? d2 then true
  else if d2 <? d1 then false
  else Py.str_lt c1 c2.

Inductive break_kind : Type :=
| ShortBreak
| LongBreak.

(** What the allocator does, in order: a session is an appended
    allocation; a break is the step the source only accounts for by moving
    [block_start_time] ("this would be handled by pomodoro system"). *)
Inductive event : Type :=
| Session (a : allocation)
| Break (kind : break_kind) (start duration : Z).

Fixpoint sessions_of (log : list event) : list allocation :=
  match log with
  | [] => []
  | Session a :: log' => a :: sessions_of log'
  | Break _ _ _ :: log' => sessions_of log'
  end.

(** The step "Add break after work session": [more_tasks] is
    [task_index < len(sorted_tasks)].  The result is the break (if one is
    scheduled), [block_start_time], [remaining_block_time] and
    [session_count]. *)
Definition insert_break (cfg : Pomodoro) (more_tasks : bool)
  (block_start_time remaining_block_time session_count : Z)
  : result (list event * Z * Z * Z) :=
  if (break_duration cfg <=? remaining_block_time) && more_tasks then
    m <- Py.mod_ session_count (sessions_until_long_break cfg) ;;
    let break_duration_actual :=
      if negb (m =? 0) then break_duration cfg else long_break_duration cfg in
    if break_duration_actual <=? remaining_block_time then
      Ok ([Break (if m =? 0 then LongBreak else ShortBreak)
             block_start_time break_duration_actual],
          block_start_time + break_duration_actual,
          remaining_block_time - break_duration_actual,
          if m =? 0 then 0 else session_count)
    else Ok ([], block_start_time, remaining_block_time, session_count)
  else Ok ([], block_start_time, remaining_block_time, session_count).

(** The [while] loop over one block.  [tasks] is [sorted_tasks[task_index:]];
    the result is the log of the block, the tasks left and
    [session_count]. *)
Fixpoint pack_block (cfg : Pomodoro) (tasks : list Task)
  (block_start_time remaining_block_time session_count : Z)
  : result (list event * list Task * Z) :=
  match tasks with
  | [] => Ok ([], [], session_count)
  | task :: rest =>
      if remaining_block_time <? work_duration cfg then
        Ok ([], tasks, session_count)
      else
        duration <- _calculate_optimal_duration task remaining_block_time
                      (work_duration cfg) ;;
        if duration <=? remaining_block_time then
          let scheduled_datetime := block_start_time in
          let this := Session (Task.id task, scheduled_datetime, duration) in
          st <- insert_break cfg
                  (match rest with [] => false | _ :: _ => true end)
                  (block_start_time + duration)
                  (remaining_block_time - duration)
                  (session_count + 1) ;;
          let '(brk, block_start_time, remaining_block_time, session_count) := st in
          r <- pack_block cfg rest block_start_time remaining_block_time
                 session_count ;;
          let '(log, tasks_left, session_count) := r in
          Ok (this :: brk ++ log, tasks_left, session_count)
        else
          (* Can't fit this task, try next block *)
          Ok ([], tasks, session_count)
  end.

(** The [for] loop over the skeleton. *)
Fixpoint allocate_blocks (cfg : Pomodoro) (daily_schedule : list TimeBlock)
  (tasks : list Task) (session_count : Z) : result (list event) :=
  match daily_schedule with
  | [] => Ok []
  | time_block :: blocks =>
      match tasks with
      | [] => Ok []
      | _ :: _ =>
          (* Skip break blocks for task scheduling *)
          if String.eqb (block_type time_block) "break" then
            allocate_blocks cfg blocks tasks session_count
          else
            r <- pack_block cfg tasks (block_start time_block)
                   (available_minutes time_block) session_count ;;
            let '(log, tasks_left, session_count) := r in
            log' <- allocate_blocks cfg blocks tasks_left session_count ;;
            Ok (log ++ log')
      end
  end.

Definition sorted_tasks (tasks : list Task) : list Task :=
  Py.sorted (fun a b => sort_key_lt (sort_key a) (sort_key b)) tasks.

(** The log of [_allocate_tasks_fallback]: its allocations and the breaks
    between them. *)
Definition allocation_log (g : Generator) (tasks : list Task) (date : Z)
  : result (list event) :=
  allocate_blocks (pomodoro_settings g) (_create_advanced_daily_structure date)
    (sorted_tasks tasks) 0.

Definition _allocate_tasks_fallback (g : Generator) (tasks : list Task)
  (date : Z) : result (list allocation) :=
  log <- allocation_log g tasks date ;;
  Ok (sessions_of log).

(** ** Preferred study times *)

Definition digit_value (c : ascii) : option Z :=
  let n := N_of_ascii c in
  if (48 <=? n)%N && (n <=? 57)%N then Some (Z.of_N n - 48) else None.

(** The minutes of ['%H:%M']: the regular expression [[0-5]\d|\d], then the
    end of the string ("unconverted data remains" otherwise). *)
Definition parse_minute (s : string) : result Z :=
  match s with
  | String c1 (String c2 EmptyString) =>
      match digit_value c1, digit_value c2 with
      | Some a, Some b => if a <=? 5 then Ok (a * 10 + b) else Raise ValueError
      | _, _ => Raise ValueError
      end
  | String c1 EmptyString =>
      match digit_value c1 with
      | Some a => Ok a
      | None => Raise ValueError
      end
  | _ => Raise ValueError
  end.

(** [datetime.datetime.strptime(s, '%H:%M').time()].  The hour is
    [2[0-3]|[0-1]\d|\d] followed by a colon.  Digits are the ASCII ones. *)
Definition strptime_HM (s : string) : result (Z * Z) :=
  match s with
  | String c1 (String c2 (String ":" rest)) =>
      match digit_value c1, digit_value c2 with
      | Some a, Some b =>
          if ((a =? 2) && (b <=? 3)) || (a <=? 1) then
            m <- parse_minute rest ;; Ok (a * 10 + b, m)
          else Raise ValueError
      | _, _ => Raise ValueError
      end
  | String c1 (String ":" rest) =>
      match digit_value c1 with
      | Some a => m <- parse_minute rest ;; Ok (a, m)
      | None => Raise ValueError
      end
  | _ => Raise ValueError
  end.

(** A list comprehension whose element expression can raise. *)
Fixpoint map_result {A B : Type} (f : A -> result B) (l : list A)
  : result (list B) :=
  match l with
  | [] => Ok []
  | x :: l' => y <- f x ;; ys <- map_result f l' ;; Ok (y :: ys)
  end.

Definition _get_preferred_times (g : Generator) : result (list (Z * Z)) :=
  match user_settings g with
  | Some s =>
      match UserSettings.preferred_study_times s with
      | Some times => map_result strptime_HM times
      | None => Ok [(9, 0); (14, 0); (19, 0)]
      end
  | None => Ok [(9, 0); (14, 0); (19, 0)]
  end.

(** ** Building the stored schedule *)

Definition schedule_task_of (a : allocation) : ScheduleTask :=
  {| ScheduleTask.task_id := fst (fst a);
     ScheduleTask.scheduled_time := alloc_start a;
     ScheduleTask.duration := alloc_duration a |}.

(** [sum(...)]. *)
Definition sum (l : list Z) : Z := fold_left Z.add l 0.

Definition schedule_of (date : Z) (by_ai : bool) (allocations : list allocation)
  : Schedule :=
  {| Schedule.date := date;
     Schedule.generated_by_ai := by_ai;
     Schedule.total_study_time := sum (map alloc_duration allocations);
     Schedule.tasks := map schedule_task_of allocations |}.

Definition empty_schedule (date : Z) (by_ai : bool) : Schedule :=
  {| Schedule.date := date;
     Schedule.generated_by_ai := by_ai;
     Schedule.total_study_time := 0;
     Schedule.tasks := [] |}.

Definition _generate_empty_schedule (date : Z) : Schedule :=
  empty_schedule date true.

(** ** The advanced and the basic tier *)

Definition _get_enterprise_tasks (g : Generator) (date : Z) : list Task :=
  pending_enterprise_tasks g.

Definition _generate_advanced_schedule (g : Generator) (date : Z)
  (tasks : option (list Task)) : result Schedule :=
  let tasks :=
    match tasks with
    | None => _get_enterprise_tasks g date
    | Some l => l
    end in
  match tasks with
  | [] => Ok (empty_schedule date true)
  | _ :: _ =>
      scheduled_tasks <- _allocate_tasks_fallback g tasks date ;;
      Ok (schedule_of date true scheduled_tasks)
  end.

(** The loop of the basic tier: one task per preferred time slot. *)
Fixpoint basic_allocations (date : Z) (tasks : list Task)
  (preferred_times : list (Z * Z)) : list allocation :=
  match tasks, preferred_times with
  | task :: tasks', t :: times' =>
      (Task.id task, datetime_combine date t,
       Py.or_int (Task.estimated_duration task) 25)
      :: basic_allocations date tasks' times'
  | _, _ => []
  end.

(** [date + datetime.timedelta(days=k)]: a date has an ordinal from 1 to
    that of [date.max], and a result outside raises [OverflowError]. *)
Definition date_plus_days (date k : Z) : result Z :=
  if (1 <=? date + k) && (date + k <=? date_max) then Ok (date + k)
  else Raise OverflowError.

Definition _generate_basic_schedule (g : Generator) (date : Z)
  (tasks : option (list Task)) : result Schedule :=
  tasks <-
    match tasks with
    | None =>
        (* the query filters on [date + datetime.timedelta(days=7)] *)
        _ <- date_plus_days date 7 ;;
        Ok (pending_basic_tasks g)
    | Some l => Ok l
    end ;;
  match tasks with
  | [] => Ok (empty_schedule date false)
  | _ :: _ =>
      preferred_times <- _get_preferred_times g ;;
      Ok (schedule_of date false (basic_allocations date tasks preferred_times))
  end.

(** ** The productivity-optimized tier *)

Definition alignment_value (a : alignment) : spec_float :=
  match a with
  | AlignNone => Py.lit 0 1
  | AlignNeutral => Py.lit 5 10
  | AlignCategory => Py.lit 7 10
  | AlignLinked => Py.lit 1 1
  end.

(** [needle in hay] on strings. *)
Fixpoint contains (needle hay : string) : bool :=
  if String.prefix needle hay then true
  else
    match hay with
    | EmptyString => false
    | String _ hay' => contains needle hay'
    end.

(** The [elif] test of [_calculate_goal_alignment]. *)
Definition category_matches (task : Task) (goal : Goal) : bool :=
  match Task.category task, Goal.category goal with
  | Some (String a s), Some (String b u) =>
      contains (Py.lower (String a s)) (Py.lower (String b u))
  | _, _ => false
  end.

(** The [for] loop over the goals; [alignment_score] is 0.0 or 0.7. *)
Fixpoint goal_alignment_loop (task : Task) (goals : list Goal)
  (alignment_score : alignment) : alignment :=
  match goals with
  | [] => alignment_score
  | goal :: goals' =>
      if match Task.goal_id task with
         | Some i => i =? Goal.id goal
         | None => false
         end
      then AlignLinked
      else if category_matches task goal then
        (* max(alignment_score, 0.7) *)
        goal_alignment_loop task goals' AlignCategory
      else goal_alignment_loop task goals' alignment_score
  end.

Definition _calculate_goal_alignment (task : Task) (active_goals : list Goal)
  : alignment :=
  match active_goals with
  | [] => AlignNeutral
  | _ :: _ => goal_alignment_loop task active_goals AlignNone
  end.

(** [min(a, b)] and [max(a, b)] on two floats. *)
Definition fmin (a b : spec_float) : spec_float :=
  if SFltb b a then b else a.
Definition fmax (a b : spec_float) : spec_float :=
  if SFltb a b then b else a.

Definition _calculate_productivity_score (task : Task) (date : Z)
  : spec_float :=
  let base_score := Py.lit 5 10 in
  let base_score :=
    if String.eqb (Task.priority task) "high" then
      Py.b64_add base_score (Py.lit 2 10)
    else if String.eqb (Task.priority task) "medium" then
      Py.b64_add base_score (Py.lit 1 10)
    else base_score in
  let base_score :=
    match Task.due_date task with
    | Some due =>
        let days_until_due := due - date in
        if days_until_due <=? 1 then Py.b64_add base_score (Py.lit 2 10)
        else if days_until_due <=? 3 then Py.b64_add base_score (Py.lit 1 10)
        else base_score
    | None => base_score
    end in
  fmin base_score (Py.lit 1 1).

(** [t.priority == 'high' and 3 or t.priority == 'medium' and 2 or 1]; the
    same number is ['base_priority'] in the prioritizer. *)
Definition base_priority (t : Task) : Z :=
  if String.eqb (Task.priority t) "high" then 3
  else if String.eqb (Task.priority t) "medium" then 2
  else 1.

(** The body of the enhancing loop: both attributes are set on the task. *)
Definition enhance (g : Generator) (date : Z) (task : Task) : Task :=
  {| Task.id := Task.id task;
     Task.priority := Task.priority task;
     Task.category := Task.category task;
     Task.due_date := Task.due_date task;
     Task.estimated_duration := Task.estimated_duration task;
     Task.goal_id := Task.goal_id task;
     Task.goal_alignment :=
       Some (_calculate_goal_alignment task (active_goals g));
     Task.productivity_score :=
       Some (_calculate_productivity_score task date) |}.

(** The attribute [t.productivity_score] in the sort key; every task of
    [enhanced_tasks] has it set. *)
Definition score_attr (t : Task) : spec_float :=
  match Task.productivity_score t with
  | Some v => v
  | None => S754_nan
  end.

(** [k1 < k2] on the keys [(base_priority, productivity_score)]. *)
Definition productivity_key_lt (a b : Task) : bool :=
  if base_priority a <? base_priority b then true
  else if base_priority b <? base_priority a then false
  else SFltb (score_attr a) (score_attr b).

Definition _get_productivity_tasks (g : Generator) (date : Z) : list Task :=
  let base_tasks := pending_productivity_tasks g in
  let enhanced_tasks := map (enhance g date) base_tasks in
  let enhanced_tasks := Py.sorted_reverse productivity_key_lt enhanced_tasks in
  firstn 10 enhanced_tasks.

Definition _calculate_due_date_urgency (due_date : option Z) (current_date : Z)
  : result spec_float :=
  match due_date with
  | None => Ok (Py.lit 3 10)
  | Some due =>
      days_until_due <- datetime_minus_date due current_date ;;
      Ok (if days_until_due <? 0 then Py.lit 1 1
          else if days_until_due =? 0 then Py.lit 9 10
          else if days_until_due <=? 3 then Py.lit 7 10
          else if days_until_due <=? 7 then Py.lit 5 10
          else Py.lit 2 10)
  end.

Definition _predict_energy_requirement (task : Task) : spec_float := Py.lit 5 1.

Definition _get_task_performance_history (task : Task) : spec_float :=
  Py.lit 5 10.

(** The dictionary [category_estimates] with its default 30. *)
Definition category_estimates (key : string) : Z :=
  if String.eqb key "exam" then 90
  else if String.eqb key "assignment" then 60
  else if String.eqb key "reading" then 45
  else if String.eqb key "practice" then 30
  else if String.eqb key "review" then 25
  else 30.

Definition _estimate_task_duration (task : Task) : result Z :=
  let base_duration :=
    category_estimates
      match Task.category task with
      | Some (String a s) => Py.lower (String a s)
      | _ => "general"
      end in
  base_duration <-
    (if String.eqb (Task.priority task) "high" then
       x <- Py.mul_float (Py.PInt base_duration) (Py.lit 12 10) ;; Py.int x
     else if String.eqb (Task.priority task) "low" then
       x <- Py.mul_float (Py.PInt base_duration) (Py.lit 8 10) ;; Py.int x
     else Ok base_duration) ;;
  Ok (Z.max 15 (Z.min base_duration 120)).

(** One entry of the prioritized list (['optimal_energy_time'] is the
    constant 09:00 and is never read). *)
Record Prioritized : Type := {
  p_task : Task;
  priority_score : spec_float;
  p_estimated_duration : Z;
  p_category : string
}.

(** [final_score]: the weighted sum of the priority factors, added left
    to right. *)
Definition final_score (task : Task) (due_date_urgency : spec_float)
  (goal_alignment : alignment) : spec_float :=
  let add := Py.b64_add in
  let mul := Py.b64_mul in
  add (add (add (add
    (mul (Py.b64_of_Z (base_priority task)) (Py.lit 3 10))
    (mul due_date_urgency (Py.lit 25 100)))
    (mul (_predict_energy_requirement task) (Py.lit 2 10)))
    (mul (alignment_value goal_alignment) (Py.lit 15 100)))
    (mul (_get_task_performance_history task) (Py.lit 1 10)).

(** The body of the loop: the factors are evaluated in the order of the
    dict display, the urgency before the attribute [task.goal_alignment]. *)
Definition prioritize_one (date : Z) (task : Task) : result Prioritized :=
  due_date_urgency <- _calculate_due_date_urgency (Task.due_date task) date ;;
  match Task.goal_alignment task with
  | None => Raise AttributeError
  | Some ga =>
      estimated <-
        match Task.estimated_duration task with
        | Some v => if v =? 0 then _estimate_task_duration task else Ok v
        | None => _estimate_task_duration task
        end ;;
      Ok {| p_task := task;
            priority_score := final_score task due_date_urgency ga;
            p_estimated_duration := estimated;
            p_category := Py.or_str (Task.category task) "General" |}
  end.

Definition _prioritize_for_productivity (tasks : list Task) (date : Z)
  : result (list Prioritized) :=
  prioritized <- map_result (prioritize_one date) tasks ;;
  Ok (Py.sorted_reverse
        (fun x y => SFltb (priority_score x) (priority_score y))
        prioritized).

(** An entry of the energy forecast: an hour of the recorded patterns
    (which has no key ['energy']) or of the default table. *)
Inductive forecast_entry : Type :=
| Recorded (p : HourPattern)
| Forecast (energy : spec_float).

(** [entry['energy']]. *)
Definition entry_energy (e : forecast_entry) : result spec_float :=
  match e with
  | Recorded _ => Raise KeyError
  | Forecast x => Ok x
  end.

(** [range(a, a + n)]. *)
Definition range (a : Z) (n : nat) : list Z :=
  map (fun k => a + Z.of_nat k) (seq 0 n).

Definition _get_energy_forecast (g : Generator) (date : Z)
  : list (Z * forecast_entry) :=
  match energy_patterns g with
  | _ :: _ => map (fun hp => (fst hp, Recorded (snd hp))) (energy_patterns g)
  | [] =>
      map (fun hour =>
             (hour,
              Forecast
                (fmax (Py.lit 3 1)
                   (Py.b64_sub (Py.lit 8 1) (Py.b64_of_Z (Z.abs (hour - 10)))))))
          (range 6 16)
  end.

Definition _time_in_range (time preferred_time : Z * Z) : bool :=
  let time_minutes := fst time * 60 + snd time in
  let preferred_minutes := fst preferred_time * 60 + snd preferred_time in
  Z.abs (time_minutes - preferred_minutes) <=? 60.

(** A block of the productivity schedule: a placed task or an injected
    break (a dict with ['type'] = ['break']). *)
Inductive schedule_block : Type :=
| TaskBlock (task : Task) (scheduled_time duration : Z)
| BreakBlock (scheduled_time duration : Z).

(** [datetime.time(hour, 0)]. *)
Definition time_of_hour (hour : Z) : result (Z * Z) :=
  if (0 <=? hour) && (hour <=? 23) then Ok (hour, 0) else Raise ValueError.

(** The [for] loop over the hours sorted by energy.  [tasks] is
    [prioritized_tasks[task_index:]]; the tasks left are returned. *)
Fixpoint energy_loop (date : Z) (preferred_times : list (Z * Z))
  (slots : list (Z * spec_float)) (tasks : list Prioritized)
  : result (list schedule_block * list Prioritized) :=
  match slots with
  | [] => Ok ([], tasks)
  | (hour, energy) :: slots' =>
      match tasks with
      | [] => Ok ([], [])
      | task_data :: tasks' =>
          hour_time <- time_of_hour hour ;;
          if existsb (_time_in_range hour_time) preferred_times
             && SFleb (Py.lit 3 1) energy
          then
            r <- energy_loop date preferred_times slots' tasks' ;;
            Ok (TaskBlock (p_task task_data) (datetime_combine date hour_time)
                  (p_estimated_duration task_data) :: fst r, snd r)
          else energy_loop date preferred_times slots' tasks
      end
  end.

(** The closing [while] loop: the tasks left go to
    [preferred_times[task_index % len(preferred_times)]]. *)
Fixpoint fallback_loop (date : Z) (preferred_times : list (Z * Z))
  (task_index : Z) (tasks : list Prioritized) : result (list schedule_block) :=
  match tasks with
  | [] => Ok []
  | task_data :: tasks' =>
      i <- Py.mod_ task_index (Z.of_nat (List.length preferred_times)) ;;
      match nth_error preferred_times (Z.to_nat i) with
      | None => Raise IndexError
      | Some t =>
          rest <- fallback_loop date preferred_times (task_index + 1) tasks' ;;
          Ok (TaskBlock (p_task task_data) (datetime_combine date t)
                (p_estimated_duration task_data) :: rest)
      end
  end.

Definition _allocate_energy_aware_times (g : Generator)
  (prioritized_tasks : list Prioritized) (date : Z)
  : result (list schedule_block) :=
  preferred_times <- _get_preferred_times g ;;
  let energy_forecast := _get_energy_forecast g date in
  keyed <- map_result
             (fun he => e <- entry_energy (snd he) ;; Ok (fst he, e))
             energy_forecast ;;
  let energy_sorted_slots :=
    Py.sorted_reverse (fun x y => SFltb (snd x) (snd y)) keyed in
  r <- energy_loop date preferred_times energy_sorted_slots prioritized_tasks ;;
  let '(allocations, tasks_left) := r in
  let task_index :=
    Z.of_nat (List.length prioritized_tasks - List.length tasks_left) in
  more <- fallback_loop date preferred_times task_index tasks_left ;;
  Ok (allocations ++ more).

Definition block_time (b : schedule_block) : Z :=
  match b with
  | TaskBlock _ t _ => t
  | BreakBlock t _ => t
  end.

Definition block_duration (b : schedule_block) : Z :=
  match b with
  | TaskBlock _ _ d => d
  | BreakBlock _ d => d
  end.

(** The loop of [_inject_productivity_breaks]; [session_count] is the count
    before this block. *)
Fixpoint inject_loop (cfg : Pomodoro) (time_blocks : list schedule_block)
  (session_count : Z) : result (list schedule_block) :=
  match time_blocks with
  | [] => Ok []
  | block :: blocks' =>
      let session_count := session_count + 1 in
      match blocks' with
      | [] => Ok [block]
      | _ :: _ =>
          let break_time := block_time block + block_duration block in
          m <- Py.mod_ session_count (sessions_until_long_break cfg) ;;
          let break_duration_actual :=
            if m =? 0 then long_break_duration cfg else break_duration cfg in
          rest <- inject_loop cfg blocks' session_count ;;
          Ok (block :: BreakBlock break_time break_duration_actual :: rest)
      end
  end.

Definition _inject_productivity_breaks (g : Generator)
  (time_blocks : list schedule_block) (date : Z)
  : result (list schedule_block) :=
  inject_loop (pomodoro_settings g) time_blocks 0.

(** The blocks that are no breaks, as allocation tuples. *)
Fixpoint task_allocations (blocks : list schedule_block) : list allocation :=
  match blocks with
  | [] => []
  | TaskBlock task t d :: blocks' => (Task.id task, t, d) :: task_allocations blocks'
  | BreakBlock _ _ :: blocks' => task_allocations blocks'
  end.

Definition _create_productivity_schedule (schedule_blocks : list schedule_block)
  (date : Z) : Schedule :=
  schedule_of date true (task_allocations schedule_blocks).

Definition _generate_productivity_optimized_schedule (g : Generator) (date : Z)
  (tasks : option (list Task)) : result Schedule :=
  let tasks :=
    match tasks with
    | None => _get_productivity_tasks g date
    | Some l => l
    end in
  match tasks with
  | [] => Ok (_generate_empty_schedule date)
  | _ :: _ =>
      prioritized_tasks <- _prioritize_for_productivity tasks date ;;
      time_blocks <- _allocate_energy_aware_times g prioritized_tasks date ;;
      schedule_with_breaks <- _inject_productivity_breaks g time_blocks date ;;
      Ok (_create_productivity_schedule schedule_with_breaks date)
  end.

(** ** The orchestrator *)

Definition generate_schedule (g : Generator) (date : Z)
  (tasks : option (list Task)) : result Schedule :=
  try_except (_generate_productivity_optimized_schedule g date tasks)
    (fun _ =>
       try_except (_generate_advanced_schedule g date tasks)
         (fun _ => _generate_basic_schedule g date tasks)).

(** ** The external generator *)

Local Set Warnings "-register-all".

(** A decoded JSON document (numbers are the integers). *)
Inductive json : Type :=
| JNull
| JBool (b : bool)
| JInt (z : Z)
| JStr (s : string)
| JList (l : list json)
| JObj (members : list (string * json)).

(** [d[key]] on a decoded value: a later member of an object wins, a
    missing key is a [KeyError], and nothing but an object takes a string
    subscript. *)
Fixpoint lookup (key : string) (members : list (string * json))
  : option json :=
  match members with
  | [] => None
  | (k, v) :: members' =>
      match lookup key members' with
      | Some w => Some w
      | None => if String.eqb k key then Some v else None
      end
  end.

Definition subscript (d : json) (key : string) : result json :=
  match d with
  | JObj members =>
      match lookup key members with
      | Some v => Ok v
      | None => Raise KeyError
      end
  | _ => Raise TypeError
  end.

Fixpoint chars (s : string) : list json :=
  match s with
  | EmptyString => []
  | String c s' => JStr (String c EmptyString) :: chars s'
  end.

(** [for item in v]: a list gives its elements, a string its characters,
    an object its keys. *)
Definition iterate (v : json) : result (list json) :=
  match v with
  | JList l => Ok l
  | JStr s => Ok (chars s)
  | JObj members => Ok (map (fun kv => JStr (fst kv)) members)
  | _ => Raise TypeError
  end.

(** [max(15, min(v, 90))] on a decoded value: a number is clamped, a
    boolean counts as 0 or 1, anything else does not compare with 90. *)
Definition clamp_duration (v : json) : result Z :=
  match v with
  | JInt z => Ok (Z.max 15 (Z.min z 90))
  | JBool _ => Ok 15
  | _ => Raise TypeError
  end.

(** An allocation built from a response: the task id is the decoded value
    itself. *)
Definition ai_allocation : Type := (json * Z * Z)%type.

Definition ai_item (date : Z) (item : json) : result ai_allocation :=
  t <- subscript item "scheduled_time" ;;
  time_obj <-
    match t with
    | JStr s => strptime_HM s
    | _ => Raise TypeError
    end ;;
  let scheduled_datetime := datetime_combine date time_obj in
  d <- subscript item "duration" ;;
  duration <- clamp_duration d ;;
  task_id <- subscript item "task_id" ;;
  Ok (task_id, scheduled_datetime, duration).

(** The part of the [try] body of [_generate_ai_schedule] that follows the
    call: [response] is [json.loads(response.text.strip())], or the
    exception the call or the decoding raised. *)
Definition accept_response (g : Generator) (date : Z) (response : result json)
  : result (list ai_allocation) :=
  _ <- _get_preferred_times g ;;
  result_ <- response ;;
  schedule <- subscript result_ "schedule" ;;
  items <- iterate schedule ;;
  map_result (ai_item date) items.

Definition ai_of_allocation (a : allocation) : ai_allocation :=
  (JInt (fst (fst a)), alloc_start a, alloc_duration a).

Definition rule_based (g : Generator) (tasks : list Task) (date : Z)
  : result (list ai_allocation) :=
  allocations <- _allocate_tasks_fallback g tasks date ;;
  Ok (map ai_of_allocation allocations).

Definition _generate_ai_schedule (g : Generator) (tasks : list Task) (date : Z)
  (response : result json) : result (list ai_allocation) :=
  if negb (api_available g) then rule_based g tasks date
  else
    try_except (accept_response g date response)
      (fun _ => rule_based g tasks date).

(** ** Multi-day distribution *)

(** [l[i]] with Python's negative indices. *)
Definition index {A : Type} (l : list A) (i : Z) : result A :=
  let n := Z.of_nat (List.length l) in
  let j := if i <? 0 then i + n else i in
  if (0 <=? j) && (j <? n) then
    match nth_error l (Z.to_nat j) with
    | Some x => Ok x
    | None => Raise IndexError
    end
  else Raise IndexError.

(** [l[i].append(x)]. *)
Fixpoint append_at {A : Type} (l : list (list A)) (i : nat) (x : A)
  : list (list A) :=
  match l, i with
  | [], _ => []
  | d :: l', O => (d ++ [x]) :: l'
  | d :: l', S i' => d :: append_at l' i' x
  end.

(** The loop of [_distribute_tasks_fallback]; [i] is the index of the head
    of [tasks]. *)
Fixpoint round_robin (days : Z) (i : Z) (tasks : list Task)
  (distributions : list (list Task)) : result (list (list Task)) :=
  match tasks with
  | [] => Ok distributions
  | task :: tasks' =>
      day_index <- Py.mod_ i days ;;
      _ <- index distributions day_index ;;
      let n := Z.of_nat (List.length distributions) in
      let k := if day_index <? 0 then day_index + n else day_index in
      round_robin days (i + 1) tasks'
        (append_at distributions (Z.to_nat k) task)
  end.

(** [[[] for _ in range(days)]]. *)
Definition empty_days (days : Z) : list (list Task) :=
  repeat [] (Z.to_nat days).

Definition _distribute_tasks_fallback (tasks : list Task) (days : Z)
  : result (list (list Task)) :=
  round_robin days 0 tasks (empty_days days).

(** [json.loads] where the module has no binding for [json]: the import of
    line 285 is local to [_generate_ai_schedule], so the name is looked up
    as a global in [_distribute_tasks_across_days] and the lookup raises
    [NameError] before anything is decoded. *)
Definition json_loads_unbound (text : string) : result json :=
  Raise NameError.

(** [[tasks[i] for i in day_indices_list if i < len(tasks)]]. *)
Definition day_tasks_of (tasks : list Task) (day_indices_list : json)
  : result (list Task) :=
  indices <- iterate day_indices_list ;;
  picked <- map_result
    (fun i =>
       match i with
       | JInt z =>
           if z <? Z.of_nat (List.length tasks) then
             t <- index tasks z ;; Ok [t]
           else Ok []
       | JBool b =>
           let z := if b then 1 else 0 in
           if z <? Z.of_nat (List.length tasks) then
             t <- index tasks z ;; Ok [t]
           else Ok []
       | _ => Raise TypeError
       end)
    indices ;;
  Ok (List.concat picked).

(** [response] is [response.text.strip()] with the code fences removed, or
    the exception of the call. *)
Definition _distribute_tasks_across_days (tasks : list Task) (days : Z)
  (response : result string) : result (list (list Task)) :=
  match tasks with
  | [] => Ok (empty_days days)
  | _ :: _ =>
      try_except
        (result_text <- response ;;
         day_indices <- json_loads_unbound result_text ;;
         lists <- iterate day_indices ;;
         map_result (day_tasks_of tasks) lists)
        (fun _ => _distribute_tasks_fallback tasks days)
  end.

(** ** Workload analysis *)

Record WorkloadBalance : Type := {
  wb_total_study_time : Z;
  balance_level : string;
  recommendation : option string
}.

Definition _analyze_workload_balance (schedule : Schedule) : WorkloadBalance :=
  let total_time := Schedule.total_study_time schedule in
  if 300 <? total_time then
    {| wb_total_study_time := total_time;
       balance_level := "overloaded";
       recommendation := Some "Consider breaking into multiple days" |}
  else if 180 <? total_time then
    {| wb_total_study_time := total_time;
       balance_level := "balanced";
       recommendation := None |}
  else
    {| wb_total_study_time := total_time;
       balance_level := "light";
       recommendation := Some "Could add more study time if available" |}.
(** ** Predicates used in the statements *)

(** [fbound K E f]: [f] is a zero or a finite float whose mantissa is below
    [2 ^ K] and whose exponent is at most [E]. *)
Definition fbound (K E : Z) (f : spec_float) : Prop :=
  match f with
  | S754_zero _ => True
  | S754_finite _ m e => Zpos m < 2 ^ K /\ e <= E
  | _ => False
  end.

(** What an [Integer] column or a minute count can hold. *)
Definition int64 (z : Z) : Prop := Z.abs z < 2 ^ 63.

Definition opt_int64 (x : option Z) : Prop :=
  match x with
  | Some z => int64 z
  | None => True
  end.

(** A value of the estimator before [int()]: a database-sized integer or a
    bounded float. *)
Definition nbound (K E : Z) (v : Py.num) : Prop :=
  match v with
  | Py.PInt z => int64 z
  | Py.PFloat f => fbound K E f
  end.

(** [a] lies inside the block [b]. *)
Definition inside (b : TimeBlock) (a : allocation) : bool :=
  (block_start b <=? alloc_start a) && (alloc_end a <=? block_end b).

(** [a] lies inside some block of [blocks] whose type satisfies [kind]. *)
Definition in_block_of (kind : string -> bool) (blocks : list TimeBlock)
  (a : allocation) : bool :=
  existsb (fun b => kind (block_type b) && inside b a) blocks.

Definition is_study (ty : string) : bool := String.eqb ty "study".
Definition not_break (ty : string) : bool := negb (String.eqb ty "break").

(** The allocations follow one another between [lo] and [hi]: each starts
    no earlier than the previous one ends, lasts a positive time and ends
    by [hi]. *)
Fixpoint chained (lo hi : Z) (l : list allocation) : Prop :=
  match l with
  | [] => True
  | a :: l' =>
      lo <= alloc_start a /\ 0 < alloc_duration a /\ alloc_end a <= hi
      /\ chained (alloc_end a) hi l'
  end.

(** The skeleton is in chronological order from [lo] on. *)
Fixpoint day_ordered (lo : Z) (blocks : list TimeBlock) : Prop :=
  match blocks with
  | [] => True
  | b :: blocks' =>
      lo <= block_start b /\ block_start b <= block_end b
      /\ day_ordered (block_end b) blocks'
  end.

(** Where a day that starts at [lo] ends. *)
Fixpoint day_end (lo : Z) (blocks : list TimeBlock) : Z :=
  match blocks with
  | [] => lo
  | b :: blocks' => day_end (block_end b) blocks'
  end.

Definition item_end (x : ScheduleTask) : Z :=
  ScheduleTask.scheduled_time x + ScheduleTask.duration x.

(** The intervals [start, start + duration) of [x] and [y] share a point. *)
Definition overlap (x y : ScheduleTask) : bool :=
  Z.max (ScheduleTask.scheduled_time x) (ScheduleTask.scheduled_time y)
  <? Z.min (item_end x) (item_end y).

Fixpoint no_overlap (items : list ScheduleTask) : bool :=
  match items with
  | [] => true
  | x :: items' => forallb (fun y => negb (overlap x y)) items' && no_overlap items'
  end.













(** The allocation names a task of the submitted set. *)
Definition references_submitted (tasks : list Task) (a : ai_allocation) : bool :=
  match fst (fst a) with
  | JInt z => existsb (fun t => Task.id t =? z) tasks
  | _ => false
  end.

Definition ai_duration (a : ai_allocation) : Z := snd a.

(** The balance level as the specification words it. *)
Definition balance_level_as_specified (total_time : Z) : string :=
  if 300 <? total_time then "overloaded"
  else if 180 <=? total_time then "balanced"
  else "light".

(** ** The order of the doubles *)



Definition not_nan (f : spec_float) : Prop := f <> S754_nan.

(** ** Sample inputs *)

(** No stored settings, no recorded energy patterns, no pending tasks. *)
Definition default_generator : Generator :=
  {| user_settings := None;
     energy_patterns := [];
     api_available := false;
     pending_productivity_tasks := [];
     pending_enterprise_tasks := [];
     pending_basic_tasks := [];
     active_goals := [] |}.

Definition with_settings (s : UserSettings) : Generator :=
  {| user_settings := Some s;
     energy_patterns := [];
     api_available := false;
     pending_productivity_tasks := [];
     pending_enterprise_tasks := [];
     pending_basic_tasks := [];
     active_goals := [] |}.

(** A medium-priority task with no category, no due date and no goal, as
    the caller hands it in (no attribute set). *)
Definition plain_task (i : Z) (estimate : option Z) : Task :=
  {| Task.id := i;
     Task.priority := "medium";
     Task.category := None;
     Task.due_date := None;
     Task.estimated_duration := estimate;
     Task.goal_id := None;
     Task.goal_alignment := None;
     Task.productivity_score := None |}.

(** The same task once [task.goal_alignment] holds the neutral 0.5. *)
Definition aligned_task (i : Z) (category : option string) (estimate : option Z)
  : Task :=
  {| Task.id := i;
     Task.priority := "medium";
     Task.category := category;
     Task.due_date := None;
     Task.estimated_duration := estimate;
     Task.goal_id := None;
     Task.goal_alignment := Some AlignNeutral;
     Task.productivity_score := None |}.

(** An ordinary day (an ordinal of the year 2024). *)
Definition sample_date : Z := 739000.

(** A generator whose external model is configured. *)
Definition api_generator : Generator :=
  {| user_settings := None;
     energy_patterns := [];
     api_available := true;
     pending_productivity_tasks := [];
     pending_enterprise_tasks := [];
     pending_basic_tasks := [];
     active_goals := [] |}.

(** A generator for which the task query answers [pending]. *)
Definition with_pending (pending : list Task) : Generator :=
  {| user_settings := None;
     energy_patterns := [];
     api_available := false;
     pending_productivity_tasks := pending;
     pending_enterprise_tasks := pending;
     pending_basic_tasks := firstn 5 pending;
     active_goals := [] |}.

(** A high-priority exam with an estimate of 50 minutes. *)
Definition exam_task : Task :=
  {| Task.id := 7;
     Task.priority := "high";
     Task.category := Some "Exam";
     Task.due_date := None;
     Task.estimated_duration := Some 50;
     Task.goal_id := None;
     Task.goal_alignment := None;
     Task.productivity_score := None |}.

(** ** Multi-day generation *)

(** What the three task queries answer when they are issued for one date
    (each filters on the date it is given). *)
Record Pending : Type := {
  productivity_query : list Task;
  enterprise_query : list Task;
  basic_query : list Task
}.

(** The generator [g] while the database answers [p]. *)
Definition on_date (g : Generator) (p : Pending) : Generator :=
  {| user_settings := user_settings g;
     energy_patterns := energy_patterns g;
     api_available := api_available g;
     pending_productivity_tasks := productivity_query p;
     pending_enterprise_tasks := enterprise_query p;
     pending_basic_tasks := basic_query p;
     active_goals := active_goals g |}.

(** The [for] loop of [_generate_multi_day_fallback] over [range(days)]. *)
Fixpoint multi_day_fallback_loop (g : Generator) (pending : Z -> Pending)
  (start_date : Z) (offsets : list Z) : result (list Schedule) :=
  match offsets with
  | [] => Ok []
  | day_offset :: offsets' =>
      current_date <- date_plus_days start_date day_offset ;;
      schedule <- generate_schedule (on_date g (pending current_date))
                    current_date None ;;
      schedules <- multi_day_fallback_loop g pending start_date offsets' ;;
      (* Only add if has tasks *)
      Ok (if 0 <? Schedule.total_study_time schedule
          then schedule :: schedules
          else schedules)
  end.

Definition _generate_multi_day_fallback (g : Generator) (pending : Z -> Pending)
  (start_date days : Z) : result (list Schedule) :=
  multi_day_fallback_loop g pending start_date (range 0 (Z.to_nat days)).

(** The loop over [enumerate(day_distributions)]; [day_offset] is the index
    of the head of the list. *)
Fixpoint schedule_days (g : Generator) (start_date day_offset : Z)
  (day_distributions : list (list Task)) : result (list Schedule) :=
  match day_distributions with
  | [] => Ok []
  | day_tasks :: rest =>
      current_date <- date_plus_days start_date day_offset ;;
      match day_tasks with
      | [] => schedule_days g start_date (day_offset + 1) rest
      | _ :: _ =>
          schedule <- generate_schedule g current_date (Some day_tasks) ;;
          schedules <- schedule_days g start_date (day_offset + 1) rest ;;
          Ok (schedule :: schedules)
      end
  end.

(** [all_tasks] is the answer to the query of the pending tasks due from
    [start_date] on, and [response] what the external model says when it
    is asked to distribute them. *)
Definition generate_multi_day_schedule (g : Generator) (pending : Z -> Pending)
  (all_tasks : list Task) (start_date days : Z) (response : result string)
  : result (list Schedule) :=
  if negb (api_available g) then
    _generate_multi_day_fallback g pending start_date days
  else
    day_distributions <- _distribute_tasks_across_days all_tasks days response ;;
    schedule_days g start_date 0 day_distributions.

(** The schedules are dated [start_date + o] for the day offsets [o] of
    [offsets], one after the other. *)
Definition dated_from (start_date : Z) (offsets : list Z)
  (schedules : list Schedule) : Prop :=
  map Schedule.date schedules = map (fun o => start_date + o) offsets.

(** [tasks[k::days]] read from position [i] on: the tasks whose position
    is [k] modulo [days], in their order. *)
Fixpoint at_positions (days k i : Z) (tasks : list Task) : list Task :=
  match tasks with
  | [] => []
  | t :: tasks' =>
      if i mod days =? k then t :: at_positions days k (i + 1) tasks'
      else at_positions days k (i + 1) tasks'
  end.

(** ** Conflict detection *)

(** [t.hour] of a datetime. *)
Definition hour_of (t : Z) : Z := t mod 1440 / 60.

(** [self.energy_patterns.get(hour, {}).get('avg_energy', 5.0)]; the keys
    of the dict are distinct. *)
Definition avg_energy_at (g : Generator) (hour : Z) : spec_float :=
  match find (fun hp => fst hp =? hour) (energy_patterns g) with
  | Some hp => avg_energy (snd hp)
  | None => Py.lit 5 1
  end.

(** A reported conflict: its ['type'] with what its description shows. *)
Inductive conflict : Type :=
| EnergyConflict (task_hour : Z)
| WorkloadConflict (total_time : Z).

(** The body of the loop over the items: the energy conflict of one
    item, if it has one. *)
Definition energy_conflict_of (g : Generator) (task_data : ScheduleTask)
  : list conflict :=
  let task_hour := hour_of (ScheduleTask.scheduled_time task_data) in
  if SFltb (avg_energy_at g task_hour) (Py.lit 3 1)
  then [EnergyConflict task_hour]
  else [].

Definition detect_schedule_conflicts (g : Generator) (schedule : Schedule)
  : list conflict :=
  flat_map (energy_conflict_of g) (Schedule.tasks schedule)
  ++ (if 300 <? Schedule.total_study_time schedule
      then [WorkloadConflict (Schedule.total_study_time schedule)]
      else []).

(** ** Further predicates *)

Definition alloc_task_id (a : allocation) : Z := fst (fst a).

(** Two sort keys of the allocator are equal. *)
Definition sort_key_eqb (k1 k2 : Z * Z * string) : bool :=
  let '(r1, d1, c1) := k1 in
  let '(r2, d2, c2) := k2 in
  (r1 =? r2) && (d1 =? d2) && String.eqb c1 c2.

(** Tasks of the same priority rank all have a due date or all have none.
    The keys of the allocator's sort then compare: a [datetime] with a
    [datetime], [date.max] with [date.max], never one with the other. *)
Definition comparable_due_dates (tasks : list Task) : Prop :=
  forall a b,
    In a tasks -> In b tasks -> priority_rank a = priority_rank b ->
    (Task.due_date a = None <-> Task.due_date b = None).

(** [l] is in ascending order of the allocator's key. *)
Definition ascending_by_key (l : list Task) : Prop :=
  StronglySorted
    (fun a b => sort_key_lt (sort_key b) (sort_key a) = false) l.

(** The minutes of the blocks the allocator uses (those that are no break
    blocks). *)
Fixpoint capacity (blocks : list TimeBlock) : Z :=
  match blocks with
  | [] => 0
  | b :: blocks' =>
      (if String.eqb (block_type b) "break" then 0 else available_minutes b)
      + capacity blocks'
  end.

(** The datetime [t] falls on the day [date]. *)
Definition on_day (date t : Z) : Prop :=
  date * 1440 <= t < (date + 1) * 1440.

(** A time of day. *)
Definition valid_time (hm : Z * Z) : Prop :=
  0 <= fst hm <= 23 /\ 0 <= snd hm <= 59.

(** The [if] test of [_calculate_goal_alignment]: [task.goal_id == goal.id]. *)
Definition linked_to (task : Task) (goal : Goal) : bool :=
  match Task.goal_id task with
  | Some i => i =? Goal.id goal
  | None => false
  end.

(** The category, if there is one, holds ASCII characters only; on such a
    string [Py.lower] is Python's [lower]. *)
Fixpoint ascii_only (s : string) : bool :=
  match s with
  | EmptyString => true
  | String c s' => (N_of_ascii c <? 128)%N && ascii_only s'
  end.

Definition ascii_category (category : option string) : bool :=
  match category with
  | Some s => ascii_only s
  | None => true
  end.

(** The total of a schedule is the sum of the durations of its items. *)
Definition consistent (s : Schedule) : Prop :=
  Schedule.total_study_time s
  = sum (map ScheduleTask.duration (Schedule.tasks s)).

(** The block [b] places the prioritized task [p] on [date]: at a time of
    day, for the duration the prioritizer gave it. *)
Definition places (date : Z) (p : Prioritized) (b : schedule_block) : Prop :=
  exists t,
    valid_time t
    /\ b = TaskBlock (p_task p) (datetime_combine date t) (p_estimated_duration p).

(** The break that follows [block] when it is the [n]-th block: long when
    [n] is a multiple of the sessions until a long break. *)
Definition break_after (cfg : Pomodoro) (n : Z) (block : schedule_block)
  : schedule_block :=
  BreakBlock (block_time block + block_duration block)
    (if n mod sessions_until_long_break cfg =? 0
     then long_break_duration cfg
     else break_duration cfg).

(** ** Further sample inputs *)

(** A generator for which one hour of energy feedback is recorded. *)
Definition recorded_generator : Generator :=
  {| user_settings := None;
     energy_patterns :=
       [(9, {| avg_energy := Py.lit 7 1;
               avg_focus := Py.lit 6 1;
               avg_productivity := Py.lit 2 1 |})];
     api_available := false;
     pending_productivity_tasks := [];
     pending_enterprise_tasks := [];
     pending_basic_tasks := [];
     active_goals := [] |}.

(** The settings as the settings form stores them when no preferred time
    is entered: the defaults, and the empty list of times. *)
Definition no_preferred_times : UserSettings :=
  UserSettings.mk 25 5 15 4 (Some []).

(** * Proofs *)


(** ** Binary64 results stay finite on bounded operands *)

Lemma digits2_pos_le (p : positive) :
  forall K, Zpos p < 2 ^ K -> Zpos (digits2_pos p) <= K.
Proof.
  induction p as [p IH | p IH | ]; intros K H.
  - assert (0 < K) by (destruct K; simpl in *; try lia).
    replace K with (Z.succ (K - 1)) in H by lia.
    rewrite Z.pow_succ_r in H by lia.
    simpl. rewrite Pos2Z.inj_succ.
    specialize (IH (K - 1)). pose proof (Pos2Z.inj_xI p). lia.
  - assert (0 < K) by (destruct K; simpl in *; try lia).
    replace K with (Z.succ (K - 1)) in H by lia.
    rewrite Z.pow_succ_r in H by lia.
    simpl. rewrite Pos2Z.inj_succ.
    specialize (IH (K - 1)). pose proof (Pos2Z.inj_xO p). lia.
  - assert (0 < K) by (destruct K; simpl in *; try lia).
    simpl. lia.
Qed.

Lemma Zdigits2_le (m K : Z) : 0 <= m < 2 ^ K -> 0 <= K -> Zdigits2 m <= K.
Proof.
  intros [H0 H1] HK. destruct m as [ | p | p ]; simpl; try lia.
  now apply digits2_pos_le.
Qed.

Lemma iter_pos_invariant {A : Type} (f : A -> A) (P : A -> Prop) :
  (forall x, P x -> P (f x)) ->
  forall n x, P x -> P (iter_pos f n x).
Proof.
  intros Hf. induction n as [n IH | n IH | ]; intros x Hx; simpl; auto.
Qed.

Lemma shr_1_range (B : Z) (mrs : shr_record) :
  0 <= shr_m mrs <= B -> 0 <= shr_m (shr_1 mrs) <= B.
Proof.
  destruct mrs as [m r s]. simpl.
  destruct m as [ | [p | p | ] | p ]; simpl; intros H; lia.
Qed.

Lemma shr_range (mrs mrs' : shr_record) (e n e' : Z) :
  0 <= shr_m mrs ->
  shr mrs e n = (mrs', e') ->
  0 <= shr_m mrs' <= shr_m mrs /\ e' = e + Z.max n 0.
Proof.
  intros H0 Hs. unfold shr in Hs.
  destruct n as [ | p | p ]; inversion Hs; subst; clear Hs; try lia.
  split; [ | lia ].
  apply (iter_pos_invariant shr_1 (fun x => 0 <= shr_m x <= shr_m mrs)).
  - intros x. apply shr_1_range.
  - lia.
Qed.

Lemma shr_record_of_loc_m (m : Z) (l : location) :
  shr_m (shr_record_of_loc m l) = m.
Proof. destruct l as [ | [ | | ] ]; reflexivity. Qed.

Lemma round_nearest_even_range (m : Z) (l : location) :
  m <= round_nearest_even m l <= m + 1.
Proof.
  destruct l as [ | [ | | ] ]; simpl; try lia.
  destruct (Z.even m); lia.
Qed.

Lemma fexp_eq (x : Z) : fexp 53 1024 x = Z.max (x - 53) (-1074).
Proof. reflexivity. Qed.

Lemma binary_round_aux_fbound (s : bool) (mx ex : Z) (lx : location) (K E : Z) :
  0 <= mx < 2 ^ K -> ex <= E -> 52 <= K -> -1074 <= E ->
  E + 2 * (K - 52) <= 971 ->
  fbound (K + 1) (E + 2 * (K - 52)) (binary_round_aux 53 1024 s mx ex lx).
Proof.
  intros Hm He HK HE Hsmall.
  unfold binary_round_aux, shr_fexp.
  destruct (shr (shr_record_of_loc mx lx) ex
              (fexp 53 1024 (Zdigits2 mx + ex) - ex)) as [mrs' e'] eqn:S1.
  apply shr_range in S1; [ | rewrite shr_record_of_loc_m; lia ].
  rewrite shr_record_of_loc_m, fexp_eq in S1. destruct S1 as [M1 E1].
  assert (D1 : Zdigits2 mx <= K) by (apply Zdigits2_le; lia).
  pose proof (round_nearest_even_range (shr_m mrs') (loc_of_shr_record mrs')) as R.
  set (m1 := round_nearest_even (shr_m mrs') (loc_of_shr_record mrs')) in *.
  destruct (shr (shr_record_of_loc m1 loc_Exact) e'
              (fexp 53 1024 (Zdigits2 m1 + e') - e')) as [mrs'' e''] eqn:S2.
  apply shr_range in S2; [ | simpl; lia ].
  simpl shr_m in S2. rewrite fexp_eq in S2. destruct S2 as [M2 E2].
  assert (Hpow : 2 ^ (K + 1) = 2 * 2 ^ K) by (rewrite Z.pow_add_r; lia).
  assert (D2 : Zdigits2 m1 <= K + 1) by (apply Zdigits2_le; lia).
  destruct (shr_m mrs'') as [ | m | m ] eqn:Em.
  - exact I.
  - change (1024 - 53) with 971.
    destruct (Z.leb_spec e'' 971) as [Hle | Hgt]; [ | lia ].
    cbn [fbound]. split; lia.
  - lia.
Qed.

Lemma b64_mul_fbound (x y : spec_float) (K1 E1 K2 E2 : Z) :
  fbound K1 E1 x -> fbound K2 E2 y ->
  0 <= K1 -> 0 <= K2 -> 52 <= K1 + K2 -> -1074 <= E1 + E2 ->
  E1 + E2 + 2 * (K1 + K2 - 52) <= 971 ->
  fbound (K1 + K2 + 1) (E1 + E2 + 2 * (K1 + K2 - 52)) (Py.b64_mul x y).
Proof.
  intros Hx Hy HK1 HK2 HK HE Hs.
  destruct x as [sx | sx | | sx mx ex], y as [sy | sy | | sy my ey];
    simpl in Hx, Hy; try contradiction; try exact I.
  unfold Py.b64_mul, SFmul.
  apply binary_round_aux_fbound; try lia.
  rewrite Pos2Z.inj_mul, Z.pow_add_r by lia.
  split; [ lia | ]. apply Z.mul_lt_mono_nonneg; lia.
Qed.

Lemma iter_xO_pow (d m : positive) :
  Zpos (Pos.iter xO m d) = Zpos m * 2 ^ Zpos d.
Proof.
  change (Pos.iter xO m d) with (shift_pos d m).
  rewrite shift_pos_correct. unfold Z.pow. rewrite Z.mul_comm. reflexivity.
Qed.

Lemma fbound_weaken (K E K' E' : Z) (f : spec_float) :
  fbound K E f -> 0 <= K <= K' -> E <= E' -> fbound K' E' f.
Proof.
  destruct f as [s | s | | s m e]; simpl; auto.
  intros [Hm He] HK HE. split; [ | lia ].
  apply Z.lt_le_trans with (2 ^ K); [ assumption | ].
  apply Z.pow_le_mono_r; lia.
Qed.

Lemma b64_of_Z_fbound (z : Z) :
  Z.abs z < 2 ^ 63 -> fbound 116 126 (Py.b64_of_Z z).
Proof.
  intros Hz. unfold Py.b64_of_Z, binary_normalize.
  assert (Hr : forall s m, Zpos m < 2 ^ 63 ->
                 fbound 116 126 (binary_round 53 1024 s m 0)).
  { intros s m Hm. unfold binary_round, shl_align.
    rewrite fexp_eq.
    pose proof (digits2_pos_le m 63 Hm) as D.
    pose proof (Pos2Z.is_pos (digits2_pos m)) as D0.
    destruct (Z.max (Zpos (digits2_pos m) + 0 - 53) (-1074) - 0)
      as [ | d | d ] eqn:Ed.
    - apply (binary_round_aux_fbound s (Zpos m) 0 loc_Exact 115 0); lia.
    - apply (binary_round_aux_fbound s (Zpos m) 0 loc_Exact 115 0); lia.
    - apply (binary_round_aux_fbound s _ _ loc_Exact 115 0); try lia.
      rewrite iter_xO_pow. split; [ lia | ].
      assert (Hd : Zpos d <= 52) by lia.
      apply Z.le_lt_trans with (Zpos m * 2 ^ 52); [ | lia ].
      apply Z.mul_le_mono_nonneg_l; [ lia | ].
      apply Z.pow_le_mono_r; lia. }
  destruct z as [ | m | m ]; simpl; [ exact I | apply Hr; lia | apply Hr; lia ].
Qed.

(** ** The duration estimator *)

Lemma bind_Ok {A B : Type} (c : result A) (k : A -> result B) (b : B) :
  bind c k = Ok b -> exists a, c = Ok a /\ k a = Ok b.
Proof. destruct c as [a | e]; simpl; intros H; [ eauto | discriminate ]. Qed.

Lemma round_check_true :
  forallb
    (fun n =>
       let d := 15 + Z.of_nat n in
       match (q <- Py.truediv d 5 ;; r <- Py.round q ;; Ok (r * 5)) with
       | Ok r => r =? 5 * ((d + 2) / 5)
       | Raise _ => false
       end)
    (seq 0 106) = true.
Proof. vm_compute. reflexivity. Qed.

(** On the clamped range, [round(duration / 5) * 5] is the multiple of 5
    nearest to [duration]. *)
Lemma round_to_five (d : Z) :
  15 <= d <= 120 ->
  (q <- Py.truediv d 5 ;; r <- Py.round q ;; Ok (r * 5)) = Ok (5 * ((d + 2) / 5)).
Proof.
  intros Hd.
  pose proof round_check_true as H.
  rewrite forallb_forall in H.
  specialize (H (Z.to_nat (d - 15))).
  replace (15 + Z.of_nat (Z.to_nat (d - 15))) with d in H by lia.
  cbv zeta in H.
  destruct (q <- Py.truediv d 5 ;; r <- Py.round q ;; Ok (r * 5)) as [r | e].
  - f_equal. apply Z.eqb_eq, H, in_seq. lia.
  - discriminate H. apply in_seq. lia.
Qed.

Lemma clamp_and_round_total (ib available_time : Z) :
  exists d, clamp_and_round ib available_time = Ok d
            /\ 15 <= d <= 120 /\ d mod 5 = 0.
Proof.
  unfold clamp_and_round.
  set (duration := Z.max 15 (Z.min ib (Z.min available_time 120))).
  assert (Hd : 15 <= duration <= 120) by (subst duration; lia).
  rewrite (round_to_five duration Hd).
  exists (5 * ((duration + 2) / 5)). split; [ reflexivity | ].
  split; [ | rewrite Z.mul_comm; apply Z.mod_mul; lia ].
  pose proof (Z.div_le_mono 17 (duration + 2) 5).
  pose proof (Z.div_le_mono (duration + 2) 122 5).
  change (17 / 5) with 3 in *. change (122 / 5) with 24 in *. lia.
Qed.

(** Whatever the float part computes, a returned duration is clamped. *)
Lemma _calculate_optimal_duration_range
  (task : Task) (available_time default_duration d : Z) :
  _calculate_optimal_duration task available_time default_duration = Ok d ->
  15 <= d <= 120 /\ d mod 5 = 0.
Proof.
  unfold _calculate_optimal_duration. intros H.
  apply bind_Ok in H. destruct H as [b1 [_ H]].
  apply bind_Ok in H. destruct H as [b2 [_ H]].
  apply bind_Ok in H. destruct H as [ib [_ H]].
  destruct (clamp_and_round_total ib available_time) as [d' [E R]].
  rewrite E in H. inversion H. subst d'. exact R.
Qed.

Lemma category_multiplier_fbound (task : Task) (c : spec_float) :
  category_multiplier task = Some c -> fbound 53 0 c.
Proof.
  unfold category_multiplier, category_multipliers.
  destruct (Task.category task) as [ [ | a s ] | ]; try discriminate.
  repeat match goal with
         | |- context [if ?b then _ else _] => destruct b
         end;
    intros H; inversion H; subst; clear H; cbv; (split; [ reflexivity | discriminate ]).
Qed.

Lemma lit_12_10_fbound : fbound 53 0 (Py.lit 12 10).
Proof. cbv. split; [ reflexivity | discriminate ]. Qed.

Lemma lit_8_10_fbound : fbound 53 0 (Py.lit 8 10).
Proof. cbv. split; [ reflexivity | discriminate ]. Qed.

Lemma float_of_int_int64 (z : Z) :
  int64 z -> exists f, Py.float_of_int z = Ok f /\ fbound 116 126 f.
Proof.
  intros Hz. pose proof (b64_of_Z_fbound z Hz) as Hb.
  unfold Py.float_of_int.
  destruct (Py.b64_of_Z z) as [s | s | | s m e]; simpl in Hb;
    try contradiction; eexists; split; try reflexivity; exact Hb.
Qed.

Lemma mul_float_int64 (z : Z) (c : spec_float) :
  int64 z -> fbound 53 0 c ->
  exists v, Py.mul_float (Py.PInt z) c = Ok v /\ nbound 170 360 v.
Proof.
  intros Hz Hc. destruct (float_of_int_int64 z Hz) as [f [Ef Hf]].
  unfold Py.mul_float. rewrite Ef. simpl.
  eexists. split; [ reflexivity | ]. simpl.
  apply (b64_mul_fbound f c 116 126 53 0); auto; lia.
Qed.

Lemma mul_float_nbound (v : Py.num) (c : spec_float) :
  nbound 170 360 v -> fbound 53 0 c ->
  exists w, Py.mul_float v c = Ok w /\ nbound 224 702 w.
Proof.
  intros Hv Hc. destruct v as [z | f].
  - destruct (mul_float_int64 z c Hv Hc) as [w [Ew Hw]].
    exists w. split; [ exact Ew | ].
    destruct w as [z' | f']; simpl in *; [ exact Hw | ].
    apply (fbound_weaken 170 360); auto; lia.
  - simpl. eexists. split; [ reflexivity | ]. simpl.
    apply (b64_mul_fbound f c 170 360 53 0); auto; lia.
Qed.

Lemma int_nbound (K E : Z) (v : Py.num) :
  nbound K E v -> exists z, Py.int v = Ok z.
Proof.
  destruct v as [z | [s | s | | s m e]]; simpl; intros H;
    try contradiction; eexists; reflexivity.
Qed.

Lemma or_int_int64 (x : option Z) (d : Z) :
  opt_int64 x -> int64 d -> int64 (Py.or_int x d).
Proof.
  unfold Py.or_int. destruct x as [v | ]; simpl; auto.
  destruct (v =? 0); auto.
Qed.

(** C4 -- for every task whose estimate is a database integer and every
    available time and default duration in that range, the estimator
    returns a duration, and it is an integer in [15, 120] that is a
    multiple of 5 (so never zero or negative). *)
Theorem calculate_optimal_duration_bounds
  (task : Task) (available_time default_duration : Z) :
  opt_int64 (Task.estimated_duration task) ->
  int64 available_time -> int64 default_duration ->
  exists d,
    _calculate_optimal_duration task available_time default_duration = Ok d
    /\ 15 <= d <= 120 /\ d mod 5 = 0.
Proof.
  intros He Ha Hd.
  assert (total : exists d,
    _calculate_optimal_duration task available_time default_duration = Ok d).
  { unfold _calculate_optimal_duration.
    pose proof (or_int_int64 _ _ He Hd) as Hb.
    set (b := Py.or_int (Task.estimated_duration task) default_duration) in *.
    assert (S1 : exists v1,
      (if String.eqb (Task.priority task) "high" then
         x <- Py.mul_float (Py.PInt b) (Py.lit 12 10) ;;
         Ok (Py.min x (Py.PInt available_time))
       else if String.eqb (Task.priority task) "low" then
         x <- Py.mul_float (Py.PInt b) (Py.lit 8 10) ;;
         Ok (Py.max x (Py.PInt 15))
       else Ok (Py.PInt b)) = Ok v1 /\ nbound 170 360 v1).
    { destruct (String.eqb (Task.priority task) "high").
      - destruct (mul_float_int64 b _ Hb lit_12_10_fbound) as [x [Ex Hx]].
        rewrite Ex. simpl. eexists. split; [ reflexivity | ].
        unfold Py.min. destruct (Py.lt _ _); [ exact Ha | exact Hx ].
      - destruct (String.eqb (Task.priority task) "low").
        + destruct (mul_float_int64 b _ Hb lit_8_10_fbound) as [x [Ex Hx]].
          rewrite Ex. simpl. eexists. split; [ reflexivity | ].
          unfold Py.max. destruct (Py.lt _ _); [ | exact Hx ].
          unfold nbound, int64. simpl. lia.
        + eexists. split; [ reflexivity | exact Hb ]. }
    destruct S1 as [v1 [E1 H1]]. rewrite E1. simpl.
    assert (S2 : exists v2,
      match category_multiplier task with
      | Some c => Py.mul_float v1 c
      | None => Ok v1
      end = Ok v2 /\ nbound 224 702 v2).
    { destruct (category_multiplier task) as [c | ] eqn:Ec.
      - apply mul_float_nbound; [ exact H1 | ].
        now apply (category_multiplier_fbound task).
      - exists v1. split; [ reflexivity | ].
        destruct v1; simpl in *; auto.
        apply (fbound_weaken 170 360); auto; lia. }
    destruct S2 as [v2 [E2 H2]]. rewrite E2. simpl.
    destruct (int_nbound _ _ _ H2) as [ib Eib]. rewrite Eib. simpl.
    destruct (clamp_and_round_total ib available_time) as [d [Ed _]].
    exists d. exact Ed. }
  destruct total as [d Ed]. exists d. split; [ exact Ed | ].
  now apply (_calculate_optimal_duration_range task available_time default_duration).
Qed.

Lemma calculate_optimal_duration_bounds_witness :
  opt_int64 (Task.estimated_duration exam_task) /\ int64 90 /\ int64 25
  /\ exists d,
       _calculate_optimal_duration exam_task 90 25 = Ok d
       /\ 15 <= d <= 120 /\ d mod 5 = 0.
Proof.
  assert (H1 : opt_int64 (Task.estimated_duration exam_task))
    by (unfold opt_int64, int64; simpl; lia).
  assert (H2 : int64 90) by (unfold int64; simpl; lia).
  assert (H3 : int64 25) by (unfold int64; simpl; lia).
  repeat split; try assumption.
  exact (calculate_optimal_duration_bounds exam_task 90 25 H1 H2 H3).
Defined.

(** Outside that range the estimator can raise: an estimate beyond the
    doubles does not convert ([int * float]). *)
Remark estimate_beyond_doubles_raises :
  _calculate_optimal_duration
    (Task.mk 1 "high" None None (Some (2 ^ 1100)) None None None) 90 25
  = Raise OverflowError.
Proof. vm_compute. reflexivity. Qed.

(** ** The rule-based allocator *)

Lemma sessions_of_app (l1 l2 : list event) :
  sessions_of (l1 ++ l2) = sessions_of l1 ++ sessions_of l2.
Proof.
  induction l1 as [ | [a | k s d] l1 IH ]; simpl; congruence.
Qed.

Lemma chained_lower (lo lo' hi : Z) (l : list allocation) :
  lo' <= lo -> chained lo hi l -> chained lo' hi l.
Proof. destruct l as [ | a l ]; simpl; intuition lia. Qed.

Lemma chained_upper (lo hi hi' : Z) (l : list allocation) :
  hi <= hi' -> chained lo hi l -> chained lo hi' l.
Proof.
  intros H. revert lo.
  induction l as [ | a l IH ]; simpl; intros lo; [ trivial | ].
  intros (H1 & H2 & H3 & H4). repeat split; try lia. now apply IH.
Qed.

Lemma chained_app (lo mid hi : Z) (l1 l2 : list allocation) :
  lo <= mid -> mid <= hi ->
  chained lo mid l1 -> chained mid hi l2 -> chained lo hi (l1 ++ l2).
Proof.
  revert lo. induction l1 as [ | a l1 IH ]; simpl; intros lo Hlo Hhi C1 C2.
  - now apply chained_lower with mid.
  - destruct C1 as (H1 & H2 & H3 & H4). repeat split; try lia.
    apply IH; auto.
Qed.

Lemma chained_In (lo hi : Z) (l : list allocation) (a : allocation) :
  chained lo hi l -> In a l -> lo <= alloc_start a /\ alloc_end a <= hi.
Proof.
  revert lo. induction l as [ | b l IH ]; simpl; intros lo C H; [ contradiction | ].
  destruct C as (H1 & H2 & H3 & H4). destruct H as [-> | H].
  - lia.
  - destruct (IH _ H4 H) as [Ha Hb]. unfold alloc_end in *. lia.
Qed.

(** What the break step can do: nothing, or one break as the counter
    says. *)
Lemma insert_break_spec (cfg : Pomodoro) (more : bool) (t rem sc : Z)
  (brk : list event) (t' rem' sc' : Z) :
  insert_break cfg more t rem sc = Ok (brk, t', rem', sc') ->
  (brk = [] /\ t' = t /\ rem' = rem /\ sc' = sc)
  \/ (sessions_until_long_break cfg <> 0 /\
      exists k d,
        brk = [Break k t d] /\ t' = t + d /\ rem' = rem - d /\ d <= rem
        /\ ((sc mod sessions_until_long_break cfg = 0 /\ k = LongBreak
             /\ d = long_break_duration cfg /\ sc' = 0)
            \/ (sc mod sessions_until_long_break cfg <> 0 /\ k = ShortBreak
                /\ d = break_duration cfg /\ sc' = sc))).
Proof.
  unfold insert_break, Py.mod_.
  destruct ((break_duration cfg <=? rem) && more).
  2: { intros H. inversion H. now left. }
  destruct (Z.eqb_spec (sessions_until_long_break cfg) 0) as [E0 | N0];
    [ discriminate | ].
  simpl bind.
  destruct (Z.eqb_spec (sc mod sessions_until_long_break cfg) 0) as [Em | Em];
    simpl negb; cbv iota.
  - destruct (Z.leb_spec (long_break_duration cfg) rem) as [Hle | Hgt];
      intros H; inversion H; subst; clear H; [ right | now left ].
    split; [ assumption | ].
    exists LongBreak, (long_break_duration cfg). intuition.
  - destruct (Z.leb_spec (break_duration cfg) rem) as [Hle | Hgt];
      intros H; inversion H; subst; clear H; [ right | now left ].
    split; [ assumption | ].
    exists ShortBreak, (break_duration cfg). intuition.
Qed.

(** One unfolding of the packing loop on a non-empty task list. *)
Lemma pack_block_cons (cfg : Pomodoro) (task : Task) (rest : list Task)
  (t rem sc : Z) (log : list event) (left_ : list Task) (sc' : Z) :
  pack_block cfg (task :: rest) t rem sc = Ok (log, left_, sc') ->
  (log = [] /\ left_ = task :: rest /\ sc' = sc)
  \/ exists duration brk t1 rem1 sc1 log1,
       _calculate_optimal_duration task rem (work_duration cfg) = Ok duration
       /\ duration <= rem
       /\ insert_break cfg (match rest with [] => false | _ :: _ => true end)
            (t + duration) (rem - duration) (sc + 1) = Ok (brk, t1, rem1, sc1)
       /\ pack_block cfg rest t1 rem1 sc1 = Ok (log1, left_, sc')
       /\ log = Session (Task.id task, t, duration) :: brk ++ log1.
Proof.
  simpl. destruct (rem <? work_duration cfg).
  { intros H. inversion H. now left. }
  destruct (_calculate_optimal_duration task rem (work_duration cfg))
    as [duration | e]; simpl; [ | discriminate ].
  destruct (Z.leb_spec duration rem) as [Hfit | Hno].
  2: { intros H. inversion H. now left. }
  destruct (insert_break cfg _ (t + duration) (rem - duration) (sc + 1))
    as [ [ [ [brk t1] rem1 ] sc1 ] | e ] eqn:Eb; simpl; [ | discriminate ].
  destruct (pack_block cfg rest t1 rem1 sc1) as [ [ [log1 l1] s1 ] | e ] eqn:Ep;
    simpl; [ | discriminate ].
  intros H. injection H as <- <- <-. right.
  exists duration, brk, t1, rem1, sc1, log1. auto.
Qed.

Lemma pack_block_chained (cfg : Pomodoro) :
  0 <= break_duration cfg -> 0 <= long_break_duration cfg ->
  forall tasks t rem sc log left_ sc',
    pack_block cfg tasks t rem sc = Ok (log, left_, sc') ->
    chained t (t + rem) (sessions_of log).
Proof.
  intros Hb Hl. induction tasks as [ | task rest IH ]; intros t rem sc log left_ sc' H.
  - simpl in H. inversion H. exact I.
  - apply pack_block_cons in H.
    destruct H as [ (-> & _) | (duration & brk & t1 & rem1 & sc1 & log1 & Hd & Hfit & Hbrk & Hrec & ->) ];
      [ exact I | ].
    apply _calculate_optimal_duration_range in Hd.
    apply IH in Hrec.
    apply insert_break_spec in Hbrk.
    simpl sessions_of. rewrite sessions_of_app. cbn [chained].
    unfold alloc_end, alloc_start, alloc_duration. cbn [fst snd].
    split; [ lia | ]. split; [ lia | ]. split; [ lia | ].
    destruct Hbrk as [ (-> & -> & -> & ->)
                     | (_ & k & d & -> & -> & -> & Hle & Hk) ];
      cbn [sessions_of app].
    + replace (t + rem) with (t + duration + (rem - duration)) by lia. exact Hrec.
    + apply chained_lower with (t + duration + d).
      * destruct Hk as [ (_ & _ & -> & _) | (_ & _ & -> & _) ]; lia.
      * replace (t + rem) with (t + duration + d + (rem - duration - d)) by lia.
        exact Hrec.
Qed.

Lemma available_minutes_le (b : TimeBlock) :
  block_start b <= block_end b ->
  available_minutes b <= block_end b - block_start b.
Proof.
  intros H. unfold available_minutes.
  set (x := block_end b - block_start b) in *.
  assert (Hx : 0 <= x) by lia.
  pose proof (Z.mod_le (x * 60) 86400 ltac:(lia) ltac:(lia)) as Hm.
  pose proof (Z.div_le_mono _ _ 60 ltac:(lia) Hm) as Hd.
  rewrite Z.div_mul in Hd by lia. exact Hd.
Qed.

Lemma day_ordered_end (blocks : list TimeBlock) :
  forall lo, day_ordered lo blocks -> lo <= day_end lo blocks.
Proof.
  induction blocks as [ | b blocks IH ]; simpl; intros lo H; [ lia | ].
  destruct H as (H1 & H2 & H3). specialize (IH _ H3). lia.
Qed.

(** Every allocation lies in a block of the skeleton that is no break
    block. *)
Lemma allocate_blocks_inside (cfg : Pomodoro) :
  0 <= break_duration cfg -> 0 <= long_break_duration cfg ->
  forall blocks lo tasks sc log,
    day_ordered lo blocks ->
    allocate_blocks cfg blocks tasks sc = Ok log ->
    forall a, In a (sessions_of log) -> in_block_of not_break blocks a = true.
Proof.
  intros Hb Hl. induction blocks as [ | b blocks IH ];
    intros lo tasks sc log Hday H a Ha.
  - simpl in H. inversion H. subst. contradiction.
  - destruct Hday as (H1 & H2 & H3).
    simpl in H. destruct tasks as [ | task tasks ].
    { inversion H. subst. contradiction. }
    unfold in_block_of. simpl existsb. unfold not_break at 1.
    destruct (String.eqb (block_type b) "break") eqn:Eb.
    + simpl. exact (IH _ _ _ _ H3 H a Ha).
    + destruct (pack_block cfg (task :: tasks) (block_start b)
                  (available_minutes b) sc) as [ [ [log1 l1] s1 ] | e ] eqn:Ep;
        simpl in H; [ | discriminate ].
      destruct (allocate_blocks cfg blocks l1 s1) as [log2 | e] eqn:Er;
        simpl in H; [ | discriminate ].
      inversion H. subst log. clear H.
      rewrite sessions_of_app in Ha. apply in_app_or in Ha.
      destruct Ha as [Ha | Ha].
      * apply (pack_block_chained cfg Hb Hl) in Ep.
        destruct (chained_In _ _ _ _ Ep Ha) as [Hs He].
        pose proof (available_minutes_le b H2).
        simpl. unfold inside.
        replace (block_start b <=? alloc_start a) with true
          by (symmetry; apply Z.leb_le; lia).
        replace (alloc_end a <=? block_end b) with true
          by (symmetry; apply Z.leb_le; lia).
        reflexivity.
      * pose proof (IH _ _ _ _ H3 Er a Ha) as Hin.
        unfold in_block_of in Hin. rewrite Hin. apply orb_true_r.
Qed.

(** The allocations of a day follow one another. *)
Lemma allocate_blocks_chained (cfg : Pomodoro) :
  0 <= break_duration cfg -> 0 <= long_break_duration cfg ->
  forall blocks lo tasks sc log,
    day_ordered lo blocks ->
    allocate_blocks cfg blocks tasks sc = Ok log ->
    chained lo (day_end lo blocks) (sessions_of log).
Proof.
  intros Hb Hl. induction blocks as [ | b blocks IH ];
    intros lo tasks sc log Hday H.
  - simpl in H. inversion H. exact I.
  - destruct Hday as (H1 & H2 & H3).
    pose proof (day_ordered_end _ _ H3) as Hend.
    simpl in H. destruct tasks as [ | task tasks ].
    { inversion H. exact I. }
    simpl day_end.
    destruct (String.eqb (block_type b) "break").
    + apply chained_lower with (block_end b); [ lia | ].
      exact (IH _ _ _ _ H3 H).
    + destruct (pack_block cfg (task :: tasks) (block_start b)
                  (available_minutes b) sc) as [ [ [log1 l1] s1 ] | e ] eqn:Ep;
        simpl in H; [ | discriminate ].
      destruct (allocate_blocks cfg blocks l1 s1) as [log2 | e] eqn:Er;
        simpl in H; [ | discriminate ].
      inversion H. subst log. clear H.
      rewrite sessions_of_app.
      apply chained_lower with (block_start b); [ lia | ].
      apply chained_app with (block_end b); try lia.
      * apply (pack_block_chained cfg Hb Hl) in Ep.
        pose proof (available_minutes_le b H2).
        apply chained_upper with (block_start b + available_minutes b);
          [ lia | exact Ep ].
      * exact (IH _ _ _ _ H3 Er).
Qed.

Lemma skeleton_ordered (date : Z) :
  day_ordered (datetime_combine date (8, 0)) (_create_advanced_daily_structure date).
Proof.
  unfold _create_advanced_daily_structure, datetime_combine. simpl.
  repeat split; lia.
Qed.

Lemma _allocate_tasks_fallback_log (g : Generator) (tasks : list Task)
  (date : Z) (allocations : list allocation) :
  _allocate_tasks_fallback g tasks date = Ok allocations ->
  exists log, allocation_log g tasks date = Ok log
              /\ allocations = sessions_of log.
Proof.
  unfold _allocate_tasks_fallback. intros H.
  apply bind_Ok in H. destruct H as [log [E H]].
  exists log. split; [ exact E | ]. now inversion H.
Qed.

(** C1 (as amended) -- with non-negative break durations, every allocation
    of the rule-based allocator lies fully inside a block of the day
    skeleton whose type is not 'break'. *)
Theorem allocations_inside_non_break_blocks
  (g : Generator) (tasks : list Task) (date : Z) (allocations : list allocation) :
  0 <= break_duration (pomodoro_settings g) ->
  0 <= long_break_duration (pomodoro_settings g) ->
  _allocate_tasks_fallback g tasks date = Ok allocations ->
  forallb (in_block_of not_break (_create_advanced_daily_structure date))
    allocations = true.
Proof.
  intros Hb Hl H.
  apply _allocate_tasks_fallback_log in H. destruct H as [log [E ->]].
  apply forallb_forall. intros a Ha.
  unfold allocation_log in E.
  exact (allocate_blocks_inside _ Hb Hl _ _ _ _ _ (skeleton_ordered date) E a Ha).
Qed.

Lemma allocations_inside_non_break_blocks_witness :
  0 <= break_duration (pomodoro_settings default_generator)
  /\ 0 <= long_break_duration (pomodoro_settings default_generator)
  /\ forallb (in_block_of not_break (_create_advanced_daily_structure sample_date))
       [(1, 1064160480, 25); (2, 1064160510, 25)] = true.
Proof.
  split; [ simpl; lia | ]. split; [ simpl; lia | ].
  apply (allocations_inside_non_break_blocks default_generator
           [plain_task 1 None; plain_task 2 None] sample_date).
  - simpl. lia.
  - simpl. lia.
  - vm_compute. reflexivity.
Defined.

(** C1 (counterexample) -- with the default settings a single task is
    placed at 08:00, inside the 'morning_routine' block and inside no
    'study' block. *)
Lemma allocation_outside_study_blocks :
  _allocate_tasks_fallback default_generator [plain_task 1 None] sample_date
  = Ok [(1, datetime_combine sample_date (8, 0), 25)]
  /\ forallb (in_block_of is_study (_create_advanced_daily_structure sample_date))
       [(1, datetime_combine sample_date (8, 0), 25)] = false
  /\ in_block_of (String.eqb "morning_routine")
       (_create_advanced_daily_structure sample_date)
       (1, datetime_combine sample_date (8, 0), 25) = true.
Proof. vm_compute. repeat split; reflexivity. Qed.

Lemma chained_no_overlap (l : list allocation) :
  forall lo hi, chained lo hi l -> no_overlap (map schedule_task_of l) = true.
Proof.
  induction l as [ | a l IH ]; intros lo hi C; [ reflexivity | ].
  destruct C as (H1 & H2 & H3 & H4).
  simpl. rewrite (IH _ _ H4), andb_true_r.
  apply forallb_forall. intros y Hy.
  apply in_map_iff in Hy. destruct Hy as [b [<- Hb]].
  destruct (chained_In _ _ _ _ H4 Hb) as [Hs He].
  unfold overlap, item_end, schedule_task_of. simpl.
  apply negb_true_iff, Z.ltb_ge. unfold alloc_end in *. lia.
Qed.

(** C2 (as amended) -- with non-negative break durations, no two items of
    a schedule of the advanced rule-based tier overlap. *)
Theorem advanced_schedule_no_overlap
  (g : Generator) (date : Z) (tasks : option (list Task)) (s : Schedule) :
  0 <= break_duration (pomodoro_settings g) ->
  0 <= long_break_duration (pomodoro_settings g) ->
  _generate_advanced_schedule g date tasks = Ok s ->
  no_overlap (Schedule.tasks s) = true.
Proof.
  intros Hb Hl. unfold _generate_advanced_schedule.
  destruct (match tasks with
            | Some l => l
            | None => _get_enterprise_tasks g date
            end) as [ | t ts ].
  - intros H. inversion H. reflexivity.
  - intros H. apply bind_Ok in H. destruct H as [allocations [E H]].
    inversion H. subst s. clear H. simpl.
    apply _allocate_tasks_fallback_log in E. destruct E as [log [E ->]].
    unfold allocation_log in E.
    eapply chained_no_overlap.
    exact (allocate_blocks_chained _ Hb Hl _ _ _ _ _ (skeleton_ordered date) E).
Qed.

Lemma advanced_schedule_no_overlap_witness :
  0 <= break_duration (pomodoro_settings default_generator)
  /\ 0 <= long_break_duration (pomodoro_settings default_generator)
  /\ no_overlap
       [ {| ScheduleTask.task_id := 1;
            ScheduleTask.scheduled_time := datetime_combine sample_date (8, 0);
            ScheduleTask.duration := 60 |};
         {| ScheduleTask.task_id := 2;
            ScheduleTask.scheduled_time := datetime_combine sample_date (9, 0);
            ScheduleTask.duration := 90 |} ] = true.
Proof.
  split; [ simpl; lia | ]. split; [ simpl; lia | ].
  apply (advanced_schedule_no_overlap default_generator sample_date
           (Some [plain_task 1 (Some 400); plain_task 2 (Some 400)])
           (schedule_of sample_date true
              [(1, datetime_combine sample_date (8, 0), 60);
               (2, datetime_combine sample_date (9, 0), 90)])).
  - simpl. lia.
  - simpl. lia.
  - vm_compute. reflexivity.
Defined.

(** C2 (counterexample) -- with [sessions_until_long_break] stored as 0 the
    two upper tiers raise and the basic tier answers: it puts the three
    tasks at 09:00, 14:00 and 19:00 whatever they last, so the 400-minute
    task of 14:00 is still running at 19:00. *)
Lemma basic_schedule_overlaps :
  let g := with_settings (UserSettings.mk 25 5 15 0 None) in
  let tasks :=
    [plain_task 1 (Some 30); plain_task 2 (Some 400); plain_task 3 (Some 400)] in
  exists s,
    generate_schedule g sample_date (Some tasks) = Ok s
    /\ Schedule.generated_by_ai s = false
    /\ Schedule.tasks s =
       [ {| ScheduleTask.task_id := 1;
            ScheduleTask.scheduled_time := datetime_combine sample_date (9, 0);
            ScheduleTask.duration := 30 |};
         {| ScheduleTask.task_id := 2;
            ScheduleTask.scheduled_time := datetime_combine sample_date (14, 0);
            ScheduleTask.duration := 400 |};
         {| ScheduleTask.task_id := 3;
            ScheduleTask.scheduled_time := datetime_combine sample_date (19, 0);
            ScheduleTask.duration := 400 |} ]
    /\ no_overlap (Schedule.tasks s) = false.
Proof.
  eexists. split; [ vm_compute; reflexivity | ].
  vm_compute. repeat split; reflexivity.
Qed.

(** ** Break cadence *)





(** ** Breaks neither left out nor put in without cause *)

















(** ** The order of the doubles *)








(** ** [sorted(..., reverse=True)] *)

Section StableSort.

Variable A : Type.
Variable lt : A -> A -> bool.

(** The keys that compare (for doubles: the ones that are no NaN). *)
Variable good : A -> Prop.

Hypothesis lt_asym : forall a b, lt a b = true -> lt b a = false.
Hypothesis lt_negtrans :
  forall a b c, good b -> lt a c = true -> lt a b = true \/ lt b c = true.

Lemma insert_desc_perm (x : A) (l : list A) :
  Permutation (Py.insert_desc lt x l) (x :: l).
Proof.
  induction l as [ | y l IH ]; simpl; [ reflexivity | ].
  destruct (lt x y); [ | reflexivity ].
  rewrite IH. apply perm_swap.
Qed.

Lemma sorted_reverse_perm (l : list A) :
  Permutation (Py.sorted_reverse lt l) l.
Proof.
  induction l as [ | x l IH ]; simpl; [ reflexivity | ].
  rewrite insert_desc_perm. now apply perm_skip.
Qed.





Lemma sorted_reverse_length (l : list A) :
  List.length (Py.sorted_reverse lt l) = List.length l.
Proof. apply Permutation_length, sorted_reverse_perm. Qed.

End StableSort.

(** ** The prioritizer *)


Lemma map_result_Forall2 {A B : Type} (f : A -> result B) (l : list A) :
  forall l', map_result f l = Ok l' -> Forall2 (fun x y => f x = Ok y) l l'.
Proof.
  induction l as [ | x l IH ]; simpl; intros l' H.
  - inversion H. constructor.
  - apply bind_Ok in H. destruct H as [y [Ey H]].
    apply bind_Ok in H. destruct H as [ys [Eys H]].
    inversion H. subst. constructor; auto.
Qed.

Lemma map_result_length {A B : Type} (f : A -> result B) (l : list A) (l' : list B) :
  map_result f l = Ok l' -> List.length l' = List.length l.
Proof.
  intros H. apply map_result_Forall2 in H.
  symmetry. eapply Forall2_length. exact H.
Qed.


(** The urgency is computed for an undated task only: on a dated one the
    subtraction raises. *)
Lemma _calculate_due_date_urgency_Ok (due_date : option Z) (date : Z)
  (u : spec_float) :
  _calculate_due_date_urgency due_date date = Ok u ->
  due_date = None /\ u = Py.lit 3 10.
Proof.
  destruct due_date as [due | ]; simpl; intros H; [ discriminate | ].
  inversion H. auto.
Qed.

Lemma final_score_not_nan (task : Task) (ga : alignment) :
  not_nan (final_score task (Py.lit 3 10) ga).
Proof.
  unfold final_score, base_priority,
    _predict_energy_requirement, _get_task_performance_history.
  destruct (String.eqb (Task.priority task) "high");
    [ | destruct (String.eqb (Task.priority task) "medium") ];
    destruct ga; vm_compute; discriminate.
Qed.

Lemma prioritize_one_spec (date : Z) (task : Task) (p : Prioritized) :
  prioritize_one date task = Ok p ->
  p_task p = task /\ not_nan (priority_score p).
Proof.
  unfold prioritize_one. intros H.
  apply bind_Ok in H. destruct H as [u [Eu H]].
  apply _calculate_due_date_urgency_Ok in Eu. destruct Eu as [_ ->].
  destruct (Task.goal_alignment task) as [ga | ]; [ | discriminate ].
  apply bind_Ok in H. destruct H as [d [_ H]].
  inversion H. subst p. simpl. split; [ reflexivity | ].
  apply final_score_not_nan.
Qed.




(** On a task that has a due date the prioritizer raises: the urgency
    subtracts the generation date, a [datetime.date], from the due date, a
    [datetime.datetime].  No list with such a task in it is prioritized. *)
Remark dated_task_raises_in_prioritizer
  (task : Task) (tasks : list Task) (date due : Z) :
  Task.due_date task = Some due ->
  _prioritize_for_productivity (task :: tasks) date = Raise TypeError
  /\ (In task tasks ->
      exists e, _prioritize_for_productivity tasks date = Raise e).
Proof.
  intros Hdue. split.
  - unfold _prioritize_for_productivity. simpl.
    unfold prioritize_one. rewrite Hdue. reflexivity.
  - intros Hin.
    assert (E : exists e, map_result (prioritize_one date) tasks = Raise e).
    { induction tasks as [ | t ts IH ]; [ contradiction | ].
      cbn [map_result].
      destruct (prioritize_one date t) as [p | e] eqn:Ep;
        [ | exists e; reflexivity ].
      destruct Hin as [-> | Hin].
      - unfold prioritize_one in Ep. rewrite Hdue in Ep. discriminate.
      - destruct (IH Hin) as [e ->]. exists e. reflexivity. }
    destruct E as [e E]. exists e.
    unfold _prioritize_for_productivity. rewrite E. reflexivity.
Qed.


(** ** The external generator *)

Lemma clamp_duration_range (v : json) (d : Z) :
  clamp_duration v = Ok d -> 15 <= d <= 90.
Proof.
  destruct v; simpl; intros H; inversion H; lia.
Qed.

Lemma ai_item_range (date : Z) (item : json) (a : ai_allocation) :
  ai_item date item = Ok a -> 15 <= ai_duration a <= 90.
Proof.
  unfold ai_item. intros H.
  apply bind_Ok in H. destruct H as [t [_ H]].
  apply bind_Ok in H. destruct H as [time_obj [_ H]].
  apply bind_Ok in H. destruct H as [d [_ H]].
  apply bind_Ok in H. destruct H as [duration [Hd H]].
  apply bind_Ok in H. destruct H as [task_id [_ H]].
  inversion H. subst a. simpl. now apply clamp_duration_range with d.
Qed.

(** C6 (as amended) -- when the external model is configured, a response
    that is accepted yields exactly its own allocations, each with a
    duration clamped into [15, 90] (the task id is taken as it comes); a
    response that is not accepted is replaced by the answer of the
    rule-based allocator. *)
Theorem ai_response_validation
  (g : Generator) (tasks : list Task) (date : Z) (response : result json) :
  api_available g = true ->
  match accept_response g date response with
  | Ok allocations =>
      _generate_ai_schedule g tasks date response = Ok allocations
      /\ Forall (fun a => 15 <= ai_duration a <= 90) allocations
  | Raise _ =>
      _generate_ai_schedule g tasks date response = rule_based g tasks date
  end.
Proof.
  intros Hapi. unfold _generate_ai_schedule. rewrite Hapi. simpl.
  destruct (accept_response g date response) as [allocations | e] eqn:E;
    simpl; [ | reflexivity ].
  split; [ reflexivity | ].
  unfold accept_response in E.
  apply bind_Ok in E. destruct E as [times [_ E]].
  apply bind_Ok in E. destruct E as [r [_ E]].
  apply bind_Ok in E. destruct E as [schedule [_ E]].
  apply bind_Ok in E. destruct E as [items [_ E]].
  apply map_result_Forall2 in E.
  induction E as [ | item a items allocations Ha _ IH ]; constructor; auto.
  now apply ai_item_range with date item.
Qed.

Lemma ai_response_validation_witness :
  api_available api_generator = true
  /\ _generate_ai_schedule api_generator [plain_task 1 None] sample_date
       (Ok (JObj [("schedule",
                   JList [JObj [("task_id", JInt 1);
                                ("scheduled_time", JStr "09:00");
                                ("duration", JInt 500)]])]))
     = Ok [(JInt 1, datetime_combine sample_date (9, 0), 90)]
  /\ Forall (fun a => 15 <= ai_duration a <= 90)
       [(JInt 1, datetime_combine sample_date (9, 0), 90)].
Proof.
  split; [ reflexivity | ].
  exact (ai_response_validation api_generator [plain_task 1 None] sample_date
           (Ok (JObj [("schedule",
                       JList [JObj [("task_id", JInt 1);
                                    ("scheduled_time", JStr "09:00");
                                    ("duration", JInt 500)]])]))
           eq_refl).
Defined.

(** C6 (counterexample) -- a response naming task 999 is accepted although
    only task 1 was submitted. *)
Lemma unknown_task_id_accepted :
  _generate_ai_schedule api_generator [plain_task 1 None] sample_date
    (Ok (JObj [("schedule",
                JList [JObj [("task_id", JInt 999);
                             ("scheduled_time", JStr "09:00");
                             ("duration", JInt 30)]])]))
  = Ok [(JInt 999, datetime_combine sample_date (9, 0), 30)]
  /\ forallb (references_submitted [plain_task 1 None])
       [(JInt 999, datetime_combine sample_date (9, 0), 30)] = false.
Proof. vm_compute. split; reflexivity. Qed.

(** ** Workload balance *)

(** C9 (as amended) -- the workload is overloaded above 300 minutes,
    balanced above 180 and up to 300, and light up to 180 (180 itself is
    light). *)
Theorem workload_balance_levels (schedule : Schedule) :
  (300 < Schedule.total_study_time schedule ->
   balance_level (_analyze_workload_balance schedule) = "overloaded")
  /\ (180 < Schedule.total_study_time schedule <= 300 ->
      balance_level (_analyze_workload_balance schedule) = "balanced")
  /\ (Schedule.total_study_time schedule <= 180 ->
      balance_level (_analyze_workload_balance schedule) = "light").
Proof.
  unfold _analyze_workload_balance.
  destruct (Z.ltb_spec 300 (Schedule.total_study_time schedule)) as [H3 | H3];
    [ | destruct (Z.ltb_spec 180 (Schedule.total_study_time schedule))
          as [H1 | H1] ];
    simpl; repeat split; intros; solve [ reflexivity | lia ].
Qed.

(** C9 (counterexample) -- a schedule of exactly 180 minutes is light, not
    balanced. *)
Lemma workload_180_is_light :
  balance_level
    (_analyze_workload_balance
       (schedule_of sample_date true
          [(1, datetime_combine sample_date (9, 0), 90);
           (2, datetime_combine sample_date (11, 0), 90)]))
  = "light"
  /\ balance_level_as_specified
       (Schedule.total_study_time
          (schedule_of sample_date true
             [(1, datetime_combine sample_date (9, 0), 90);
              (2, datetime_combine sample_date (11, 0), 90)]))
     = "balanced".
Proof. vm_compute. split; reflexivity. Qed.

(** ** The orchestrator *)



(** In the last week before [date.max] the query of the basic tier
    raises: [date + datetime.timedelta(days=7)] is no date. *)
Remark basic_tier_overflows_in_the_last_week :
  let g :=
    {| user_settings := Some (UserSettings.mk 25 5 15 0 None);
       energy_patterns := [];
       api_available := false;
       pending_productivity_tasks := [plain_task 1 None; plain_task 2 None];
       pending_enterprise_tasks := [plain_task 1 None; plain_task 2 None];
       pending_basic_tasks := [plain_task 1 None; plain_task 2 None];
       active_goals := [] |} in
  _generate_basic_schedule g (date_max - 3) None = Raise OverflowError
  /\ generate_schedule g (date_max - 3) None = Raise OverflowError.
Proof. vm_compute. split; reflexivity. Qed.


(** ** Multi-day distribution *)

Lemma append_at_length {A : Type} (l : list (list A)) (i : nat) (x : A) :
  List.length (append_at l i x) = List.length l.
Proof.
  revert i. induction l as [ | d l IH ]; intros [ | i ]; simpl; auto.
Qed.

Lemma append_at_concat {A : Type} (l : list (list A)) (i : nat) (x : A) :
  (i < List.length l)%nat ->
  Permutation (List.concat (append_at l i x)) (x :: List.concat l).
Proof.
  revert i. induction l as [ | d l IH ]; intros [ | i ] H; simpl in *; try lia.
  - rewrite <- app_assoc. simpl.
    symmetry. apply Permutation_middle.
  - rewrite IH by lia. symmetry. apply Permutation_middle.
Qed.

Lemma append_at_here {A : Type} (l : list (list A)) (i : nat) (x : A) :
  (i < List.length l)%nat ->
  exists day, nth_error (append_at l i x) i = Some day /\ In x day.
Proof.
  revert i. induction l as [ | d l IH ]; intros [ | i ] H; simpl in *; try lia.
  - exists (d ++ [x]). split; [ reflexivity | ].
    apply in_or_app. right. now left.
  - apply IH. lia.
Qed.

Lemma append_at_keeps {A : Type} (l : list (list A)) (i j : nat) (x y : A)
  (day : list A) :
  nth_error l j = Some day -> In y day ->
  exists day', nth_error (append_at l i x) j = Some day' /\ In y day'.
Proof.
  revert i j. induction l as [ | d l IH ]; intros i j Hj Hy.
  - destruct j; discriminate.
  - destruct i as [ | i ], j as [ | j ]; simpl in *.
    + inversion Hj. subst. exists (day ++ [x]). split; [ reflexivity | ].
      apply in_or_app. now left.
    + exists day. auto.
    + exists day. auto.
    + now apply IH.
Qed.

Lemma index_in_range {A : Type} (l : list A) (i : Z) :
  0 <= i < Z.of_nat (List.length l) -> exists x, index l i = Ok x.
Proof.
  intros H. unfold index.
  replace (i <? 0) with false by (symmetry; apply Z.ltb_ge; lia).
  replace ((0 <=? i) && (i <? Z.of_nat (List.length l))) with true
    by (symmetry; apply andb_true_iff; split;
        [ apply Z.leb_le | apply Z.ltb_lt ]; lia).
  destruct (nth_error l (Z.to_nat i)) as [x | ] eqn:E.
  - now exists x.
  - apply nth_error_None in E. lia.
Qed.

(** The round-robin loop started at index [i] on [distributions]. *)
Lemma round_robin_spec (days : Z) :
  0 < days ->
  forall tasks i distributions,
    0 <= i ->
    List.length distributions = Z.to_nat days ->
    exists d,
      round_robin days i tasks distributions = Ok d
      /\ List.length d = Z.to_nat days
      /\ Permutation (List.concat d) (List.concat distributions ++ tasks)
      /\ (forall k t, nth_error tasks k = Some t ->
            exists day,
              nth_error d (Z.to_nat ((i + Z.of_nat k) mod days)) = Some day
              /\ In t day)
      /\ (forall j day y, nth_error distributions j = Some day -> In y day ->
            exists day', nth_error d j = Some day' /\ In y day').
Proof.
  intros Hd. induction tasks as [ | task tasks IH ]; intros i dist Hi Hlen.
  - exists dist. simpl. rewrite app_nil_r.
    repeat split; auto.
    + intros [ | k ] t H; discriminate.
    + intros j day y Hj Hy. now exists day.
  - simpl round_robin. unfold Py.mod_.
    replace (days =? 0) with false by (symmetry; apply Z.eqb_neq; lia).
    simpl bind.
    pose proof (Z.mod_pos_bound i days Hd) as Hm.
    destruct (index_in_range dist (i mod days)) as [x Ex]; [ lia | ].
    rewrite Ex. simpl bind.
    replace (i mod days <? 0) with false by (symmetry; apply Z.ltb_ge; lia).
    set (dist' := append_at dist (Z.to_nat (i mod days)) task).
    assert (Hin : (Z.to_nat (i mod days) < List.length dist)%nat) by lia.
    destruct (IH (i + 1) dist') as (d & Ed & Ld & Pd & Hk & Hkeep);
      [ lia | unfold dist'; now rewrite append_at_length | ].
    exists d. split; [ exact Ed | ]. split; [ exact Ld | ].
    split; [ | split ].
    + rewrite Pd. unfold dist'. rewrite (append_at_concat _ _ _ Hin).
      simpl. apply Permutation_middle.
    + intros [ | k ] t Ht; simpl in Ht.
      * inversion Ht. subst t.
        destruct (append_at_here dist _ task Hin) as (day & Eday & Inday).
        rewrite Z.add_0_r. exact (Hkeep _ _ _ Eday Inday).
      * destruct (Hk k t Ht) as (day & Eday & Inday).
        exists day. split; [ | exact Inday ].
        replace (i + Z.of_nat (S k)) with (i + 1 + Z.of_nat k) by lia.
        exact Eday.
    + intros j day y Hj Hy.
      destruct (append_at_keeps dist (Z.to_nat (i mod days)) j task y day Hj Hy)
        as (day1 & E1 & I1).
      exact (Hkeep _ _ _ E1 I1).
Qed.

Lemma concat_empty_days (days : Z) : List.concat (empty_days days) = @nil Task.
Proof.
  unfold empty_days. induction (Z.to_nat days); simpl; auto.
Qed.

(** C7 (as amended) -- for every task list and every positive day count
    the distribution is the round-robin one: the external partition is never
    used (decoding it raises [NameError]), task [i] goes to day
    [i mod days], and every task is assigned exactly once. *)
Theorem distribution_assigns_exactly_once
  (tasks : list Task) (days : Z) (response : result string) :
  0 < days ->
  exists d,
    _distribute_tasks_across_days tasks days response = Ok d
    /\ _distribute_tasks_fallback tasks days = Ok d
    /\ List.length d = Z.to_nat days
    /\ (forall i t, nth_error tasks i = Some t ->
          exists day,
            nth_error d (Z.to_nat (Z.of_nat i mod days)) = Some day
            /\ In t day)
    /\ Permutation (List.concat d) tasks.
Proof.
  intros Hd.
  destruct (round_robin_spec days Hd tasks 0 (empty_days days))
    as (d & Ed & Ld & Pd & Hk & _);
    [ lia | unfold empty_days; apply repeat_length | ].
  exists d.
  assert (Ef : _distribute_tasks_fallback tasks days = Ok d) by exact Ed.
  split; [ | split; [ exact Ef | split; [ exact Ld | split ] ] ].
  - unfold _distribute_tasks_across_days.
    destruct tasks as [ | t ts ].
    + simpl in Ed. exact Ed.
    + rewrite <- Ef. unfold try_except, json_loads_unbound.
      destruct response as [text | e]; reflexivity.
  - intros i t Ht. exact (Hk i t Ht).
  - rewrite Pd, concat_empty_days. reflexivity.
Qed.

Lemma distribution_assigns_exactly_once_witness :
  0 < 3
  /\ exists d,
       _distribute_tasks_across_days
         (map (fun i => plain_task i None) [1; 2; 3; 4; 5; 6; 7; 8; 9; 10]) 3
         (Ok "[[0, 0], [1]]") = Ok d
       /\ _distribute_tasks_fallback
            (map (fun i => plain_task i None) [1; 2; 3; 4; 5; 6; 7; 8; 9; 10]) 3
          = Ok d
       /\ List.length d = Z.to_nat 3
       /\ (forall i t,
             nth_error
               (map (fun i => plain_task i None) [1; 2; 3; 4; 5; 6; 7; 8; 9; 10])
               i = Some t ->
             exists day,
               nth_error d (Z.to_nat (Z.of_nat i mod 3)) = Some day
               /\ In t day)
       /\ Permutation (List.concat d)
            (map (fun i => plain_task i None) [1; 2; 3; 4; 5; 6; 7; 8; 9; 10]).
Proof.
  split; [ lia | ].
  apply (distribution_assigns_exactly_once
           (map (fun i => plain_task i None) [1; 2; 3; 4; 5; 6; 7; 8; 9; 10]) 3
           (Ok "[[0, 0], [1]]")).
  lia.
Defined.

(** C7 (counterexample) -- a day count that is not positive, which the
    caller does not exclude, distributes nothing: with 0 days the
    round-robin divides by zero, with -1 day it indexes an empty list, and
    the exception leaves the handler of the failed external distribution. *)
Lemma distribution_zero_days_raises :
  _distribute_tasks_across_days [plain_task 1 None] 0 (Raise ExternalFailure)
  = Raise ZeroDivisionError
  /\ _distribute_tasks_fallback [plain_task 1 None] 0 = Raise ZeroDivisionError
  /\ _distribute_tasks_across_days [plain_task 1 None] (-1)
       (Raise ExternalFailure)
     = Raise IndexError.
Proof. vm_compute. repeat split; reflexivity. Qed.

(** So it is for every day count that is not positive and every list with
    a task in it. *)
Remark distribution_without_days
  (task : Task) (tasks : list Task) (days : Z) (response : result string) :
  days <= 0 ->
  _distribute_tasks_fallback (task :: tasks) days
  = Raise (if days =? 0 then ZeroDivisionError else IndexError)
  /\ _distribute_tasks_across_days (task :: tasks) days response
     = Raise (if days =? 0 then ZeroDivisionError else IndexError).
Proof.
  intros H.
  assert (E : _distribute_tasks_fallback (task :: tasks) days
              = Raise (if days =? 0 then ZeroDivisionError else IndexError)).
  { unfold _distribute_tasks_fallback, empty_days. cbn [round_robin].
    unfold Py.mod_.
    destruct (Z.eqb_spec days 0) as [-> | Hn]; [ reflexivity | ].
    rewrite Z.mod_0_l by exact Hn.
    replace (Z.to_nat days) with 0%nat by lia. reflexivity. }
  split; [ exact E | ].
  unfold _distribute_tasks_across_days, try_except, json_loads_unbound.
  destruct response as [text | e]; exact E.
Qed.

(** ** The ten-task limit *)

Lemma task_allocations_app (l1 l2 : list schedule_block) :
  task_allocations (l1 ++ l2) = task_allocations l1 ++ task_allocations l2.
Proof.
  induction l1 as [ | [task t d | t d] l1 IH ]; simpl;
    rewrite ?IH; reflexivity.
Qed.

Lemma energy_loop_count (date : Z) (preferred_times : list (Z * Z)) :
  forall slots tasks allocations tasks_left,
    energy_loop date preferred_times slots tasks = Ok (allocations, tasks_left) ->
    (List.length (task_allocations allocations) + List.length tasks_left
     = List.length tasks)%nat.
Proof.
  induction slots as [ | [hour energy] slots IH ];
    intros tasks allocations tasks_left H.
  - simpl in H. inversion H. reflexivity.
  - simpl in H. destruct tasks as [ | task_data tasks ].
    { inversion H. reflexivity. }
    apply bind_Ok in H. destruct H as [hour_time [_ H]].
    destruct (existsb (_time_in_range hour_time) preferred_times
              && SFleb (Py.lit 3 1) energy).
    + apply bind_Ok in H. destruct H as [ [a l] [Er H] ].
      inversion H. subst. simpl. apply IH in Er. lia.
    + apply IH in H. exact H.
Qed.

Lemma fallback_loop_count (date : Z) (preferred_times : list (Z * Z)) :
  forall tasks task_index more,
    fallback_loop date preferred_times task_index tasks = Ok more ->
    List.length (task_allocations more) = List.length tasks.
Proof.
  induction tasks as [ | task_data tasks IH ]; intros task_index more H.
  - simpl in H. inversion H. reflexivity.
  - simpl in H. apply bind_Ok in H. destruct H as [i [_ H]].
    destruct (nth_error preferred_times (Z.to_nat i)) as [t | ];
      [ | discriminate ].
    apply bind_Ok in H. destruct H as [rest [Er H]].
    inversion H. subst. simpl. f_equal. now apply IH with (task_index + 1).
Qed.

Lemma inject_loop_tasks (cfg : Pomodoro) :
  forall time_blocks session_count out,
    inject_loop cfg time_blocks session_count = Ok out ->
    task_allocations out = task_allocations time_blocks.
Proof.
  induction time_blocks as [ | block blocks IH ]; intros session_count out H.
  - simpl in H. inversion H. reflexivity.
  - simpl in H. destruct blocks as [ | block' blocks ].
    { inversion H. reflexivity. }
    apply bind_Ok in H. destruct H as [m [_ H]].
    apply bind_Ok in H. destruct H as [rest [Er H]].
    inversion H. subst out. apply IH in Er.
    destruct block as [task t d | t d]; simpl in *; congruence.
Qed.

Lemma _get_productivity_tasks_length (g : Generator) (date : Z) :
  (List.length (_get_productivity_tasks g date) <= 10)%nat.
Proof. unfold _get_productivity_tasks. apply firstn_le_length. Qed.

(** C10 -- when the productivity-optimized tier fetches the tasks itself,
    it keeps the first ten of the enhanced pending tasks, and a schedule
    it returns has at most ten items. *)
Theorem productivity_tier_at_most_ten
  (g : Generator) (date : Z) (s : Schedule) :
  _generate_productivity_optimized_schedule g date None = Ok s ->
  _get_productivity_tasks g date
  = firstn 10 (Py.sorted_reverse productivity_key_lt
                 (map (enhance g date) (pending_productivity_tasks g)))
  /\ (List.length (Schedule.tasks s) <= 10)%nat.
Proof.
  intros H. split; [ reflexivity | ].
  pose proof (_get_productivity_tasks_length g date) as Hten.
  unfold _generate_productivity_optimized_schedule in H.
  destruct (_get_productivity_tasks g date) as [ | t ts ] eqn:Et.
  { inversion H. simpl. lia. }
  apply bind_Ok in H. destruct H as [prioritized [Ep H]].
  apply bind_Ok in H. destruct H as [time_blocks [Ea H]].
  apply bind_Ok in H. destruct H as [with_breaks [Ei H]].
  inversion H. subst s. clear H.
  unfold _create_productivity_schedule, schedule_of. simpl Schedule.tasks.
  rewrite length_map.
  apply inject_loop_tasks in Ei. rewrite Ei.
  unfold _prioritize_for_productivity in Ep.
  apply bind_Ok in Ep. destruct Ep as [scored [Es Ep]].
  inversion Ep. subst prioritized. clear Ep.
  apply map_result_length in Es.
  unfold _allocate_energy_aware_times in Ea.
  apply bind_Ok in Ea. destruct Ea as [times [_ Ea]].
  apply bind_Ok in Ea. destruct Ea as [keyed [_ Ea]].
  apply bind_Ok in Ea. destruct Ea as [ [allocations tasks_left] [El Ea] ].
  apply bind_Ok in Ea. destruct Ea as [more [Ef Ea]].
  inversion Ea. subst time_blocks. clear Ea.
  rewrite task_allocations_app, length_app.
  apply energy_loop_count in El. apply fallback_loop_count in Ef.
  rewrite sorted_reverse_length in El. lia.
Qed.

Lemma productivity_tier_at_most_ten_witness :
  exists s,
    _generate_productivity_optimized_schedule
      (with_pending
         (map (fun i => plain_task i None) [1; 2; 3; 4; 5; 6; 7; 8; 9; 10; 11; 12]))
      sample_date None = Ok s
    /\ List.length (Schedule.tasks s) = 10%nat
    /\ (List.length (Schedule.tasks s) <= 10)%nat.
Proof.
  eexists. split; [ vm_compute; reflexivity | ].
  split; [ reflexivity | ].
  apply (productivity_tier_at_most_ten
           (with_pending
              (map (fun i => plain_task i None)
                 [1; 2; 3; 4; 5; 6; 7; 8; 9; 10; 11; 12]))
           sample_date).
  vm_compute. reflexivity.
Defined.

(** ** The order in which the allocator takes the tasks *)

Section StableSortAscending.

Variable A : Type.
Variable lt : A -> A -> bool.

Hypothesis lt_asym : forall a b, lt a b = true -> lt b a = false.
Hypothesis lt_negtrans :
  forall a b c, lt a c = true -> lt a b = true \/ lt b c = true.

Lemma insert_asc_perm (x : A) (l : list A) :
  Permutation (Py.insert_asc lt x l) (x :: l).
Proof.
  induction l as [ | y l IH ]; simpl; [ reflexivity | ].
  destruct (lt y x); [ | reflexivity ].
  rewrite IH. apply perm_swap.
Qed.

Lemma sorted_perm (l : list A) : Permutation (Py.sorted lt l) l.
Proof.
  induction l as [ | x l IH ]; simpl; [ reflexivity | ].
  rewrite insert_asc_perm. now apply perm_skip.
Qed.

Lemma insert_asc_sorted (x : A) (l : list A) :
  StronglySorted (fun a b => lt b a = false) l ->
  StronglySorted (fun a b => lt b a = false) (Py.insert_asc lt x l).
Proof.
  induction l as [ | y l IH ]; simpl; intros S.
  - constructor; constructor.
  - inversion S as [ | y' l' Sl Hy ]; subst.
    destruct (lt y x) eqn:E.
    + constructor; [ now apply IH | ].
      apply Forall_forall. intros w Hw.
      apply (Permutation_in _ (insert_asc_perm x l)) in Hw.
      destruct Hw as [<- | Hw]; [ now apply lt_asym | ].
      rewrite Forall_forall in Hy. now apply Hy.
    + constructor; [ exact S | ].
      constructor; [ exact E | ].
      apply Forall_forall. intros z Hz.
      rewrite Forall_forall in Hy. specialize (Hy z Hz).
      destruct (lt z x) eqn:Ezx; [ | reflexivity ].
      destruct (lt_negtrans z y x Ezx) as [K | K]; congruence.
Qed.

Lemma sorted_sorted (l : list A) :
  StronglySorted (fun a b => lt b a = false) (Py.sorted lt l).
Proof.
  induction l as [ | x l IH ]; simpl; [ constructor | ].
  now apply insert_asc_sorted.
Qed.

Lemma insert_asc_stable (P : A -> bool) (x : A) (l : list A) :
  (forall a b, P a = true -> P b = true -> lt a b = false) ->
  filter P (Py.insert_asc lt x l) = filter P (x :: l).
Proof.
  intros HP. induction l as [ | y l IH ]; [ reflexivity | ].
  simpl Py.insert_asc. destruct (lt y x) eqn:E; [ | reflexivity ].
  simpl filter in *. rewrite IH.
  destruct (P x) eqn:Px, (P y) eqn:Py; try reflexivity.
  rewrite (HP y x Py Px) in E. discriminate.
Qed.

Lemma sorted_stable (P : A -> bool) (l : list A) :
  (forall a b, P a = true -> P b = true -> lt a b = false) ->
  filter P (Py.sorted lt l) = filter P l.
Proof.
  intros HP. induction l as [ | x l IH ]; [ reflexivity | ].
  simpl Py.sorted. rewrite (insert_asc_stable P x _ HP).
  simpl. now rewrite IH.
Qed.

End StableSortAscending.

Lemma str_lt_asym (a b : string) : Py.str_lt a b = true -> Py.str_lt b a = false.
Proof.
  unfold Py.str_lt. rewrite (String.compare_antisym b a).
  destruct (String.compare a b); simpl; congruence.
Qed.

Lemma str_lt_negtrans (a b c : string) :
  Py.str_lt a c = true -> Py.str_lt a b = true \/ Py.str_lt b c = true.
Proof.
  unfold Py.str_lt. intros H.
  destruct (String.compare a b) eqn:Eab.
  - apply String_as_OT.cmp_eq in Eab. subst b. now right.
  - now left.
  - right.
    assert (Hba : String_as_OT.cmp b a = Lt).
    { unfold String_as_OT.cmp. rewrite String.compare_antisym, Eab. reflexivity. }
    assert (Hac : String_as_OT.cmp a c = Lt).
    { unfold String_as_OT.cmp. destruct (String.compare a c); congruence. }
    apply String_as_OT.cmp_lt in Hba, Hac.
    pose proof (String_as_OT.lt_trans _ _ _ Hba Hac) as Hbc.
    apply String_as_OT.cmp_lt in Hbc. unfold String_as_OT.cmp in Hbc.
    now rewrite Hbc.
Qed.

Lemma sort_key_lt_asym (k1 k2 : Z * Z * string) :
  sort_key_lt k1 k2 = true -> sort_key_lt k2 k1 = false.
Proof.
  destruct k1 as [ [r1 d1] c1 ], k2 as [ [r2 d2] c2 ]. unfold sort_key_lt.
  destruct (Z.ltb_spec r1 r2), (Z.ltb_spec r2 r1); try lia; try congruence.
  destruct (Z.ltb_spec d1 d2), (Z.ltb_spec d2 d1); try lia; try congruence.
  apply str_lt_asym.
Qed.

Lemma sort_key_lt_negtrans (k1 k2 k3 : Z * Z * string) :
  sort_key_lt k1 k3 = true ->
  sort_key_lt k1 k2 = true \/ sort_key_lt k2 k3 = true.
Proof.
  destruct k1 as [ [r1 d1] c1 ], k2 as [ [r2 d2] c2 ], k3 as [ [r3 d3] c3 ].
  unfold sort_key_lt.
  destruct (Z.ltb_spec r1 r3), (Z.ltb_spec r3 r1), (Z.ltb_spec r1 r2),
    (Z.ltb_spec r2 r1), (Z.ltb_spec r2 r3), (Z.ltb_spec r3 r2);
    try lia; auto; try discriminate.
  destruct (Z.ltb_spec d1 d3), (Z.ltb_spec d3 d1), (Z.ltb_spec d1 d2),
    (Z.ltb_spec d2 d1), (Z.ltb_spec d2 d3), (Z.ltb_spec d3 d2);
    try lia; auto; try discriminate.
  apply str_lt_negtrans.
Qed.

Lemma sort_key_eqb_not_lt (k1 k2 k : Z * Z * string) :
  sort_key_eqb k1 k = true -> sort_key_eqb k2 k = true ->
  sort_key_lt k1 k2 = false.
Proof.
  destruct k1 as [ [r1 d1] c1 ], k2 as [ [r2 d2] c2 ], k as [ [r d] c ].
  unfold sort_key_eqb, sort_key_lt. intros H1 H2.
  apply andb_true_iff in H1. destruct H1 as [H1 Hc1].
  apply andb_true_iff in H1. destruct H1 as [Hr1 Hd1].
  apply andb_true_iff in H2. destruct H2 as [H2 Hc2].
  apply andb_true_iff in H2. destruct H2 as [Hr2 Hd2].
  apply Z.eqb_eq in Hr1, Hd1, Hr2, Hd2. apply String.eqb_eq in Hc1, Hc2.
  subst. rewrite !Z.ltb_irrefl.
  unfold Py.str_lt.
  destruct (String.compare c c) eqn:E; try reflexivity.
  pose proof (String.compare_antisym c c) as Ha. rewrite E in Ha. discriminate.
Qed.

Lemma sorted_tasks_order (tasks : list Task) :
  Permutation (sorted_tasks tasks) tasks
  /\ ascending_by_key (sorted_tasks tasks)
  /\ forall k,
       filter (fun t => sort_key_eqb (sort_key t) k) (sorted_tasks tasks)
       = filter (fun t => sort_key_eqb (sort_key t) k) tasks.
Proof.
  unfold sorted_tasks, ascending_by_key. split; [ | split ].
  - apply sorted_perm.
  - apply (sorted_sorted Task
             (fun a b => sort_key_lt (sort_key a) (sort_key b))).
    + intros a b. apply sort_key_lt_asym.
    + intros a b c. apply sort_key_lt_negtrans.
  - intros k. apply sorted_stable.
    intros a b Ha Hb. now apply sort_key_eqb_not_lt with k.
Qed.

(** ** What the allocator places *)

Lemma sessions_ids_app (l1 l2 : list event) :
  map alloc_task_id (sessions_of (l1 ++ l2))
  = map alloc_task_id (sessions_of l1) ++ map alloc_task_id (sessions_of l2).
Proof. now rewrite sessions_of_app, map_app. Qed.

(** A block takes the tasks from the front of the list, one session
    each, and hands the others on. *)
Lemma pack_block_prefix (cfg : Pomodoro) :
  forall tasks t rem sc log left_ sc',
    pack_block cfg tasks t rem sc = Ok (log, left_, sc') ->
    exists placed,
      tasks = placed ++ left_
      /\ map alloc_task_id (sessions_of log) = map Task.id placed.
Proof.
  induction tasks as [ | task rest IH ]; intros t rem sc log left_ sc' H.
  - simpl in H. inversion H. subst. now exists [].
  - apply pack_block_cons in H.
    destruct H as [ (-> & -> & _)
      | (duration & brk & t1 & rem1 & sc1 & log1 & _ & _ & Hbrk & Hrec & ->) ].
    { now exists []. }
    apply IH in Hrec. destruct Hrec as (placed & -> & Hids).
    exists (task :: placed). split; [ reflexivity | ].
    apply insert_break_spec in Hbrk.
    destruct Hbrk as [ (-> & _) | (_ & k & d & -> & _) ]; simpl; now rewrite Hids.
Qed.

Lemma allocate_blocks_prefix (cfg : Pomodoro) :
  forall blocks tasks sc log,
    allocate_blocks cfg blocks tasks sc = Ok log ->
    exists placed left_,
      tasks = placed ++ left_
      /\ map alloc_task_id (sessions_of log) = map Task.id placed.
Proof.
  induction blocks as [ | b blocks IH ]; intros tasks sc log H.
  - simpl in H. inversion H. now exists [], tasks.
  - simpl in H. destruct tasks as [ | task tasks ].
    { inversion H. now exists [], []. }
    destruct (String.eqb (block_type b) "break").
    + exact (IH _ _ _ H).
    + destruct (pack_block cfg (task :: tasks) (block_start b)
                  (available_minutes b) sc) as [ [ [log1 l1] s1 ] | e ] eqn:Ep;
        simpl in H; [ | discriminate ].
      destruct (allocate_blocks cfg blocks l1 s1) as [log2 | e] eqn:Er;
        simpl in H; [ | discriminate ].
      inversion H. subst log. clear H.
      apply pack_block_prefix in Ep. destruct Ep as (p1 & E1 & I1).
      apply IH in Er. destruct Er as (p2 & l2 & E2 & I2).
      exists (p1 ++ p2), l2. split.
      * rewrite E1, E2. now rewrite app_assoc.
      * now rewrite sessions_ids_app, map_app, I1, I2.
Qed.

(** X1 -- on a task list whose due dates compare (within one priority
    rank all tasks have a due date or none has), the allocator takes the
    tasks in ascending order of the key (priority rank, due date or
    [date.max], category or 'z'), tasks of equal key in the order they
    were submitted in, and never passes over one: the tasks it places are
    the first ones of that order, one allocation each, and what it leaves
    out is the tail. *)
Theorem allocator_takes_tasks_in_key_order
  (g : Generator) (tasks : list Task) (date : Z) (allocations : list allocation) :
  comparable_due_dates tasks ->
  _allocate_tasks_fallback g tasks date = Ok allocations ->
  exists placed left_,
    sorted_tasks tasks = placed ++ left_
    /\ Permutation (placed ++ left_) tasks
    /\ ascending_by_key (placed ++ left_)
    /\ (forall k,
          filter (fun t => sort_key_eqb (sort_key t) k) (placed ++ left_)
          = filter (fun t => sort_key_eqb (sort_key t) k) tasks)
    /\ map alloc_task_id allocations = map Task.id placed.
Proof.
  intros _ H. apply _allocate_tasks_fallback_log in H.
  destruct H as [log [E ->]]. unfold allocation_log in E.
  destruct (allocate_blocks_prefix _ _ _ _ _ E) as (placed & left_ & Es & Ids).
  exists placed, left_. rewrite <- Es.
  destruct (sorted_tasks_order tasks) as (P & S & F).
  repeat split; assumption.
Qed.

Lemma allocator_takes_tasks_in_key_order_witness :
  comparable_due_dates
    [ {| Task.id := 1; Task.priority := "low"; Task.category := Some "math";
             Task.due_date := None; Task.estimated_duration := Some 90;
             Task.goal_id := None; Task.goal_alignment := None;
             Task.productivity_score := None |};
          {| Task.id := 2; Task.priority := "high"; Task.category := Some "physics";
             Task.due_date := Some (sample_date + 2);
             Task.estimated_duration := Some 90;
             Task.goal_id := None; Task.goal_alignment := None;
             Task.productivity_score := None |};
          {| Task.id := 3; Task.priority := "high"; Task.category := Some "art";
             Task.due_date := Some (sample_date + 2);
             Task.estimated_duration := Some 90;
             Task.goal_id := None; Task.goal_alignment := None;
             Task.productivity_score := None |};
          {| Task.id := 4; Task.priority := "high"; Task.category := Some "zoology";
             Task.due_date := Some (sample_date + 1);
             Task.estimated_duration := Some 90;
             Task.goal_id := None; Task.goal_alignment := None;
             Task.productivity_score := None |} ]
  /\ exists placed left_,
       sorted_tasks
         [ {| Task.id := 1; Task.priority := "low"; Task.category := Some "math";
             Task.due_date := None; Task.estimated_duration := Some 90;
             Task.goal_id := None; Task.goal_alignment := None;
             Task.productivity_score := None |};
          {| Task.id := 2; Task.priority := "high"; Task.category := Some "physics";
             Task.due_date := Some (sample_date + 2);
             Task.estimated_duration := Some 90;
             Task.goal_id := None; Task.goal_alignment := None;
             Task.productivity_score := None |};
          {| Task.id := 3; Task.priority := "high"; Task.category := Some "art";
             Task.due_date := Some (sample_date + 2);
             Task.estimated_duration := Some 90;
             Task.goal_id := None; Task.goal_alignment := None;
             Task.productivity_score := None |};
          {| Task.id := 4; Task.priority := "high"; Task.category := Some "zoology";
             Task.due_date := Some (sample_date + 1);
             Task.estimated_duration := Some 90;
             Task.goal_id := None; Task.goal_alignment := None;
             Task.productivity_score := None |} ]
       = placed ++ left_
       /\ Permutation (placed ++ left_)
            [ {| Task.id := 1; Task.priority := "low"; Task.category := Some "math";
             Task.due_date := None; Task.estimated_duration := Some 90;
             Task.goal_id := None; Task.goal_alignment := None;
             Task.productivity_score := None |};
          {| Task.id := 2; Task.priority := "high"; Task.category := Some "physics";
             Task.due_date := Some (sample_date + 2);
             Task.estimated_duration := Some 90;
             Task.goal_id := None; Task.goal_alignment := None;
             Task.productivity_score := None |};
          {| Task.id := 3; Task.priority := "high"; Task.category := Some "art";
             Task.due_date := Some (sample_date + 2);
             Task.estimated_duration := Some 90;
             Task.goal_id := None; Task.goal_alignment := None;
             Task.productivity_score := None |};
          {| Task.id := 4; Task.priority := "high"; Task.category := Some "zoology";
             Task.due_date := Some (sample_date + 1);
             Task.estimated_duration := Some 90;
             Task.goal_id := None; Task.goal_alignment := None;
             Task.productivity_score := None |} ]
       /\ ascending_by_key (placed ++ left_)
       /\ (forall k,
             filter (fun t => sort_key_eqb (sort_key t) k) (placed ++ left_)
             = filter (fun t => sort_key_eqb (sort_key t) k)
                 [ {| Task.id := 1; Task.priority := "low"; Task.category := Some "math";
             Task.due_date := None; Task.estimated_duration := Some 90;
             Task.goal_id := None; Task.goal_alignment := None;
             Task.productivity_score := None |};
          {| Task.id := 2; Task.priority := "high"; Task.category := Some "physics";
             Task.due_date := Some (sample_date + 2);
             Task.estimated_duration := Some 90;
             Task.goal_id := None; Task.goal_alignment := None;
             Task.productivity_score := None |};
          {| Task.id := 3; Task.priority := "high"; Task.category := Some "art";
             Task.due_date := Some (sample_date + 2);
             Task.estimated_duration := Some 90;
             Task.goal_id := None; Task.goal_alignment := None;
             Task.productivity_score := None |};
          {| Task.id := 4; Task.priority := "high"; Task.category := Some "zoology";
             Task.due_date := Some (sample_date + 1);
             Task.estimated_duration := Some 90;
             Task.goal_id := None; Task.goal_alignment := None;
             Task.productivity_score := None |} ])
       /\ map alloc_task_id
            [(4, datetime_combine sample_date (8, 0), 60);
             (3, datetime_combine sample_date (9, 0), 90);
             (2, datetime_combine sample_date (11, 0), 90);
             (1, datetime_combine sample_date (12, 30), 60)]
          = map Task.id placed.
Proof.
  assert (C : comparable_due_dates
                [ {| Task.id := 1; Task.priority := "low"; Task.category := Some "math";
             Task.due_date := None; Task.estimated_duration := Some 90;
             Task.goal_id := None; Task.goal_alignment := None;
             Task.productivity_score := None |};
          {| Task.id := 2; Task.priority := "high"; Task.category := Some "physics";
             Task.due_date := Some (sample_date + 2);
             Task.estimated_duration := Some 90;
             Task.goal_id := None; Task.goal_alignment := None;
             Task.productivity_score := None |};
          {| Task.id := 3; Task.priority := "high"; Task.category := Some "art";
             Task.due_date := Some (sample_date + 2);
             Task.estimated_duration := Some 90;
             Task.goal_id := None; Task.goal_alignment := None;
             Task.productivity_score := None |};
          {| Task.id := 4; Task.priority := "high"; Task.category := Some "zoology";
             Task.due_date := Some (sample_date + 1);
             Task.estimated_duration := Some 90;
             Task.goal_id := None; Task.goal_alignment := None;
             Task.productivity_score := None |} ]).
  { intros a b Ha Hb Hr. cbn [In] in Ha, Hb.
    repeat match goal with
           | H : _ \/ _ |- _ => destruct H as [H | H]
           | H : False |- _ => contradiction
           end;
      subst a b; try discriminate Hr; split; intros K; try exact K;
      try discriminate K; reflexivity. }
  split; [ exact C | ].
  apply (allocator_takes_tasks_in_key_order default_generator _ sample_date _ C).
  vm_compute. reflexivity.
Defined.

(** ** Durations and capacity of the rule-based day *)

Lemma pack_block_durations (cfg : Pomodoro) :
  forall tasks t rem sc log left_ sc',
    pack_block cfg tasks t rem sc = Ok (log, left_, sc') ->
    Forall (fun a => 15 <= alloc_duration a <= 120 /\ alloc_duration a mod 5 = 0)
      (sessions_of log).
Proof.
  induction tasks as [ | task rest IH ]; intros t rem sc log left_ sc' H.
  - simpl in H. inversion H. constructor.
  - apply pack_block_cons in H.
    destruct H as [ (-> & _)
      | (duration & brk & t1 & rem1 & sc1 & log1 & Hd & _ & Hbrk & Hrec & ->) ].
    { constructor. }
    apply _calculate_optimal_duration_range in Hd.
    apply IH in Hrec. apply insert_break_spec in Hbrk.
    simpl sessions_of. rewrite sessions_of_app. constructor; [ exact Hd | ].
    destruct Hbrk as [ (-> & _) | (_ & k & d & -> & _) ]; exact Hrec.
Qed.

Lemma allocate_blocks_durations (cfg : Pomodoro) :
  forall blocks tasks sc log,
    allocate_blocks cfg blocks tasks sc = Ok log ->
    Forall (fun a => 15 <= alloc_duration a <= 120 /\ alloc_duration a mod 5 = 0)
      (sessions_of log).
Proof.
  induction blocks as [ | b blocks IH ]; intros tasks sc log H.
  - simpl in H. inversion H. constructor.
  - simpl in H. destruct tasks as [ | task tasks ].
    { inversion H. constructor. }
    destruct (String.eqb (block_type b) "break").
    + exact (IH _ _ _ H).
    + destruct (pack_block cfg (task :: tasks) (block_start b)
                  (available_minutes b) sc) as [ [ [log1 l1] s1 ] | e ] eqn:Ep;
        simpl in H; [ | discriminate ].
      destruct (allocate_blocks cfg blocks l1 s1) as [log2 | e] eqn:Er;
        simpl in H; [ | discriminate ].
      inversion H. subst log. clear H.
      rewrite sessions_of_app. apply Forall_app. split.
      * exact (pack_block_durations _ _ _ _ _ _ _ _ Ep).
      * exact (IH _ _ _ Er).
Qed.

Lemma skeleton_block_lengths (date : Z) :
  Forall (fun b => block_end b - block_start b <= 90)
    (_create_advanced_daily_structure date).
Proof.
  unfold _create_advanced_daily_structure, datetime_combine.
  repeat constructor; simpl; lia.
Qed.

(** X2 -- with non-negative break durations, every allocation of the
    rule-based allocator lasts a multiple of 5 minutes between 15 and 90:
    the estimator's 120 is never reached, no block being longer than 90
    minutes. *)
Theorem allocator_durations
  (g : Generator) (tasks : list Task) (date : Z) (allocations : list allocation) :
  0 <= break_duration (pomodoro_settings g) ->
  0 <= long_break_duration (pomodoro_settings g) ->
  _allocate_tasks_fallback g tasks date = Ok allocations ->
  Forall (fun a => 15 <= alloc_duration a <= 90 /\ alloc_duration a mod 5 = 0)
    allocations.
Proof.
  intros Hb Hl H.
  apply _allocate_tasks_fallback_log in H. destruct H as [log [E ->]].
  unfold allocation_log in E.
  pose proof (allocate_blocks_durations _ _ _ _ _ E) as D.
  rewrite Forall_forall in D |- *. intros a Ha.
  destruct (D a Ha) as [ [D1 D2] D3 ]. split; [ split; [ exact D1 | ] | exact D3 ].
  pose proof (allocate_blocks_inside _ Hb Hl _ _ _ _ _ (skeleton_ordered date) E a Ha)
    as Hin.
  unfold in_block_of in Hin. apply existsb_exists in Hin.
  destruct Hin as (b & Hb_in & Hb_ok).
  apply andb_true_iff in Hb_ok. destruct Hb_ok as [_ Hins].
  unfold inside in Hins. apply andb_true_iff in Hins. destruct Hins as [H1 H2].
  apply Z.leb_le in H1, H2.
  pose proof (skeleton_block_lengths date) as L.
  rewrite Forall_forall in L. specialize (L b Hb_in).
  unfold alloc_end in H2. lia.
Qed.

Lemma allocator_durations_witness :
  0 <= break_duration (pomodoro_settings default_generator)
  /\ 0 <= long_break_duration (pomodoro_settings default_generator)
  /\ Forall (fun a => 15 <= alloc_duration a <= 90 /\ alloc_duration a mod 5 = 0)
       [(1, datetime_combine sample_date (8, 0), 60);
        (2, datetime_combine sample_date (9, 0), 90)].
Proof.
  split; [ simpl; lia | ]. split; [ simpl; lia | ].
  apply (allocator_durations default_generator
           [plain_task 1 (Some 400); plain_task 2 (Some 400)] sample_date).
  - simpl. lia.
  - simpl. lia.
  - vm_compute. reflexivity.
Defined.

Lemma sum_from (l : list Z) : forall a, fold_left Z.add l a = a + sum l.
Proof.
  unfold sum. induction l as [ | x l IH ]; intros a; simpl; [ lia | ].
  rewrite (IH (a + x)), (IH x). lia.
Qed.

Lemma sum_cons (x : Z) (l : list Z) : sum (x :: l) = x + sum l.
Proof. unfold sum at 1. simpl. apply sum_from. Qed.

Lemma sum_app (l1 l2 : list Z) : sum (l1 ++ l2) = sum l1 + sum l2.
Proof.
  induction l1 as [ | x l1 IH ]; simpl; [ reflexivity | ].
  rewrite !sum_cons, IH. lia.
Qed.

Lemma chained_sum (l : list allocation) :
  forall lo hi, lo <= hi -> chained lo hi l ->
    0 <= sum (map alloc_duration l) <= hi - lo.
Proof.
  induction l as [ | a l IH ]; intros lo hi Hle C.
  - unfold sum. simpl. lia.
  - destruct C as (H1 & H2 & H3 & H4). simpl map. rewrite sum_cons.
    unfold alloc_end in *.
    specialize (IH _ _ H3 H4). lia.
Qed.

Lemma available_minutes_nonneg (b : TimeBlock) : 0 <= available_minutes b.
Proof.
  unfold available_minutes. apply Z.div_pos; [ | lia ].
  apply Z.mod_pos_bound. lia.
Qed.

Lemma pack_block_sum (cfg : Pomodoro) :
  0 <= break_duration cfg -> 0 <= long_break_duration cfg ->
  forall tasks t rem sc log left_ sc',
    0 <= rem ->
    pack_block cfg tasks t rem sc = Ok (log, left_, sc') ->
    0 <= sum (map alloc_duration (sessions_of log)) <= rem.
Proof.
  intros Hb Hl tasks t rem sc log left_ sc' Hrem H.
  apply (pack_block_chained cfg Hb Hl) in H.
  apply chained_sum in H; lia.
Qed.

Lemma allocate_blocks_sum (cfg : Pomodoro) :
  0 <= break_duration cfg -> 0 <= long_break_duration cfg ->
  forall blocks tasks sc log,
    allocate_blocks cfg blocks tasks sc = Ok log ->
    0 <= sum (map alloc_duration (sessions_of log)) <= capacity blocks.
Proof.
  intros Hb Hl.
  assert (Hcap : forall blocks, 0 <= capacity blocks).
  { induction blocks as [ | b blocks IH ]; simpl; [ lia | ].
    pose proof (available_minutes_nonneg b).
    destruct (String.eqb (block_type b) "break"); lia. }
  induction blocks as [ | b blocks IH ]; intros tasks sc log H.
  - simpl in H. inversion H. unfold sum. simpl. lia.
  - simpl in H. destruct tasks as [ | task tasks ].
    { inversion H. specialize (Hcap (b :: blocks)). unfold sum. simpl. exact (conj (Z.le_refl 0) Hcap). }
    simpl capacity.
    destruct (String.eqb (block_type b) "break").
    + specialize (IH _ _ _ H). lia.
    + destruct (pack_block cfg (task :: tasks) (block_start b)
                  (available_minutes b) sc) as [ [ [log1 l1] s1 ] | e ] eqn:Ep;
        simpl in H; [ | discriminate ].
      destruct (allocate_blocks cfg blocks l1 s1) as [log2 | e] eqn:Er;
        simpl in H; [ | discriminate ].
      inversion H. subst log. clear H.
      rewrite sessions_of_app, map_app, sum_app.
      pose proof (available_minutes_nonneg b) as Ha.
      pose proof (pack_block_sum cfg Hb Hl _ _ _ _ _ _ _ Ha Ep).
      specialize (IH _ _ _ Er). lia.
Qed.

Lemma skeleton_capacity (date : Z) :
  capacity (_create_advanced_daily_structure date) = 660.
Proof.
  unfold _create_advanced_daily_structure, capacity, available_minutes,
    datetime_combine.
  cbn [block_type block_start block_end fst snd String.eqb Ascii.eqb Bool.eqb].
  repeat match goal with
         | |- context [(?e - ?s) * 60] =>
             match e with
             | context [date] =>
                 let v := fresh "v" in
                 let Hv := fresh "Hv" in
                 remember (e - s) as v eqn:Hv; ring_simplify in Hv; subst v
             end
         end.
  reflexivity.
Qed.

Lemma sum_at_least (l : list Z) (c : Z) :
  Forall (fun d => c <= d) l -> c * Z.of_nat (List.length l) <= sum l.
Proof.
  induction 1 as [ | d l Hd _ IH ]; [ unfold sum; simpl; lia | ].
  rewrite sum_cons. simpl List.length. lia.
Qed.

(** X3 -- with non-negative break durations, a schedule of the advanced
    tier holds at most 660 minutes of study (the minutes of the day's
    blocks that are no break blocks) in at most 44 items. *)
Theorem advanced_schedule_capacity
  (g : Generator) (date : Z) (tasks : option (list Task)) (s : Schedule) :
  0 <= break_duration (pomodoro_settings g) ->
  0 <= long_break_duration (pomodoro_settings g) ->
  _generate_advanced_schedule g date tasks = Ok s ->
  0 <= Schedule.total_study_time s <= 660
  /\ (List.length (Schedule.tasks s) <= 44)%nat.
Proof.
  intros Hb Hl. unfold _generate_advanced_schedule.
  destruct (match tasks with
            | Some l => l
            | None => _get_enterprise_tasks g date
            end) as [ | t ts ].
  - intros H. inversion H. simpl. lia.
  - intros H. apply bind_Ok in H. destruct H as [allocations [E H]].
    inversion H. subst s. clear H. simpl.
    apply _allocate_tasks_fallback_log in E. destruct E as [log [E ->]].
    unfold allocation_log in E.
    pose proof (allocate_blocks_sum _ Hb Hl _ _ _ _ E) as S.
    rewrite skeleton_capacity in S. split; [ exact S | ].
    pose proof (allocate_blocks_durations _ _ _ _ _ E) as D.
    assert (D15 : Forall (fun d => 15 <= d) (map alloc_duration (sessions_of log))).
    { apply Forall_forall. intros d Hd. apply in_map_iff in Hd.
      destruct Hd as (a & <- & Ha). rewrite Forall_forall in D.
      destruct (D a Ha) as [ [D1 _] _ ]. exact D1. }
    apply sum_at_least in D15. rewrite !length_map in *. lia.
Qed.

Lemma advanced_schedule_capacity_witness :
  0 <= break_duration (pomodoro_settings default_generator)
  /\ 0 <= long_break_duration (pomodoro_settings default_generator)
  /\ exists s,
       _generate_advanced_schedule default_generator sample_date
         (Some (map (fun i => plain_task i (Some 90))
                  [1; 2; 3; 4; 5; 6; 7; 8; 9; 10; 11; 12])) = Ok s
       /\ Schedule.total_study_time s = 660
       /\ 0 <= Schedule.total_study_time s <= 660
       /\ (List.length (Schedule.tasks s) <= 44)%nat.
Proof.
  split; [ simpl; lia | ]. split; [ simpl; lia | ].
  eexists. split; [ vm_compute; reflexivity | ].
  split; [ reflexivity | ].
  apply (advanced_schedule_capacity default_generator sample_date
           (Some (map (fun i => plain_task i (Some 90))
                    [1; 2; 3; 4; 5; 6; 7; 8; 9; 10; 11; 12]))).
  - simpl. lia.
  - simpl. lia.
  - vm_compute. reflexivity.
Defined.

Lemma skeleton_available (date : Z) :
  Forall (fun b => available_minutes b <= 90)
    (_create_advanced_daily_structure date).
Proof.
  pose proof (skeleton_block_lengths date) as L.
  pose proof (skeleton_ordered date) as O.
  rewrite Forall_forall in L |- *. intros b Hb.
  assert (Hse : block_start b <= block_end b).
  { clear L. revert O Hb. generalize (datetime_combine date (8, 0)).
    induction (_create_advanced_daily_structure date) as [ | b' bs IH ];
      intros lo O Hb; [ contradiction | ].
    destruct O as (_ & H2 & H3). destruct Hb as [-> | Hb]; [ exact H2 | ].
    exact (IH _ H3 Hb). }
  pose proof (available_minutes_le b Hse). specialize (L b Hb). lia.
Qed.

Lemma allocate_blocks_too_short (cfg : Pomodoro) :
  forall blocks tasks sc,
    Forall (fun b => available_minutes b < work_duration cfg) blocks ->
    allocate_blocks cfg blocks tasks sc = Ok [].
Proof.
  induction blocks as [ | b blocks IH ]; intros tasks sc F; [ reflexivity | ].
  inversion F as [ | b' bs Hb Hbs ]; subst.
  simpl. destruct tasks as [ | task tasks ]; [ reflexivity | ].
  destruct (String.eqb (block_type b) "break"); [ now apply IH | ].
  simpl pack_block.
  replace (available_minutes b <? work_duration cfg) with true
    by (symmetry; apply Z.ltb_lt; exact Hb).
  simpl. rewrite (IH _ _ Hbs). reflexivity.
Qed.

(** X4 -- when the configured work duration exceeds 90 minutes no block
    of the day can open a session: an allocation the rule-based allocator
    returns is empty, and a schedule the advanced tier returns has no item
    and a total study time of 0, whatever the tasks. *)
Theorem long_work_duration_places_nothing
  (g : Generator) (tasks : list Task) (date : Z) :
  90 < work_duration (pomodoro_settings g) ->
  (forall allocations,
     _allocate_tasks_fallback g tasks date = Ok allocations ->
     allocations = [])
  /\ (forall s,
        _generate_advanced_schedule g date (Some tasks) = Ok s ->
        Schedule.tasks s = [] /\ Schedule.total_study_time s = 0).
Proof.
  intros Hw.
  assert (E : forall l, _allocate_tasks_fallback g l date = Ok []).
  { intros l. unfold _allocate_tasks_fallback, allocation_log.
    rewrite allocate_blocks_too_short; [ reflexivity | ].
    pose proof (skeleton_available date) as A.
    rewrite Forall_forall in A |- *. intros b Hb. specialize (A b Hb). lia. }
  split.
  - intros allocations H. rewrite E in H. now inversion H.
  - intros s. unfold _generate_advanced_schedule. destruct tasks as [ | t ts ].
    + intros H. inversion H. split; reflexivity.
    + rewrite E. simpl. intros H. inversion H. split; reflexivity.
Qed.

Lemma long_work_duration_places_nothing_witness :
  90 < work_duration (pomodoro_settings (with_settings (UserSettings.mk 100 5 15 4 None)))
  /\ _allocate_tasks_fallback (with_settings (UserSettings.mk 100 5 15 4 None))
       [plain_task 1 None; plain_task 2 None] sample_date = Ok []
  /\ (forall allocations,
        _allocate_tasks_fallback (with_settings (UserSettings.mk 100 5 15 4 None))
          [plain_task 1 None; plain_task 2 None] sample_date = Ok allocations ->
        allocations = [])
  /\ (forall s,
        _generate_advanced_schedule (with_settings (UserSettings.mk 100 5 15 4 None))
          sample_date (Some [plain_task 1 None; plain_task 2 None]) = Ok s ->
        Schedule.tasks s = [] /\ Schedule.total_study_time s = 0).
Proof.
  split; [ simpl; lia | ]. split; [ vm_compute; reflexivity | ].
  apply (long_work_duration_places_nothing
           (with_settings (UserSettings.mk 100 5 15 4 None))
           [plain_task 1 None; plain_task 2 None] sample_date).
  simpl. lia.
Defined.

(** ** What every returned schedule satisfies *)

Lemma schedule_of_consistent (date : Z) (by_ai : bool) (l : list allocation) :
  consistent (schedule_of date by_ai l).
Proof.
  unfold consistent, schedule_of. simpl. rewrite map_map. reflexivity.
Qed.

Lemma _generate_productivity_optimized_schedule_shape
  (g : Generator) (date : Z) (tasks : option (list Task)) (s : Schedule) :
  _generate_productivity_optimized_schedule g date tasks = Ok s ->
  exists l, s = schedule_of date true l.
Proof.
  unfold _generate_productivity_optimized_schedule.
  destruct (match tasks with
            | Some l => l
            | None => _get_productivity_tasks g date
            end) as [ | t ts ].
  - intros H. inversion H. now exists [].
  - intros H.
    apply bind_Ok in H. destruct H as [p [_ H]].
    apply bind_Ok in H. destruct H as [b [_ H]].
    apply bind_Ok in H. destruct H as [w [_ H]].
    inversion H. eexists. reflexivity.
Qed.

Lemma _generate_advanced_schedule_shape
  (g : Generator) (date : Z) (tasks : option (list Task)) (s : Schedule) :
  _generate_advanced_schedule g date tasks = Ok s ->
  exists l, s = schedule_of date true l.
Proof.
  unfold _generate_advanced_schedule.
  destruct (match tasks with
            | Some l => l
            | None => _get_enterprise_tasks g date
            end) as [ | t ts ].
  - intros H. inversion H. now exists [].
  - intros H. apply bind_Ok in H. destruct H as [l [_ H]].
    inversion H. now exists l.
Qed.

Lemma _generate_basic_schedule_shape
  (g : Generator) (date : Z) (tasks : option (list Task)) (s : Schedule) :
  _generate_basic_schedule g date tasks = Ok s ->
  exists l, s = schedule_of date false l.
Proof.
  unfold _generate_basic_schedule. intros H.
  apply bind_Ok in H. destruct H as [l [_ H]].
  destruct l as [ | t ts ].
  - inversion H. now exists [].
  - apply bind_Ok in H. destruct H as [times [_ H]].
    inversion H. eexists. reflexivity.
Qed.

(** The tier a returned schedule comes from. *)
Lemma generate_schedule_tier
  (g : Generator) (date : Z) (tasks : option (list Task)) (s : Schedule) :
  generate_schedule g date tasks = Ok s ->
  _generate_productivity_optimized_schedule g date tasks = Ok s
  \/ (exists e, _generate_productivity_optimized_schedule g date tasks = Raise e)
     /\ (_generate_advanced_schedule g date tasks = Ok s
         \/ (exists e, _generate_advanced_schedule g date tasks = Raise e)
            /\ _generate_basic_schedule g date tasks = Ok s).
Proof.
  unfold generate_schedule, try_except.
  destruct (_generate_productivity_optimized_schedule g date tasks) as [s1 | e1];
    [ now left | ].
  intros H. right. split; [ now exists e1 | ].
  destruct (_generate_advanced_schedule g date tasks) as [s2 | e2];
    [ now left | ].
  right. split; [ now exists e2 | exact H ].
Qed.

(** X5 -- a schedule that [generate_schedule] returns is dated as asked,
    its total study time is the sum of the durations of its items, and it
    is marked as not generated by AI only when both upper tiers raised
    (it then comes from the basic tier). *)
Theorem generate_schedule_invariants
  (g : Generator) (date : Z) (tasks : option (list Task)) (s : Schedule) :
  generate_schedule g date tasks = Ok s ->
  Schedule.date s = date
  /\ consistent s
  /\ (Schedule.generated_by_ai s = false ->
      (exists e, _generate_productivity_optimized_schedule g date tasks = Raise e)
      /\ (exists e, _generate_advanced_schedule g date tasks = Raise e)
      /\ _generate_basic_schedule g date tasks = Ok s).
Proof.
  intros H. apply generate_schedule_tier in H.
  destruct H as [H | [He1 [H | [He2 H]]]].
  - apply _generate_productivity_optimized_schedule_shape in H.
    destruct H as [l ->]. split; [ reflexivity | ].
    split; [ apply schedule_of_consistent | discriminate ].
  - apply _generate_advanced_schedule_shape in H.
    destruct H as [l ->]. split; [ reflexivity | ].
    split; [ apply schedule_of_consistent | discriminate ].
  - pose proof H as H'. apply _generate_basic_schedule_shape in H.
    destruct H as [l ->]. split; [ reflexivity | ].
    split; [ apply schedule_of_consistent | auto ].
Qed.

Lemma generate_schedule_invariants_witness :
  exists s,
    generate_schedule (with_settings (UserSettings.mk 25 5 15 0 None)) sample_date
      (Some [plain_task 1 (Some 30); plain_task 2 (Some 400)]) = Ok s
    /\ Schedule.generated_by_ai s = false
    /\ Schedule.date s = sample_date
    /\ consistent s
    /\ (Schedule.generated_by_ai s = false ->
        (exists e, _generate_productivity_optimized_schedule
                     (with_settings (UserSettings.mk 25 5 15 0 None)) sample_date
                     (Some [plain_task 1 (Some 30); plain_task 2 (Some 400)])
                   = Raise e)
        /\ (exists e, _generate_advanced_schedule
                        (with_settings (UserSettings.mk 25 5 15 0 None)) sample_date
                        (Some [plain_task 1 (Some 30); plain_task 2 (Some 400)])
                      = Raise e)
        /\ _generate_basic_schedule
             (with_settings (UserSettings.mk 25 5 15 0 None)) sample_date
             (Some [plain_task 1 (Some 30); plain_task 2 (Some 400)]) = Ok s).
Proof.
  eexists. split; [ vm_compute; reflexivity | ].
  split; [ reflexivity | ].
  apply (generate_schedule_invariants
           (with_settings (UserSettings.mk 25 5 15 0 None)) sample_date
           (Some [plain_task 1 (Some 30); plain_task 2 (Some 400)])).
  vm_compute. reflexivity.
Defined.

(** ** Every item falls on the day asked for *)

Lemma digit_value_range (c : ascii) (a : Z) :
  digit_value c = Some a -> 0 <= a <= 9.
Proof.
  unfold digit_value.
  destruct (N.leb_spec 48 (N_of_ascii c)) as [H1 | H1]; simpl; [ | discriminate ].
  destruct (N.leb_spec (N_of_ascii c) 57) as [H2 | H2]; simpl; [ | discriminate ].
  intros H. inversion H. lia.
Qed.

Ltac along_the_match H :=
  repeat match type of H with
         | context [match ?x with _ => _ end] =>
             destruct x eqn:?; try discriminate H
         end.

Ltac digits_in_range :=
  repeat match goal with
         | E : digit_value _ = Some _ |- _ => apply digit_value_range in E
         | E : (_ || _) = true |- _ => apply orb_true_iff in E; destruct E
         | E : (_ && _) = true |- _ => apply andb_true_iff in E; destruct E
         | E : (_ =? _) = true |- _ => apply Z.eqb_eq in E
         | E : (_ <=? _) = true |- _ => apply Z.leb_le in E
         end.

Lemma parse_minute_range (s : string) (m : Z) :
  parse_minute s = Ok m -> 0 <= m <= 59.
Proof.
  unfold parse_minute. intros H. along_the_match H;
    inversion H; subst; digits_in_range; lia.
Qed.

(** A parsed time is a time of day. *)
Lemma strptime_HM_valid (s : string) (hm : Z * Z) :
  strptime_HM s = Ok hm -> valid_time hm.
Proof.
  unfold strptime_HM, valid_time. intros H. along_the_match H;
    apply bind_Ok in H; destruct H as [m [Em H]];
    apply parse_minute_range in Em; inversion H; subst; simpl;
    digits_in_range; lia.
Qed.

Lemma _get_preferred_times_valid (g : Generator) (times : list (Z * Z)) :
  _get_preferred_times g = Ok times -> Forall valid_time times.
Proof.
  assert (D : Forall valid_time [(9, 0); (14, 0); (19, 0)])
    by (repeat constructor; simpl; lia).
  unfold _get_preferred_times.
  destruct (user_settings g) as [s | ];
    [ destruct (UserSettings.preferred_study_times s) as [stored | ] | ];
    try (intros H; inversion H; exact D).
  intros H. apply map_result_Forall2 in H.
  induction H as [ | x t xs ts Hx _ IH ]; constructor; auto.
  now apply strptime_HM_valid with x.
Qed.

Lemma datetime_combine_on_day (date : Z) (hm : Z * Z) :
  valid_time hm -> on_day date (datetime_combine date hm).
Proof. unfold valid_time, on_day, datetime_combine. lia. Qed.

(** ** The energy-aware allocation *)

Lemma energy_loop_places (date : Z) (preferred_times : list (Z * Z)) :
  forall slots tasks allocations tasks_left,
    energy_loop date preferred_times slots tasks = Ok (allocations, tasks_left) ->
    exists placed,
      tasks = placed ++ tasks_left /\ Forall2 (places date) placed allocations.
Proof.
  induction slots as [ | [hour energy] slots IH ];
    intros tasks allocations tasks_left H.
  - simpl in H. inversion H. subst. exists []. split; [ reflexivity | constructor ].
  - simpl in H. destruct tasks as [ | task_data tasks ].
    { inversion H. subst. exists []. split; [ reflexivity | constructor ]. }
    apply bind_Ok in H. destruct H as [hour_time [Eh H]].
    destruct (existsb (_time_in_range hour_time) preferred_times
              && SFleb (Py.lit 3 1) energy).
    + apply bind_Ok in H. destruct H as [ [a l] [Er H] ].
      inversion H. subst. clear H. simpl.
      apply IH in Er. destruct Er as (placed & -> & F).
      exists (task_data :: placed). split; [ reflexivity | ].
      constructor; [ | exact F ].
      exists hour_time. split; [ | reflexivity ].
      unfold time_of_hour in Eh.
      destruct ((0 <=? hour) && (hour <=? 23)) eqn:E; [ | discriminate ].
      inversion Eh. subst. apply andb_true_iff in E. destruct E as [E1 E2].
      apply Z.leb_le in E1, E2. unfold valid_time. simpl. lia.
    + apply IH in H. exact H.
Qed.

Lemma fallback_loop_places (date : Z) (preferred_times : list (Z * Z)) :
  Forall valid_time preferred_times ->
  forall tasks task_index more,
    fallback_loop date preferred_times task_index tasks = Ok more ->
    Forall2 (places date) tasks more.
Proof.
  intros V. induction tasks as [ | task_data tasks IH ]; intros task_index more H.
  - simpl in H. inversion H. constructor.
  - simpl in H. apply bind_Ok in H. destruct H as [i [_ H]].
    destruct (nth_error preferred_times (Z.to_nat i)) as [t | ] eqn:Et;
      [ | discriminate ].
    apply bind_Ok in H. destruct H as [rest [Er H]].
    inversion H. subst. constructor; [ | now apply IH with (task_index + 1) ].
    exists t. split; [ | reflexivity ].
    apply nth_error_In in Et. rewrite Forall_forall in V. now apply V.
Qed.

Lemma _allocate_energy_aware_times_places
  (g : Generator) (prioritized_tasks : list Prioritized) (date : Z)
  (blocks : list schedule_block) :
  _allocate_energy_aware_times g prioritized_tasks date = Ok blocks ->
  Forall2 (places date) prioritized_tasks blocks.
Proof.
  unfold _allocate_energy_aware_times. intros H.
  apply bind_Ok in H. destruct H as [times [Et H]].
  apply bind_Ok in H. destruct H as [keyed [_ H]].
  apply bind_Ok in H. destruct H as [ [allocations tasks_left] [El H] ].
  apply bind_Ok in H. destruct H as [more [Ef H]].
  inversion H. subst blocks. clear H.
  apply energy_loop_places in El. destruct El as (placed & -> & F1).
  apply fallback_loop_places in Ef; [ | now apply _get_preferred_times_valid with g ].
  now apply Forall2_app.
Qed.

(** X6 -- when the energy-aware allocation returns, it has placed every
    prioritized task, in the order given and once each: block [i] carries
    task [i] with the duration the prioritizer estimated, at a time of day
    on the date asked for; no task is left out and no break is among the
    blocks. *)
Theorem energy_aware_allocation_places_every_task
  (g : Generator) (prioritized_tasks : list Prioritized) (date : Z)
  (blocks : list schedule_block) :
  _allocate_energy_aware_times g prioritized_tasks date = Ok blocks ->
  Forall2 (places date) prioritized_tasks blocks.
Proof. apply _allocate_energy_aware_times_places. Qed.

Lemma energy_aware_allocation_places_every_task_witness :
  Forall2 (places sample_date)
    [ {| p_task := aligned_task 1 None (Some 40);
         priority_score := Py.lit 1 1;
         p_estimated_duration := 40;
         p_category := "General" |};
      {| p_task := aligned_task 2 None (Some 50);
         priority_score := Py.lit 1 1;
         p_estimated_duration := 50;
         p_category := "General" |} ]
    [ TaskBlock (aligned_task 1 None (Some 40))
        (datetime_combine sample_date (10, 0)) 40;
      TaskBlock (aligned_task 2 None (Some 50))
        (datetime_combine sample_date (9, 0)) 50 ].
Proof.
  apply (energy_aware_allocation_places_every_task default_generator).
  vm_compute. reflexivity.
Defined.

Lemma places_task_allocations (date : Z) (l : list Prioritized)
  (blocks : list schedule_block) :
  Forall2 (places date) l blocks ->
  map alloc_task_id (task_allocations blocks)
  = map (fun p => Task.id (p_task p)) l
  /\ map alloc_duration (task_allocations blocks) = map p_estimated_duration l
  /\ Forall (fun a => on_day date (alloc_start a)) (task_allocations blocks).
Proof.
  induction 1 as [ | p b l blocks (t & Vt & ->) _ (I1 & I2 & I3) ]; simpl.
  - repeat split; constructor.
  - rewrite I1, I2. repeat split; try reflexivity.
    constructor; [ | exact I3 ].
    now apply datetime_combine_on_day.
Qed.

(** ** The productivity-optimized tier as a whole *)

Lemma _prioritize_for_productivity_tasks (tasks : list Task) (date : Z)
  (out : list Prioritized) :
  _prioritize_for_productivity tasks date = Ok out ->
  Permutation (map p_task out) tasks.
Proof.
  unfold _prioritize_for_productivity. intros H.
  apply bind_Ok in H. destruct H as [scored [Es H]].
  inversion H. subst out. clear H.
  rewrite (Permutation_map p_task (sorted_reverse_perm _ _ scored)).
  apply map_result_Forall2 in Es.
  induction Es as [ | t p ts ps Hp _ IH ]; simpl; [ reflexivity | ].
  apply prioritize_one_spec in Hp. destruct Hp as [-> _]. now apply perm_skip.
Qed.

(** X7 -- a schedule the productivity-optimized tier returns for a
    submitted task list has exactly one item per submitted task: its items
    are the prioritized tasks, in priority order, each with the duration
    the prioritizer gave it, and the total is the sum of those durations.
    (The injected breaks are not stored.) *)
Theorem productivity_tier_schedules_every_task
  (g : Generator) (date : Z) (tasks : list Task) (s : Schedule) :
  _generate_productivity_optimized_schedule g date (Some tasks) = Ok s ->
  Permutation (map ScheduleTask.task_id (Schedule.tasks s)) (map Task.id tasks)
  /\ (tasks <> [] ->
      exists out,
        _prioritize_for_productivity tasks date = Ok out
        /\ map ScheduleTask.task_id (Schedule.tasks s)
           = map (fun p => Task.id (p_task p)) out
        /\ map ScheduleTask.duration (Schedule.tasks s)
           = map p_estimated_duration out
        /\ Schedule.total_study_time s = sum (map p_estimated_duration out)).
Proof.
  unfold _generate_productivity_optimized_schedule.
  destruct tasks as [ | t ts ].
  { intros H. inversion H. simpl. split; [ reflexivity | congruence ]. }
  intros H.
  apply bind_Ok in H. destruct H as [out [Ep H]].
  apply bind_Ok in H. destruct H as [blocks [Ea H]].
  apply bind_Ok in H. destruct H as [with_breaks [Ei H]].
  inversion H. subst s. clear H.
  unfold _create_productivity_schedule, schedule_of. simpl Schedule.tasks.
  simpl Schedule.total_study_time.
  apply inject_loop_tasks in Ei. rewrite Ei.
  apply _allocate_energy_aware_times_places in Ea.
  apply places_task_allocations in Ea. destruct Ea as (I1 & I2 & _).
  assert (Ids : map ScheduleTask.task_id (map schedule_task_of (task_allocations blocks))
                = map (fun p => Task.id (p_task p)) out).
  { rewrite map_map. exact I1. }
  assert (Ds : map ScheduleTask.duration (map schedule_task_of (task_allocations blocks))
               = map p_estimated_duration out).
  { rewrite map_map. exact I2. }
  split.
  - rewrite Ids. rewrite <- (map_map p_task Task.id).
    apply Permutation_map. now apply _prioritize_for_productivity_tasks with date.
  - intros _. exists out. rewrite I2. auto.
Qed.

Lemma productivity_tier_schedules_every_task_witness :
  exists s,
    _generate_productivity_optimized_schedule default_generator sample_date
      (Some [aligned_task 1 None (Some 40); aligned_task 2 None None]) = Ok s
    /\ map ScheduleTask.duration (Schedule.tasks s) = [40; 30]
    /\ Permutation (map ScheduleTask.task_id (Schedule.tasks s))
         (map Task.id [aligned_task 1 None (Some 40); aligned_task 2 None None])
    /\ ([aligned_task 1 None (Some 40); aligned_task 2 None None] <> [] ->
        exists out,
          _prioritize_for_productivity
            [aligned_task 1 None (Some 40); aligned_task 2 None None] sample_date
          = Ok out
          /\ map ScheduleTask.task_id (Schedule.tasks s)
             = map (fun p => Task.id (p_task p)) out
          /\ map ScheduleTask.duration (Schedule.tasks s)
             = map p_estimated_duration out
          /\ Schedule.total_study_time s = sum (map p_estimated_duration out)).
Proof.
  eexists. split; [ vm_compute; reflexivity | ].
  split; [ reflexivity | ].
  apply (productivity_tier_schedules_every_task default_generator sample_date
           [aligned_task 1 None (Some 40); aligned_task 2 None None]).
  vm_compute. reflexivity.
Defined.

(** ** Every item falls on the day asked for *)

Lemma basic_allocations_on_day (date : Z) :
  forall tasks times,
    Forall valid_time times ->
    Forall (fun a => on_day date (alloc_start a))
      (basic_allocations date tasks times).
Proof.
  induction tasks as [ | task tasks IH ]; intros times V; [ constructor | ].
  destruct times as [ | t times ]; [ constructor | ].
  inversion V; subst. simpl. constructor; [ | now apply IH ].
  now apply datetime_combine_on_day.
Qed.

Lemma schedule_of_on_day (date d : Z) (by_ai : bool) (l : list allocation) :
  Forall (fun a => on_day d (alloc_start a)) l ->
  Forall (fun x => on_day d (ScheduleTask.scheduled_time x))
    (Schedule.tasks (schedule_of date by_ai l)).
Proof.
  intros F. simpl. apply Forall_forall. intros x Hx.
  apply in_map_iff in Hx. destruct Hx as (a & <- & Ha).
  rewrite Forall_forall in F. exact (F a Ha).
Qed.

(** X8 -- with non-negative break durations, every item of a schedule that
    [generate_schedule] returns starts on the date asked for, whichever
    tier produced it. *)
Theorem schedule_items_on_the_date
  (g : Generator) (date : Z) (tasks : option (list Task)) (s : Schedule) :
  0 <= break_duration (pomodoro_settings g) ->
  0 <= long_break_duration (pomodoro_settings g) ->
  generate_schedule g date tasks = Ok s ->
  Forall (fun x => on_day date (ScheduleTask.scheduled_time x)) (Schedule.tasks s).
Proof.
  intros Hb Hl H. apply generate_schedule_tier in H.
  destruct H as [H | [_ [H | [_ H]]]].
  - unfold _generate_productivity_optimized_schedule in H.
    destruct (match tasks with
              | Some l => l
              | None => _get_productivity_tasks g date
              end) as [ | t ts ].
    { inversion H. constructor. }
    apply bind_Ok in H. destruct H as [out [_ H]].
    apply bind_Ok in H. destruct H as [blocks [Ea H]].
    apply bind_Ok in H. destruct H as [with_breaks [Ei H]].
    inversion H. subst s. clear H.
    unfold _create_productivity_schedule. apply schedule_of_on_day.
    apply inject_loop_tasks in Ei. rewrite Ei.
    apply _allocate_energy_aware_times_places in Ea.
    now apply places_task_allocations in Ea.
  - unfold _generate_advanced_schedule in H.
    destruct (match tasks with
              | Some l => l
              | None => _get_enterprise_tasks g date
              end) as [ | t ts ].
    { inversion H. constructor. }
    apply bind_Ok in H. destruct H as [allocations [E H]].
    inversion H. subst s. clear H. apply schedule_of_on_day.
    apply _allocate_tasks_fallback_log in E. destruct E as [log [E ->]].
    unfold allocation_log in E.
    pose proof (allocate_blocks_chained _ Hb Hl _ _ _ _ _ (skeleton_ordered date) E)
      as C.
    pose proof (allocate_blocks_durations _ _ _ _ _ E) as D.
    apply Forall_forall. intros a Ha.
    destruct (chained_In _ _ _ _ C Ha) as [Hs He].
    rewrite Forall_forall in D. destruct (D a Ha) as [ [D1 _] _ ].
    simpl in He. unfold alloc_end, datetime_combine in *. simpl in *.
    unfold on_day. lia.
  - unfold _generate_basic_schedule in H.
    apply bind_Ok in H. destruct H as [l [_ H]].
    destruct l as [ | t ts ].
    { inversion H. constructor. }
    apply bind_Ok in H. destruct H as [times [Et H]].
    inversion H. subst s. clear H. apply schedule_of_on_day.
    apply (basic_allocations_on_day date (t :: ts) times).
    now apply _get_preferred_times_valid with g.
Qed.

Lemma schedule_items_on_the_date_witness :
  0 <= break_duration (pomodoro_settings default_generator)
  /\ 0 <= long_break_duration (pomodoro_settings default_generator)
  /\ exists s,
       generate_schedule default_generator sample_date
         (Some [plain_task 1 None; plain_task 2 (Some 400)]) = Ok s
       /\ Forall (fun x => on_day sample_date (ScheduleTask.scheduled_time x))
            (Schedule.tasks s).
Proof.
  split; [ simpl; lia | ]. split; [ simpl; lia | ].
  eexists. split; [ vm_compute; reflexivity | ].
  apply (schedule_items_on_the_date default_generator sample_date
           (Some [plain_task 1 None; plain_task 2 (Some 400)])).
  - simpl. lia.
  - simpl. lia.
  - vm_compute. reflexivity.
Defined.

(** ** The injected breaks *)

Lemma inject_loop_nth (cfg : Pomodoro) :
  forall time_blocks session_count out,
    inject_loop cfg time_blocks session_count = Ok out ->
    List.length out = (2 * List.length time_blocks - 1)%nat
    /\ forall i block,
         nth_error time_blocks i = Some block ->
         nth_error out (2 * i) = Some block
         /\ ((S i < List.length time_blocks)%nat ->
             nth_error out (2 * i + 1)
             = Some (break_after cfg (session_count + Z.of_nat (S i)) block)).
Proof.
  induction time_blocks as [ | block blocks IH ]; intros sc out H.
  - simpl in H. inversion H. split; [ reflexivity | ].
    intros [ | i ] b Hb; discriminate.
  - simpl in H. destruct blocks as [ | block' blocks ].
    { inversion H. subst out. split; [ reflexivity | ].
      intros [ | i ] b Hb; simpl in Hb.
      - inversion Hb. subst. split; [ reflexivity | simpl; lia ].
      - destruct i; discriminate. }
    apply bind_Ok in H. destruct H as [m [Em H]].
    apply bind_Ok in H. destruct H as [rest [Er H]].
    inversion H. subst out. clear H.
    destruct (IH _ _ Er) as [Hlen Hnth]. split.
    + simpl List.length in *. lia.
    + intros [ | i ] b Hb.
      * simpl in Hb. inversion Hb. subst b. split; [ reflexivity | ].
        intros _. simpl nth_error. f_equal. unfold break_after. f_equal.
        unfold Py.mod_ in Em.
        destruct (sessions_until_long_break cfg =? 0); [ discriminate | ].
        inversion Em. reflexivity.
      * change (nth_error (block :: block' :: blocks) (S i))
          with (nth_error (block' :: blocks) i) in Hb.
        destruct (Hnth i b Hb) as [H1 H2].
        replace (2 * S i)%nat with (S (S (2 * i))) by lia.
        replace (S (S (2 * i)) + 1)%nat with (S (S (2 * i + 1))) by lia.
        split; [ exact H1 | ].
        intros Hlt. change (nth_error (?x :: ?y :: rest) (S (S ?n)))
          with (nth_error rest n).
        rewrite H2 by (simpl List.length in *; lia).
        f_equal. f_equal. lia.
Qed.

(** X9 -- the break injection puts exactly one break between every two
    consecutive blocks and none after the last: block [i] stays at
    position [2 i], and position [2 i + 1] holds a break that starts when
    block [i] ends and is long when [i + 1] is a multiple of the sessions
    until a long break, short otherwise. *)
Theorem inject_breaks_between_blocks
  (g : Generator) (time_blocks : list schedule_block) (date : Z)
  (out : list schedule_block) :
  _inject_productivity_breaks g time_blocks date = Ok out ->
  List.length out = (2 * List.length time_blocks - 1)%nat
  /\ forall i block,
       nth_error time_blocks i = Some block ->
       nth_error out (2 * i) = Some block
       /\ ((S i < List.length time_blocks)%nat ->
           nth_error out (2 * i + 1)
           = Some (break_after (pomodoro_settings g) (Z.of_nat (S i)) block)).
Proof.
  unfold _inject_productivity_breaks. intros H.
  apply inject_loop_nth in H. destruct H as [Hlen Hnth].
  split; [ exact Hlen | ]. intros i block Hb.
  destruct (Hnth i block Hb) as [H1 H2]. split; [ exact H1 | ].
  intros Hlt. rewrite (H2 Hlt). f_equal.
Qed.

Lemma inject_breaks_between_blocks_witness :
  List.length
    [ TaskBlock (plain_task 1 None) 600 25; BreakBlock 625 5;
      TaskBlock (plain_task 2 None) 540 25 ]
  = (2 * List.length [ TaskBlock (plain_task 1 None) 600 25;
                       TaskBlock (plain_task 2 None) 540 25 ] - 1)%nat
  /\ forall i block,
       nth_error [ TaskBlock (plain_task 1 None) 600 25;
                   TaskBlock (plain_task 2 None) 540 25 ] i = Some block ->
       nth_error [ TaskBlock (plain_task 1 None) 600 25; BreakBlock 625 5;
                   TaskBlock (plain_task 2 None) 540 25 ] (2 * i) = Some block
       /\ ((S i < List.length [ TaskBlock (plain_task 1 None) 600 25;
                                TaskBlock (plain_task 2 None) 540 25 ])%nat ->
           nth_error [ TaskBlock (plain_task 1 None) 600 25; BreakBlock 625 5;
                       TaskBlock (plain_task 2 None) 540 25 ] (2 * i + 1)
           = Some (break_after (pomodoro_settings default_generator)
                     (Z.of_nat (S i)) block)).
Proof.
  apply (inject_breaks_between_blocks default_generator
           [ TaskBlock (plain_task 1 None) 600 25;
             TaskBlock (plain_task 2 None) 540 25 ] sample_date).
  vm_compute. reflexivity.
Defined.

(** ** Recorded energy patterns and an empty list of preferred times *)

Lemma recorded_forecast_has_no_energy (g : Generator) (date : Z) :
  energy_patterns g <> [] ->
  map_result (fun he => e <- entry_energy (snd he) ;; Ok (fst he, e))
    (_get_energy_forecast g date) = Raise KeyError.
Proof.
  unfold _get_energy_forecast.
  destruct (energy_patterns g) as [ | hp l ]; [ congruence | ].
  intros _. reflexivity.
Qed.

(** X10 -- once any energy feedback is recorded, the energy-aware
    allocation cannot sort the hours (a recorded entry holds averages and
    no key ['energy']): it raises [KeyError] whenever the preferred times
    parse, the productivity-optimized tier raises for every non-empty task
    list, and [generate_schedule] answers with the lower tiers alone. *)
Theorem recorded_energy_patterns_disable_productivity_tier
  (g : Generator) (date : Z) (t : Task) (ts : list Task) :
  energy_patterns g <> [] ->
  (forall prioritized times,
     _get_preferred_times g = Ok times ->
     _allocate_energy_aware_times g prioritized date = Raise KeyError)
  /\ (exists e,
        _generate_productivity_optimized_schedule g date (Some (t :: ts))
        = Raise e)
  /\ generate_schedule g date (Some (t :: ts))
     = try_except (_generate_advanced_schedule g date (Some (t :: ts)))
         (fun _ => _generate_basic_schedule g date (Some (t :: ts))).
Proof.
  intros Hrec.
  assert (A : forall prioritized,
    exists e, _allocate_energy_aware_times g prioritized date = Raise e).
  { intros prioritized. unfold _allocate_energy_aware_times.
    destruct (_get_preferred_times g) as [times | e]; simpl;
      [ | now exists e ].
    rewrite (recorded_forecast_has_no_energy g date Hrec). simpl.
    now exists KeyError. }
  assert (P : exists e,
    _generate_productivity_optimized_schedule g date (Some (t :: ts)) = Raise e).
  { unfold _generate_productivity_optimized_schedule.
    destruct (_prioritize_for_productivity (t :: ts) date) as [prioritized | e];
      simpl; [ | now exists e ].
    destruct (A prioritized) as [e ->]. simpl. now exists e. }
  split; [ | split; [ exact P | ] ].
  - intros prioritized times Et. unfold _allocate_energy_aware_times.
    rewrite Et. simpl.
    rewrite (recorded_forecast_has_no_energy g date Hrec). reflexivity.
  - destruct P as [e E]. unfold generate_schedule. rewrite E. reflexivity.
Qed.

Lemma recorded_energy_patterns_disable_productivity_tier_witness :
  energy_patterns recorded_generator <> []
  /\ (forall prioritized times,
        _get_preferred_times recorded_generator = Ok times ->
        _allocate_energy_aware_times recorded_generator prioritized sample_date
        = Raise KeyError)
  /\ (exists e,
        _generate_productivity_optimized_schedule recorded_generator sample_date
          (Some [aligned_task 1 None None]) = Raise e)
  /\ generate_schedule recorded_generator sample_date
       (Some [aligned_task 1 None None])
     = try_except
         (_generate_advanced_schedule recorded_generator sample_date
            (Some [aligned_task 1 None None]))
         (fun _ => _generate_basic_schedule recorded_generator sample_date
                     (Some [aligned_task 1 None None])).
Proof.
  assert (H : energy_patterns recorded_generator <> []) by discriminate.
  split; [ exact H | ].
  exact (recorded_energy_patterns_disable_productivity_tier recorded_generator
           sample_date (aligned_task 1 None None) [] H).
Defined.

(** The entries of a default forecast all have their energy. *)
Lemma forecast_entries_keyed (f : Z -> spec_float) (hours : list Z) :
  map_result (fun he => e <- entry_energy (snd he) ;; Ok (fst he, e))
    (map (fun hour => (hour, Forecast (f hour))) hours)
  = Ok (map (fun hour => (hour, f hour)) hours).
Proof.
  induction hours as [ | h hours IH ]; [ reflexivity | ].
  cbn [map map_result]. rewrite IH. reflexivity.
Qed.

(** Without recorded patterns the forecast covers the hours 6 to 21. *)
Lemma default_forecast_keyed (g : Generator) (date : Z) :
  energy_patterns g = [] ->
  exists keyed,
    map_result (fun he => e <- entry_energy (snd he) ;; Ok (fst he, e))
      (_get_energy_forecast g date) = Ok keyed
    /\ Forall (fun s => 0 <= fst s <= 23) keyed.
Proof.
  intros Hno. unfold _get_energy_forecast. rewrite Hno.
  eexists. split; [ apply forecast_entries_keyed | ].
  apply Forall_forall. intros s Hs.
  apply in_map_iff in Hs. destruct Hs as (hour & <- & Hh).
  unfold range in Hh. apply in_map_iff in Hh. destruct Hh as (k & <- & Hk).
  apply in_seq in Hk. cbn [fst]. lia.
Qed.

Lemma energy_loop_no_preferred_time (date : Z) :
  forall slots tasks,
    Forall (fun s => 0 <= fst s <= 23) slots ->
    energy_loop date [] slots tasks = Ok ([], tasks).
Proof.
  induction slots as [ | [hour energy] slots IH ]; intros tasks F;
    [ reflexivity | ].
  inversion F as [ | s l Hh Hl ]; subst. cbn [fst] in Hh.
  cbn [energy_loop]. destruct tasks as [ | task_data tasks ]; [ reflexivity | ].
  unfold time_of_hour.
  replace ((0 <=? hour) && (hour <=? 23)) with true
    by (symmetry; apply andb_true_iff; split; apply Z.leb_le; lia).
  cbn [bind existsb andb]. now apply IH.
Qed.

Lemma fallback_loop_no_preferred_time (date task_index : Z)
  (p : Prioritized) (ps : list Prioritized) :
  fallback_loop date [] task_index (p :: ps) = Raise ZeroDivisionError.
Proof. reflexivity. Qed.

(** X11 -- with an empty list of preferred times stored (what the
    settings form stores when none is entered), no tier uses a preferred
    slot: the energy-aware allocation finds no hour near a preferred time
    and takes the slot index modulo 0, so the productivity-optimized tier
    raises for every non-empty task list, and the basic tier returns a
    schedule without items. *)
Theorem empty_preferred_times
  (g : Generator) (settings : UserSettings) (date : Z) (t : Task) (ts : list Task) :
  user_settings g = Some settings ->
  UserSettings.preferred_study_times settings = Some [] ->
  _get_preferred_times g = Ok []
  /\ (energy_patterns g = [] ->
      forall p ps,
        _allocate_energy_aware_times g (p :: ps) date = Raise ZeroDivisionError)
  /\ (exists e,
        _generate_productivity_optimized_schedule g date (Some (t :: ts))
        = Raise e)
  /\ _generate_basic_schedule g date (Some (t :: ts))
     = Ok (schedule_of date false []).
Proof.
  intros Hs Hp.
  assert (Et : _get_preferred_times g = Ok []).
  { unfold _get_preferred_times. rewrite Hs, Hp. reflexivity. }
  assert (A : energy_patterns g = [] ->
    forall p ps,
      _allocate_energy_aware_times g (p :: ps) date = Raise ZeroDivisionError).
  { intros Hno p ps.
    destruct (default_forecast_keyed g date Hno) as (keyed & Ek & Fk).
    unfold _allocate_energy_aware_times. rewrite Et. cbn [bind].
    rewrite Ek. cbn [bind].
    rewrite energy_loop_no_preferred_time.
    - cbn [bind]. rewrite fallback_loop_no_preferred_time. reflexivity.
    - apply (Permutation_Forall
               (Permutation_sym (sorted_reverse_perm _ _ keyed))).
      exact Fk. }
  split; [ exact Et | ]. split; [ exact A | ]. split.
  - unfold _generate_productivity_optimized_schedule.
    destruct (_prioritize_for_productivity (t :: ts) date) as [prioritized | e]
      eqn:Ep; cbn [bind]; [ | now exists e ].
    assert (Hne : exists p ps, prioritized = p :: ps).
    { apply _prioritize_for_productivity_tasks in Ep.
      destruct prioritized as [ | p ps ]; [ | now exists p, ps ].
      simpl in Ep. apply Permutation_nil in Ep. discriminate. }
    destruct Hne as (p & ps & ->).
    destruct (energy_patterns g) as [ | hp l ] eqn:Epat.
    + rewrite (A eq_refl). cbn [bind]. now exists ZeroDivisionError.
    + assert (Hrec : energy_patterns g <> []) by (rewrite Epat; discriminate).
      unfold _allocate_energy_aware_times. rewrite Et. cbn [bind].
      rewrite (recorded_forecast_has_no_energy g date Hrec). cbn [bind].
      now exists KeyError.
  - unfold _generate_basic_schedule. cbn [bind]. rewrite Et. reflexivity.
Qed.

Lemma empty_preferred_times_witness :
  user_settings (with_settings no_preferred_times) = Some no_preferred_times
  /\ UserSettings.preferred_study_times no_preferred_times = Some []
  /\ _get_preferred_times (with_settings no_preferred_times) = Ok []
  /\ (energy_patterns (with_settings no_preferred_times) = [] ->
      forall p ps,
        _allocate_energy_aware_times (with_settings no_preferred_times)
          (p :: ps) sample_date = Raise ZeroDivisionError)
  /\ (exists e,
        _generate_productivity_optimized_schedule
          (with_settings no_preferred_times) sample_date
          (Some [aligned_task 1 None None]) = Raise e)
  /\ _generate_basic_schedule (with_settings no_preferred_times) sample_date
       (Some [aligned_task 1 None None])
     = Ok (schedule_of sample_date false []).
Proof.
  split; [ reflexivity | ]. split; [ reflexivity | ].
  exact (empty_preferred_times (with_settings no_preferred_times)
           no_preferred_times sample_date (aligned_task 1 None None) []
           eq_refl eq_refl).
Defined.

(** ** Goal alignment and the estimate by category *)

Lemma goal_alignment_loop_linked (task : Task) :
  forall goals acc,
    existsb (linked_to task) goals = true ->
    goal_alignment_loop task goals acc = AlignLinked.
Proof.
  induction goals as [ | goal goals IH ]; intros acc H; [ discriminate | ].
  cbn [existsb] in H. cbn [goal_alignment_loop].
  fold (linked_to task goal).
  destruct (linked_to task goal); [ reflexivity | ].
  cbn [orb] in H. destruct (category_matches task goal); now apply IH.
Qed.

Lemma goal_alignment_loop_unlinked (task : Task) :
  forall goals acc,
    existsb (linked_to task) goals = false ->
    goal_alignment_loop task goals acc
    = if existsb (category_matches task) goals then AlignCategory else acc.
Proof.
  induction goals as [ | goal goals IH ]; intros acc H; [ reflexivity | ].
  cbn [existsb] in H |- *. cbn [goal_alignment_loop].
  fold (linked_to task goal).
  apply orb_false_iff in H. destruct H as [H1 H2]. rewrite H1.
  destruct (category_matches task goal); cbn [orb].
  - rewrite (IH _ H2). now destruct (existsb (category_matches task) goals).
  - now apply IH.
Qed.

(** X12 -- the goal alignment of a task is 0.5 when there is no active
    goal; with active goals it is 1.0 when the task is linked to one of
    them, wherever in the list that goal stands; when it is linked to
    none it is, for categories written in ASCII, 0.7 if the task's
    category occurs in the category of one of the goals (letter case
    apart) and 0.0 otherwise -- less than without any goal. *)
Theorem goal_alignment_values (task : Task) (active_goals : list Goal) :
  (active_goals = [] ->
   _calculate_goal_alignment task active_goals = AlignNeutral)
  /\ (existsb (linked_to task) active_goals = true ->
      _calculate_goal_alignment task active_goals = AlignLinked)
  /\ (active_goals <> [] ->
      existsb (linked_to task) active_goals = false ->
      ascii_category (Task.category task) = true ->
      forallb (fun goal => ascii_category (Goal.category goal)) active_goals
      = true ->
      _calculate_goal_alignment task active_goals
      = if existsb (category_matches task) active_goals
        then AlignCategory else AlignNone).
Proof.
  unfold _calculate_goal_alignment. split; [ | split ].
  - intros ->. reflexivity.
  - destruct active_goals as [ | goal goals ]; [ discriminate | ].
    apply goal_alignment_loop_linked.
  - destruct active_goals as [ | goal goals ]; [ congruence | ].
    intros _ H _ _. now apply goal_alignment_loop_unlinked.
Qed.

Lemma goal_alignment_values_witness :
  [ {| Goal.id := 3; Goal.category := Some "Final EXAMS" |} ] <> []
  /\ existsb (linked_to exam_task)
       [ {| Goal.id := 3; Goal.category := Some "Final EXAMS" |} ] = false
  /\ ascii_category (Task.category exam_task) = true
  /\ forallb (fun goal => ascii_category (Goal.category goal))
       [ {| Goal.id := 3; Goal.category := Some "Final EXAMS" |} ] = true
  /\ _calculate_goal_alignment exam_task
       [ {| Goal.id := 3; Goal.category := Some "Final EXAMS" |} ]
     = AlignCategory.
Proof.
  assert (N : [ {| Goal.id := 3; Goal.category := Some "Final EXAMS" |} ] <> [])
    by discriminate.
  split; [ exact N | ]. split; [ reflexivity | ].
  split; [ reflexivity | ]. split; [ reflexivity | ].
  destruct (goal_alignment_values exam_task
              [ {| Goal.id := 3; Goal.category := Some "Final EXAMS" |} ])
    as (_ & _ & H).
  exact (H N eq_refl eq_refl eq_refl).
Defined.

(** X13 -- the estimate by category always returns, and what it returns
    lies between 20 and 108 minutes: the closing clamp to 15 and 120 never
    changes a value. *)
Theorem estimate_task_duration_range (task : Task) :
  exists d, _estimate_task_duration task = Ok d /\ 20 <= d <= 108.
Proof.
  unfold _estimate_task_duration, category_estimates.
  repeat match goal with
         | |- context [String.eqb ?a ?b] => destruct (String.eqb a b)
         end;
    eexists; (split; [ vm_compute; reflexivity | lia ]).
Qed.

(** ** The days of the round-robin *)

Lemma append_at_nth {A : Type} (l : list (list A)) (i j : nat) (x : A) :
  nth_error (append_at l i x) j
  = if Nat.eqb j i then option_map (fun d => d ++ [x]) (nth_error l j)
    else nth_error l j.
Proof.
  revert i j. induction l as [ | d l IH ]; intros i j.
  - destruct j; cbn [append_at nth_error option_map];
      now destruct (Nat.eqb _ i).
  - destruct i as [ | i ], j as [ | j ]; try reflexivity.
    cbn [append_at nth_error Nat.eqb]. apply IH.
Qed.

Lemma round_robin_length (days : Z) :
  forall tasks i distributions d,
    round_robin days i tasks distributions = Ok d ->
    List.length d = List.length distributions.
Proof.
  induction tasks as [ | task tasks IH ]; intros i dist d H.
  - cbn [round_robin] in H. now inversion H.
  - cbn [round_robin] in H.
    apply bind_Ok in H. destruct H as [day_index [_ H]].
    apply bind_Ok in H. destruct H as [x [_ H]].
    apply IH in H. now rewrite append_at_length in H.
Qed.

Lemma round_robin_contents (days : Z) :
  0 < days ->
  forall tasks i distributions d,
    0 <= i ->
    round_robin days i tasks distributions = Ok d ->
    forall k day,
      nth_error distributions k = Some day ->
      nth_error d k = Some (day ++ at_positions days (Z.of_nat k) i tasks).
Proof.
  intros Hd. induction tasks as [ | task tasks IH ]; intros i dist d Hi H k day Hk.
  - cbn [round_robin] in H. inversion H. subst d.
    cbn [at_positions]. now rewrite app_nil_r.
  - cbn [round_robin] in H.
    apply bind_Ok in H. destruct H as [day_index [Em H]].
    apply bind_Ok in H. destruct H as [x [_ H]].
    unfold Py.mod_ in Em.
    destruct (days =? 0); [ discriminate | ].
    inversion Em. subst day_index. clear Em.
    pose proof (Z.mod_pos_bound i days Hd) as Hm.
    replace (i mod days <? 0) with false in H by (symmetry; apply Z.ltb_ge; lia).
    cbn [at_positions].
    destruct (Z.eqb_spec (i mod days) (Z.of_nat k)) as [E | E].
    + rewrite (IH (i + 1) _ d ltac:(lia) H k (day ++ [task])).
      * now rewrite <- app_assoc.
      * rewrite append_at_nth.
        replace (Nat.eqb k (Z.to_nat (i mod days))) with true
          by (symmetry; apply Nat.eqb_eq; lia).
        now rewrite Hk.
    + apply (IH (i + 1) _ d ltac:(lia) H k day).
      rewrite append_at_nth.
      replace (Nat.eqb k (Z.to_nat (i mod days))) with false
        by (symmetry; apply Nat.eqb_neq; lia).
      exact Hk.
Qed.

(** The positions up to [m] that are [k] modulo [days] are
    [(m + days - 1 - k) / days] in number. *)
Lemma positions_step (days k i : Z) :
  0 < days -> 0 <= k < days -> 0 <= i ->
  (i + 1 + days - 1 - k) / days
  = (i + days - 1 - k) / days + (if i mod days =? k then 1 else 0).
Proof.
  intros Hd Hk Hi.
  pose proof (Z.div_mod i days ltac:(lia)) as Hdm.
  pose proof (Z.mod_pos_bound i days Hd) as Hm.
  set (q := i / days) in *. set (r := i mod days) in *.
  destruct (Z.eqb_spec r k) as [E | E].
  - rewrite <- (Z.div_unique_pos (i + 1 + days - 1 - k) days (q + 1) 0) by lia.
    rewrite <- (Z.div_unique_pos (i + days - 1 - k) days q (days - 1)) by lia.
    lia.
  - destruct (Z.lt_ge_cases r k) as [L | G].
    + rewrite <- (Z.div_unique_pos (i + 1 + days - 1 - k) days q (r + days - k)) by lia.
      rewrite <- (Z.div_unique_pos (i + days - 1 - k) days q (r + days - 1 - k)) by lia.
      lia.
    + rewrite <- (Z.div_unique_pos (i + 1 + days - 1 - k) days (q + 1) (r - k)) by lia.
      rewrite <- (Z.div_unique_pos (i + days - 1 - k) days (q + 1) (r - 1 - k)) by lia.
      lia.
Qed.

Lemma at_positions_length (days k : Z) :
  0 < days -> 0 <= k < days ->
  forall tasks i,
    0 <= i ->
    Z.of_nat (List.length (at_positions days k i tasks))
    = (i + Z.of_nat (List.length tasks) + days - 1 - k) / days
      - (i + days - 1 - k) / days.
Proof.
  intros Hd Hk. induction tasks as [ | t tasks IH ]; intros i Hi.
  - cbn [at_positions List.length]. replace (i + Z.of_nat 0) with i by lia. lia.
  - cbn [at_positions].
    pose proof (positions_step days k i Hd Hk Hi) as S.
    specialize (IH (i + 1) ltac:(lia)).
    replace (i + Z.of_nat (List.length (t :: tasks)))
      with (i + 1 + Z.of_nat (List.length tasks))
      by (cbn [List.length]; lia).
    destruct (i mod days =? k); cbn [List.length]; lia.
Qed.

(** X14 -- for a positive day count the round-robin gives day [k] the
    tasks at the positions [k], [k + days], [k + 2 days], ... of the list,
    in their order: [(n + days - 1 - k) / days] of the [n] tasks, so that
    no day holds two tasks more than another and the first days are the
    fuller ones. *)
Theorem round_robin_day_contents
  (tasks : list Task) (days : Z) (d : list (list Task)) (k : Z) :
  0 < days ->
  0 <= k < days ->
  _distribute_tasks_fallback tasks days = Ok d ->
  nth_error d (Z.to_nat k) = Some (at_positions days k 0 tasks)
  /\ Z.of_nat (List.length (at_positions days k 0 tasks))
     = (Z.of_nat (List.length tasks) + days - 1 - k) / days.
Proof.
  intros Hd Hk H. unfold _distribute_tasks_fallback in H. split.
  - rewrite (round_robin_contents days Hd tasks 0 (empty_days days) d
               ltac:(lia) H (Z.to_nat k) []).
    + now rewrite Z2Nat.id by lia.
    + unfold empty_days. apply nth_error_repeat. lia.
  - rewrite (at_positions_length days k Hd Hk tasks 0 ltac:(lia)).
    rewrite (Z.div_small (0 + days - 1 - k) days) by lia.
    replace (0 + Z.of_nat (List.length tasks)) with (Z.of_nat (List.length tasks))
      by lia.
    lia.
Qed.

Lemma round_robin_day_contents_witness :
  0 < 3
  /\ 0 <= 1 < 3
  /\ _distribute_tasks_fallback
       (map (fun i => plain_task i None) [1; 2; 3; 4; 5; 6; 7; 8; 9; 10]) 3
     = Ok [ map (fun i => plain_task i None) [1; 4; 7; 10];
            map (fun i => plain_task i None) [2; 5; 8];
            map (fun i => plain_task i None) [3; 6; 9] ]
  /\ nth_error
       [ map (fun i => plain_task i None) [1; 4; 7; 10];
         map (fun i => plain_task i None) [2; 5; 8];
         map (fun i => plain_task i None) [3; 6; 9] ] (Z.to_nat 1)
     = Some (at_positions 3 1 0
               (map (fun i => plain_task i None) [1; 2; 3; 4; 5; 6; 7; 8; 9; 10]))
  /\ Z.of_nat
       (List.length
          (at_positions 3 1 0
             (map (fun i => plain_task i None) [1; 2; 3; 4; 5; 6; 7; 8; 9; 10])))
     = (Z.of_nat
          (List.length
             (map (fun i => plain_task i None) [1; 2; 3; 4; 5; 6; 7; 8; 9; 10]))
        + 3 - 1 - 1) / 3.
Proof.
  assert (E : _distribute_tasks_fallback
                (map (fun i => plain_task i None) [1; 2; 3; 4; 5; 6; 7; 8; 9; 10]) 3
              = Ok [ map (fun i => plain_task i None) [1; 4; 7; 10];
                     map (fun i => plain_task i None) [2; 5; 8];
                     map (fun i => plain_task i None) [3; 6; 9] ])
    by (vm_compute; reflexivity).
  split; [ lia | ]. split; [ lia | ]. split; [ exact E | ].
  apply (round_robin_day_contents _ 3 _ 1); [ lia | lia | exact E ].
Defined.

(** ** Conflicts *)

Lemma energy_conflict_of_cases (g : Generator) (x : ScheduleTask) :
  energy_conflict_of g x = []
  \/ energy_conflict_of g x
     = [EnergyConflict (hour_of (ScheduleTask.scheduled_time x))].
Proof.
  unfold energy_conflict_of. cbv zeta.
  destruct (SFltb _ _); [ now right | now left ].
Qed.

Lemma energy_conflicts_no_workload (g : Generator) (l : list ScheduleTask) (n : Z) :
  ~ In (WorkloadConflict n) (flat_map (energy_conflict_of g) l).
Proof.
  intros H. apply in_flat_map in H. destruct H as (x & _ & H).
  destruct (energy_conflict_of_cases g x) as [E | E]; rewrite E in H.
  - contradiction.
  - destruct H as [H | H]; [ discriminate | contradiction ].
Qed.

Lemma energy_conflicts_length (g : Generator) (l : list ScheduleTask) :
  (List.length (flat_map (energy_conflict_of g) l) <= List.length l)%nat.
Proof.
  induction l as [ | x l IH ]; [ apply Nat.le_refl | ].
  cbn [flat_map]. rewrite length_app.
  destruct (energy_conflict_of_cases g x) as [E | E]; rewrite E;
    cbn [List.length]; lia.
Qed.

Lemma no_patterns_no_energy_conflict (g : Generator) (l : list ScheduleTask) :
  energy_patterns g = [] ->
  flat_map (energy_conflict_of g) l = [].
Proof.
  intros Hno. induction l as [ | x l IH ]; [ reflexivity | ].
  cbn [flat_map]. rewrite IH.
  unfold energy_conflict_of, avg_energy_at. rewrite Hno. cbn [find].
  cbv zeta.
  replace (SFltb (Py.lit 5 1) (Py.lit 3 1)) with false
    by (vm_compute; reflexivity).
  reflexivity.
Qed.

(** X15 -- the conflict detection reports a workload conflict exactly for
    the schedules that the workload analysis calls overloaded (more than
    300 minutes); it reports at most one conflict per item besides, and
    without recorded energy patterns no energy conflict at all. *)
Theorem workload_conflict_iff_overloaded (g : Generator) (schedule : Schedule) :
  (In (WorkloadConflict (Schedule.total_study_time schedule))
      (detect_schedule_conflicts g schedule)
   <-> balance_level (_analyze_workload_balance schedule) = "overloaded")
  /\ (List.length (detect_schedule_conflicts g schedule)
      <= List.length (Schedule.tasks schedule) + 1)%nat
  /\ (energy_patterns g = [] ->
      detect_schedule_conflicts g schedule
      = if 300 <? Schedule.total_study_time schedule
        then [WorkloadConflict (Schedule.total_study_time schedule)]
        else []).
Proof.
  unfold detect_schedule_conflicts, _analyze_workload_balance.
  split; [ | split ].
  - split.
    + intros H. apply in_app_or in H. destruct H as [H | H].
      { now apply energy_conflicts_no_workload in H. }
      destruct (300 <? Schedule.total_study_time schedule);
        [ reflexivity | contradiction ].
    + intros H. apply in_or_app. right.
      destruct (300 <? Schedule.total_study_time schedule); [ now left | ].
      destruct (180 <? Schedule.total_study_time schedule); discriminate.
  - rewrite length_app.
    pose proof (energy_conflicts_length g (Schedule.tasks schedule)).
    destruct (300 <? Schedule.total_study_time schedule); cbn [List.length]; lia.
  - intros Hno. now rewrite no_patterns_no_energy_conflict.
Qed.

Lemma workload_conflict_iff_overloaded_witness :
  energy_patterns default_generator = []
  /\ detect_schedule_conflicts default_generator
       (schedule_of sample_date true
          [(1, datetime_combine sample_date (9, 0), 310)])
     = [WorkloadConflict 310].
Proof.
  split; [ reflexivity | ].
  destruct (workload_conflict_iff_overloaded default_generator
              (schedule_of sample_date true
                 [(1, datetime_combine sample_date (9, 0), 310)]))
    as (_ & _ & H).
  exact (H eq_refl).
Defined.

(** ** Multi-day generation *)

Lemma generate_schedule_date
  (g : Generator) (date : Z) (tasks : option (list Task)) (s : Schedule) :
  generate_schedule g date tasks = Ok s -> Schedule.date s = date.
Proof.
  intros H. apply generate_schedule_tier in H.
  destruct H as [H | [_ [H | [_ H]]]].
  - apply _generate_productivity_optimized_schedule_shape in H.
    now destruct H as [l ->].
  - apply _generate_advanced_schedule_shape in H. now destruct H as [l ->].
  - apply _generate_basic_schedule_shape in H. now destruct H as [l ->].
Qed.

Lemma date_plus_days_Ok (date k d : Z) :
  date_plus_days date k = Ok d -> d = date + k.
Proof.
  unfold date_plus_days.
  destruct ((1 <=? date + k) && (date + k <=? date_max)); intros H;
    now inversion H.
Qed.

Lemma multi_day_fallback_loop_dates (g : Generator) (pending : Z -> Pending)
  (start_date : Z) :
  forall offsets schedules,
    multi_day_fallback_loop g pending start_date offsets = Ok schedules ->
    exists kept,
      dated_from start_date kept schedules
      /\ (forall P : Z -> Prop, Forall P offsets -> Forall P kept)
      /\ (forall R : Z -> Z -> Prop,
            StronglySorted R offsets -> StronglySorted R kept)
      /\ Forall (fun s => 0 < Schedule.total_study_time s) schedules.
Proof.
  induction offsets as [ | o offsets IH ]; intros schedules H.
  - cbn [multi_day_fallback_loop] in H. inversion H. exists [].
    repeat split; auto; constructor.
  - cbn [multi_day_fallback_loop] in H.
    apply bind_Ok in H. destruct H as [current_date [Ed H]].
    apply bind_Ok in H. destruct H as [schedule [Es H]].
    apply bind_Ok in H. destruct H as [rest [Er H]].
    apply date_plus_days_Ok in Ed. apply generate_schedule_date in Es.
    destruct (IH _ Er) as (kept & Hd & HP & HR & Ht).
    destruct (Z.ltb_spec 0 (Schedule.total_study_time schedule)) as [L | L];
      inversion H; subst schedules; clear H.
    + exists (o :: kept). split; [ | split; [ | split ] ].
      * unfold dated_from in *. cbn [map]. now rewrite Es, Ed, Hd.
      * intros P F. inversion F; subst. constructor; auto.
      * intros R S. inversion S as [ | o' l' Sl Fl ]; subst.
        constructor; [ now apply HR | now apply HP ].
      * constructor; assumption.
    + exists kept. split; [ exact Hd | split; [ | split ] ].
      * intros P F. inversion F; subst. auto.
      * intros R S. inversion S; subst. auto.
      * exact Ht.
Qed.

Lemma schedule_days_dates (g : Generator) (start_date : Z) :
  forall day_distributions day_offset schedules,
    schedule_days g start_date day_offset day_distributions = Ok schedules ->
    exists kept,
      dated_from start_date kept schedules
      /\ StronglySorted Z.lt kept
      /\ Forall (fun o => day_offset <= o
                          < day_offset + Z.of_nat (List.length day_distributions))
           kept.
Proof.
  induction day_distributions as [ | day_tasks rest IH ];
    intros day_offset schedules H.
  - cbn [schedule_days] in H. inversion H. exists [].
    repeat split; constructor.
  - cbn [schedule_days] in H.
    apply bind_Ok in H. destruct H as [current_date [Ed H]].
    apply date_plus_days_Ok in Ed.
    assert (W : forall kept,
      Forall (fun o => day_offset + 1 <= o
                       < day_offset + 1 + Z.of_nat (List.length rest)) kept ->
      Forall (fun o => day_offset <= o
                       < day_offset + Z.of_nat (List.length (day_tasks :: rest)))
        kept).
    { intros kept F. apply Forall_forall. intros o Ho.
      rewrite Forall_forall in F. specialize (F o Ho).
      cbn [List.length]. lia. }
    destruct day_tasks as [ | t ts ].
    + destruct (IH _ _ H) as (kept & Hd & Hs & Hr).
      exists kept. split; [ exact Hd | ]. split; [ exact Hs | now apply W ].
    + apply bind_Ok in H. destruct H as [schedule [Es H]].
      apply bind_Ok in H. destruct H as [more [Er H]].
      inversion H. subst schedules. clear H.
      apply generate_schedule_date in Es.
      destruct (IH _ _ Er) as (kept & Hd & Hs & Hr).
      exists (day_offset :: kept). split; [ | split ].
      * unfold dated_from in *. cbn [map]. now rewrite Es, Ed, Hd.
      * constructor; [ exact Hs | ].
        apply Forall_forall. intros o Ho.
        rewrite Forall_forall in Hr. specialize (Hr o Ho). lia.
      * constructor; [ cbn [List.length]; lia | now apply W ].
Qed.

Lemma range_sorted (a : Z) (n : nat) :
  StronglySorted Z.lt (range a n)
  /\ Forall (fun o => a <= o < a + Z.of_nat n) (range a n).
Proof.
  unfold range. split.
  - assert (S : forall m s, StronglySorted Z.lt
                              (map (fun k => a + Z.of_nat k) (seq s m))).
    { induction m as [ | m IH ]; intros s; cbn [seq map]; constructor.
      - apply IH.
      - apply Forall_forall. intros o Ho. apply in_map_iff in Ho.
        destruct Ho as (k & <- & Hk). apply in_seq in Hk. lia. }
    apply S.
  - apply Forall_forall. intros o Ho. apply in_map_iff in Ho.
    destruct Ho as (k & <- & Hk). apply in_seq in Hk. lia.
Qed.

Lemma _distribute_tasks_across_days_length
  (tasks : list Task) (days : Z) (response : result string)
  (d : list (list Task)) :
  _distribute_tasks_across_days tasks days response = Ok d ->
  List.length d = Z.to_nat days.
Proof.
  unfold _distribute_tasks_across_days. destruct tasks as [ | t ts ].
  - intros H. inversion H. unfold empty_days. apply repeat_length.
  - unfold try_except, json_loads_unbound.
    assert (F : _distribute_tasks_fallback (t :: ts) days = Ok d ->
                List.length d = Z.to_nat days).
    { unfold _distribute_tasks_fallback. intros H.
      apply round_robin_length in H. rewrite H.
      unfold empty_days. apply repeat_length. }
    destruct response as [text | e]; exact F.
Qed.

(** X16 -- the schedules of a multi-day generation are dated within the
    window asked for and in ascending order, one at most for each day
    [start_date + k] with [0 <= k < days]; without the external model,
    only schedules with study time are kept. *)
Theorem multi_day_schedules_in_date_order
  (g : Generator) (pending : Z -> Pending) (all_tasks : list Task)
  (start_date days : Z) (response : result string) (schedules : list Schedule) :
  generate_multi_day_schedule g pending all_tasks start_date days response
  = Ok schedules ->
  exists offsets,
    map Schedule.date schedules = map (fun o => start_date + o) offsets
    /\ StronglySorted Z.lt offsets
    /\ Forall (fun o => 0 <= o < days) offsets
    /\ (api_available g = false ->
        Forall (fun s => 0 < Schedule.total_study_time s) schedules).
Proof.
  unfold generate_multi_day_schedule.
  destruct (api_available g); cbn [negb]; intros H.
  - apply bind_Ok in H. destruct H as [d [Ed H]].
    apply _distribute_tasks_across_days_length in Ed.
    apply schedule_days_dates in H. destruct H as (kept & Hd & Hs & Hr).
    exists kept. split; [ exact Hd | ]. split; [ exact Hs | ].
    split; [ | discriminate ].
    apply Forall_forall. intros o Ho.
    rewrite Forall_forall in Hr. specialize (Hr o Ho). lia.
  - unfold _generate_multi_day_fallback in H.
    apply multi_day_fallback_loop_dates in H.
    destruct H as (kept & Hd & HP & HR & Ht).
    destruct (range_sorted 0 (Z.to_nat days)) as [Rs Rf].
    exists kept. split; [ exact Hd | ]. split; [ now apply HR | ].
    split; [ | intros _; exact Ht ].
    apply (HP (fun o => 0 <= o < days)).
    apply Forall_forall. intros o Ho.
    rewrite Forall_forall in Rf. specialize (Rf o Ho). lia.
Qed.

Lemma multi_day_schedules_in_date_order_witness :
  exists schedules,
    generate_multi_day_schedule default_generator
      (fun _ => {| productivity_query := [plain_task 1 None];
                   enterprise_query := [plain_task 1 None];
                   basic_query := [plain_task 1 None] |})
      [] sample_date 2 (Raise ExternalFailure) = Ok schedules
    /\ map Schedule.date schedules = [sample_date; sample_date + 1]
    /\ exists offsets,
         map Schedule.date schedules = map (fun o => sample_date + o) offsets
         /\ StronglySorted Z.lt offsets
         /\ Forall (fun o => 0 <= o < 2) offsets
         /\ (api_available default_generator = false ->
             Forall (fun s => 0 < Schedule.total_study_time s) schedules).
Proof.
  eexists. split; [ vm_compute; reflexivity | ].
  split; [ reflexivity | ].
  apply (multi_day_schedules_in_date_order default_generator
           (fun _ => {| productivity_query := [plain_task 1 None];
                        enterprise_query := [plain_task 1 None];
                        basic_query := [plain_task 1 None] |})
           [] sample_date 2 (Raise ExternalFailure)).
  vm_compute. reflexivity.
Defined.
